(** * Webhook-coupon: the popup-subscription handlers, embedded in Rocq

    The repository holds four variants of one HTTP endpoint [handler]:
    - [Webhook1]: src/api/webhook.js, lines 4-108 (create only),
    - [Webhook2]: src/api/webhook.js, lines 109-365 (search, update, create),
    - [Part000]:  src/unnamed/part_000,
    - [Part001]:  src/unnamed/part_001.

    Each handler is translated into a small state-and-exit monad.  The
    state records the outbound [fetch] calls in the order they are issued
    and the number of clock reads; an exit is either the HTTP response the
    handler sends ([return res.status(..).json(..)]) or a thrown error.
    Every step that can throw is a step of the monad, in the order in
    which the source evaluates it: property reads on [null] and
    [undefined], [JSON.parse], [fetch], and the conversions to a string or
    a number that template literals, [RegExp.prototype.test],
    [encodeURIComponent] and [>] make.

    Not modelled, because no status, body or outbound call depends on it:
    the [res.setHeader] calls (CORS and cache headers) and [console.log] /
    [console.error] output.  A property read that only feeds a log line is
    kept when it can throw. *)

From Stdlib Require Import ZArith List String Ascii Bool Lia.
From Stdlib Require Import DecimalString.
Import ListNotations.
Set Warnings "-register-all".
Open Scope string_scope.
Open Scope Z_scope.

(** ** JavaScript values *)

(** JSON-shaped JavaScript values: what [JSON.parse] and the platform's
    body parser produce.  Strings are sequences of code units below 256
    (so no string holds a lone surrogate); numbers are the integers
    (every id the platform assigns is one).  An object is its list of own
    properties in insertion order; none of them is a function. *)
Inductive value : Type :=
| VUndef
| VNull
| VBool (b : bool)
| VNum (n : Z)
| VStr (s : string)
| VArr (items : list value)
| VObj (fields : list (string * value)).

(** ToBoolean: what [!v], [v || d], [v ? a : b] and [a && b] test. *)
Definition truthy (v : value) : bool :=
  match v with
  | VUndef | VNull => false
  | VBool b => b
  | VNum n => negb (n =? 0)
  | VStr s => negb (s =? "")%string
  | VArr _ | VObj _ => true
  end.

(** [a || b] *)
Definition js_or (a b : value) : value := if truthy a then a else b.

(** [typeof v] *)
Definition typeof (v : value) : string :=
  match v with
  | VUndef => "undefined"
  | VNull | VArr _ | VObj _ => "object"
  | VBool _ => "boolean"
  | VNum _ => "number"
  | VStr _ => "string"
  end.

Fixpoint lookup (k : string) (fields : list (string * value)) : value :=
  match fields with
  | [] => VUndef
  | (k', v) :: rest => if (k =? k')%string then v else lookup k rest
  end.

(** Whether an object has an own property [k]. *)
Fixpoint owns (k : string) (fields : list (string * value)) : bool :=
  match fields with
  | [] => false
  | (k', _) :: rest => (k =? k')%string || owns k rest
  end.

(** Property read [v.k] on a value that is neither [null] nor [undefined]
    (the caller raises the TypeError for those).  Strings and arrays own
    [length]; the names read by the handlers are on no prototype. *)
Definition prop (k : string) (v : value) : value :=
  match v with
  | VObj fields => lookup k fields
  | VArr items => if (k =? "length")%string then VNum (Z.of_nat (List.length items)) else VUndef
  | VStr s => if (k =? "length")%string then VNum (Z.of_nat (String.length s)) else VUndef
  | _ => VUndef
  end.

(** [v[0]] on a value that is neither [null] nor [undefined]. *)
Definition index0 (v : value) : value :=
  match v with
  | VArr items => List.hd VUndef items
  | VStr (String c _) => VStr (String c "")
  | VObj fields => lookup "0" fields
  | _ => VUndef
  end.

Definition nullish (v : value) : bool :=
  match v with
  | VUndef | VNull => true
  | _ => false
  end.

(** ** Strings *)

(** The decimal numeral of an integer. *)
Definition string_of_Z (n : Z) : string := NilZero.string_of_int (Z.to_int n).

Fixpoint join (sep : string) (l : list string) : string :=
  match l with
  | [] => ""
  | [s] => s
  | s :: rest => s ++ sep ++ join sep rest
  end.

Fixpoint includes (needle hay : string) : bool :=
  if String.prefix needle hay then true
  else match hay with
       | EmptyString => false
       | String _ rest => includes needle rest
       end.

(** [s.substring(0, n)] *)
Definition substring0 (n : nat) (s : string) : string := String.substring 0 n s.

Definition hex_digit (n : nat) : ascii :=
  match n with
  | 0 => "0" | 1 => "1" | 2 => "2" | 3 => "3" | 4 => "4" | 5 => "5"
  | 6 => "6" | 7 => "7" | 8 => "8" | 9 => "9" | 10 => "A" | 11 => "B"
  | 12 => "C" | 13 => "D" | 14 => "E" | _ => "F"
  end%nat%char.

Definition percent (byte : nat) : string :=
  String "%" (String (hex_digit (byte / 16)) (String (hex_digit (byte mod 16)) "")).

Definition uri_unreserved (c : ascii) : bool :=
  let n := nat_of_ascii c in
  ((65 <=? n) && (n <=? 90) || (97 <=? n) && (n <=? 122) || (48 <=? n) && (n <=? 57)
   || (n =? 45) || (n =? 95) || (n =? 46) || (n =? 33) || (n =? 126)
   || (n =? 42) || (n =? 39) || (n =? 40) || (n =? 41))%nat.

(** [encodeURIComponent] on a string: unreserved characters stay, every
    other code unit is written as the percent-escaped bytes of its UTF-8
    encoding.  (It throws a URIError on a lone surrogate only, which no
    string of code units below 256 holds.) *)
Fixpoint encodeURIComponent (s : string) : string :=
  match s with
  | EmptyString => ""
  | String c rest =>
      let n := nat_of_ascii c in
      (if uri_unreserved c then String c ""
       else if (n <? 128)%nat then percent n
       else percent (192 + n / 64) ++ percent (128 + n mod 64))
      ++ encodeURIComponent rest
  end.

(** ** The e-mail pattern *)

(** Regular expressions over character classes, matched against the whole
    input (the pattern is anchored by [^] and [$]). *)
Inductive regex : Type :=
| Never
| Empty
| Class (p : ascii -> bool)
| Seq (r1 r2 : regex)
| Alt (r1 r2 : regex)
| Star (r : regex).

Definition Plus (r : regex) : regex := Seq r (Star r).

Fixpoint nullable (r : regex) : bool :=
  match r with
  | Never => false
  | Empty => true
  | Class _ => false
  | Seq r1 r2 => nullable r1 && nullable r2
  | Alt r1 r2 => nullable r1 || nullable r2
  | Star _ => true
  end.

Fixpoint deriv (c : ascii) (r : regex) : regex :=
  match r with
  | Never | Empty => Never
  | Class p => if p c then Empty else Never
  | Seq r1 r2 =>
      if nullable r1 then Alt (Seq (deriv c r1) r2) (deriv c r2)
      else Seq (deriv c r1) r2
  | Alt r1 r2 => Alt (deriv c r1) (deriv c r2)
  | Star r1 => Seq (deriv c r1) (Star r1)
  end.

Fixpoint matches (r : regex) (s : string) : bool :=
  match s with
  | EmptyString => nullable r
  | String c rest => matches (deriv c r) rest
  end.

(** [\s] on code units below 256: TAB, LF, VT, FF, CR, space, NBSP. *)
Definition is_space (c : ascii) : bool :=
  let n := nat_of_ascii c in
  ((9 <=? n) && (n <=? 13) || (n =? 32) || (n =? 160))%nat.

(** [[^\s@]] *)
Definition not_space_at (c : ascii) : bool :=
  negb (is_space c) && negb (Ascii.eqb c "@").

Definition lit (a : ascii) : regex := Class (Ascii.eqb a).

(** [/^[^\s@]+@[^\s@]+\.[^\s@]+$/] *)
Definition emailRegex : regex :=
  Seq (Plus (Class not_space_at))
      (Seq (lit "@")
           (Seq (Plus (Class not_space_at))
                (Seq (lit ".") (Plus (Class not_space_at))))).

(** ** The world a handler runs in *)

(** A thrown JavaScript error: [error.message] and [error.stack]. *)
Record JsError : Type := mkError { message : string; stack : string }.

(** What the handler sends back: [res.status(n).json(v)] is
    [mkResponse n (Some v)] and [res.status(n).end()] is [mkResponse n None].
    [res.json] serialises with [JSON.stringify], which leaves out the
    properties whose value is [undefined]. *)
Record HttpResponse : Type := mkResponse { status : Z; body : option value }.

(** An outbound [fetch(url, {method, headers, body})].  The payload is the
    object handed to [JSON.stringify], which leaves out the properties
    whose value is [undefined]. *)
Record Call : Type := mkCall {
  call_method : string;
  call_url : string;
  call_headers : list (string * string);
  call_payload : option value
}.

(** The platform's answer to a [fetch]: [response.status] (an integer
    below 1000) and the body text that [response.text()] resolves to
    (reading the body of an answer that arrived is taken to succeed). *)
Record FetchResponse : Type := mkFetchResponse { resp_status : Z; resp_text : string }.

(** [response.ok] *)
Definition resp_ok (r : FetchResponse) : bool :=
  (200 <=? resp_status r) && (resp_status r <=? 299).

Record Request : Type := mkRequest { req_method : string; req_body : value }.

(** Everything outside the handler: the remote platform (its answer may
    depend on the calls made so far; [inl] is a rejected [fetch]), the
    clock, [process.env], and the engine's built-ins that are not
    re-implemented here. *)
Record World : Type := mkWorld {
  (* the answer to a call, given the calls made before it *)
  fetch : list Call -> Call -> JsError + FetchResponse;
  (* the time shown at the n-th [new Date()] of the invocation *)
  clock : nat -> Z;
  toISOString : Z -> string;
  toLocaleDateString : Z -> string;
  (* [process.env] *)
  env : string -> option string;
  (* [JSON.parse]; [inl] is the SyntaxError it throws *)
  JSON_parse : string -> JsError + value;
  (* the TypeError for reading the named property of null or undefined *)
  TypeError : string -> JsError;
  (* the TypeError for an object that cannot be converted to a primitive *)
  cannot_convert : JsError;
  (* the [stack] of a [new Error(msg)] *)
  error_stack : string -> string;
  (* whether ToNumber of a string exceeds 0 *)
  StringToNumber_gt0 : string -> bool;
  (* Number::toString of an integer beyond 2^53 in magnitude *)
  big_Number_toString : Z -> string
}.

(** [new Error(msg)] *)
Definition new_Error (w : World) (msg : string) : JsError :=
  mkError msg (error_stack w msg).

(** ** Conversions *)

(** Number::toString of an integer.  Up to [Number.MAX_SAFE_INTEGER] in
    magnitude it is the decimal numeral; beyond, the engine writes the
    shortest digits that read back as the same Number (exponent form from
    10^21), which is left to the world. *)
Definition Number_toString (w : World) (n : Z) : string :=
  if Z.abs n <=? 9007199254740991 then string_of_Z n else big_Number_toString w n.

(** Whether the conversion of a value to a primitive completes.  It
    calls the value's [toString], then its [valueOf], and throws a
    TypeError when neither is callable and returns a primitive.  No
    property of a JSON-shaped object is callable and the inherited
    [valueOf] returns the object itself, so the conversion of an object
    completes exactly when the object does not own a [toString] property
    (the inherited one then answers); that of an array, whose [toString]
    joins its elements, when the conversions of all its elements do. *)
Fixpoint converts (v : value) : bool :=
  match v with
  | VObj fields => negb (owns "toString" fields)
  | VArr items => List.forallb converts items
  | _ => true
  end.

(** The string that ToString yields for a value on which it completes
    (see [ToString] below, the only way the handlers reach it). *)
Fixpoint toStr (w : World) (v : value) : string :=
  match v with
  | VUndef => "undefined"
  | VNull => "null"
  | VBool true => "true"
  | VBool false => "false"
  | VNum n => Number_toString w n
  | VStr s => s
  | VArr items =>
      join "," (List.map (fun x => match x with
                                   | VUndef | VNull => ""
                                   | _ => toStr w x
                                   end) items)
  | VObj _ => "[object Object]"
  end.

(** ToString, as applied by template literals, [RegExp.prototype.test]
    and [encodeURIComponent]: [None] when it throws the TypeError. *)
Definition ToString (w : World) (v : value) : option string :=
  if converts v then Some (toStr w v) else None.

(** [v > 0] for a value whose conversion to a primitive completes. *)
Definition gt0 (w : World) (v : value) : bool :=
  match v with
  | VNum n => 0 <? n
  | VBool b => b
  | VStr s => StringToNumber_gt0 w s
  | VArr _ => StringToNumber_gt0 w (toStr w v)
  | VUndef | VNull | VObj _ => false
  end.

(** [customers && customers.length > 0]: [None] when the comparison
    throws because [customers.length] cannot be converted. *)
Definition has_customers (w : World) (customers : value) : option bool :=
  if truthy customers then
    if converts (prop "length" customers) then Some (gt0 w (prop "length" customers))
    else None
  else Some false.

(** Whether the string of [v] matches [r]: what [r.test(v)] returns when
    the conversion of [v] completes. *)
Definition regex_test (w : World) (r : regex) (v : value) : bool := matches r (toStr w v).

(** [!process.env.X] *)
Definition env_missing (o : option string) : bool :=
  match o with
  | Some s => (s =? "")%string
  | None => true
  end.

Definition env_str (o : option string) : string :=
  match o with
  | Some s => s
  | None => "undefined"
  end.

(** ** The handler monad *)

Record State : Type := mkState { calls : list Call; ticks : nat }.

Definition init : State := mkState [] 0.

Inductive Result (A : Type) : Type :=
| Val (a : A)
| Respond (r : HttpResponse)
| Throw (e : JsError).
Arguments Val {A} a.
Arguments Respond {A} r.
Arguments Throw {A} e.

Definition M (A : Type) : Type := State -> Result A * State.

Definition ret {A} (a : A) : M A := fun s => (Val a, s).

Definition bind {A B} (m : M A) (k : A -> M B) : M B :=
  fun s => match m s with
           | (Val a, s') => k a s'
           | (Respond r, s') => (Respond r, s')
           | (Throw e, s') => (Throw e, s')
           end.

Notation "x <- m ;; k" := (bind m (fun x => k))
  (at level 61, m at next level, right associativity).
Notation "m ;;; k" := (bind m (fun _ => k))
  (at level 61, right associativity).

(** [return res.status(n).json(v)] *)
Definition respond {A} (n : Z) (v : value) : M A :=
  fun s => (Respond (mkResponse n (Some v)), s).

(** [return res.status(n).end()] *)
Definition respond_end {A} (n : Z) : M A :=
  fun s => (Respond (mkResponse n None), s).

Definition throw {A} (e : JsError) : M A := fun s => (Throw e, s).

(** [try { m } catch (e) { h e }] *)
Definition try_catch {A} (m : M A) (h : JsError -> M A) : M A :=
  fun s => match m s with
           | (Throw e, s') => h e s'
           | other => other
           end.

(** [await fetch(..)]: the call is recorded, then the world answers. *)
Definition do_fetch (w : World) (c : Call) : M FetchResponse :=
  fun s =>
    let s' := mkState (calls s ++ [c]) (ticks s) in
    match fetch w (calls s) c with
    | inl e => (Throw e, s')
    | inr r => (Val r, s')
    end.

(** [new Date()] *)
Definition new_Date (w : World) : M Z :=
  fun s => (Val (clock w (ticks s)), mkState (calls s) (S (ticks s))).

(** [v.k], throwing the engine's TypeError on [null] and [undefined]. *)
Definition get (w : World) (k : string) (v : value) : M value :=
  if nullish v then throw (TypeError w k) else ret (prop k v).

(** [JSON.parse(text)], also [await response.json()] on the body text. *)
Definition parse (w : World) (text : string) : M value :=
  match JSON_parse w text with
  | inl e => throw e
  | inr v => ret v
  end.

(** A conversion as a step of a handler: it yields its result or throws
    the engine's TypeError. *)
Definition converted {A} (w : World) (o : option A) : M A :=
  match o with
  | Some a => ret a
  | None => throw (cannot_convert w)
  end.

(** The conversion of [v] inside a template literal. *)
Definition to_string (w : World) (v : value) : M string := converted w (ToString w v).

(** [r.test(v)]: the argument is converted to a string first. *)
Definition test (w : World) (r : regex) (v : value) : M bool :=
  to_string w v ;;; ret (regex_test w r v).

Inductive Outcome : Type :=
| Sent (r : HttpResponse)
| Uncaught (e : JsError)
| NoResponse.

(** One invocation: the outcome and the final state, from [init]. *)
Definition invoke (m : M unit) : Outcome * State :=
  match m init with
  | (Val _, s) => (NoResponse, s)
  | (Respond r, s) => (Sent r, s)
  | (Throw e, s) => (Uncaught e, s)
  end.

Definition outcome (m : M unit) : Outcome := fst (invoke m).
Definition trace (m : M unit) : list Call := calls (snd (invoke m)).

Definition json_headers (accessToken : string) : list (string * string) :=
  [("X-Shopify-Access-Token", accessToken); ("Content-Type", "application/json")].

(** The [email_marketing_consent] object every search-based variant builds. *)
Definition consent (w : World) (t : Z) : value :=
  VObj [("state", VStr "subscribed");
        ("opt_in_level", VStr "single_opt_in");
        ("consent_updated_at", VStr (toISOString w t))].

Definition metafield (ns key : string) (v : value) : value :=
  VObj [("namespace", VStr ns); ("key", VStr key); ("value", v);
        ("type", VStr "single_line_text_field")].

(** [process.env.NODE_ENV === 'development' ? error.stack : undefined] *)
Definition dev_stack (w : World) (error : JsError) : value :=
  match env w "NODE_ENV" with
  | Some mode => if (mode =? "development")%string then VStr (stack error) else VUndef
  | None => VUndef
  end.

(** The three URLs, on the strings their templates have converted. *)
Definition searchUrl (shopifyDomain emailText : string) : string :=
  "https://" ++ shopifyDomain
  ++ "/admin/api/2023-10/customers/search.json?query=email:"
  ++ encodeURIComponent emailText.

Definition updateUrl (shopifyDomain idText : string) : string :=
  "https://" ++ shopifyDomain ++ "/admin/api/2023-10/customers/" ++ idText ++ ".json".

Definition createUrl (shopifyDomain : string) : string :=
  "https://" ++ shopifyDomain ++ "/admin/api/2023-10/customers.json".

(** The search request, the same in the three variants that search
    ([fetch] defaults to GET where the source names no method). *)
Definition searchCall (w : World) (shopifyDomain accessToken : string) (email : value) : Call :=
  mkCall "GET" (searchUrl shopifyDomain (toStr w email)) (json_headers accessToken) None.

(** ** src/api/webhook.js, first handler (lines 4-108) *)
Module Webhook1.

(** Lines 105-108. *)
Definition isValidEmail (w : World) (email : value) : M bool := test w emailRegex email.

(** Lines 79-100. *)
Definition createShopifyCustomer (w : World) (customerData : value)
    (accessToken shopDomain : string) : M value :=
  let url := createUrl shopDomain in
  response <- do_fetch w
    (mkCall "POST" url
       [("Content-Type", "application/json"); ("X-Shopify-Access-Token", accessToken)]
       (Some (VObj [("customer", customerData)]))) ;;
  if negb (resp_ok response) then
    let errorData := resp_text response in
    throw (new_Error w ("Shopify API Error: " ++ string_of_Z (resp_status response)
                        ++ " - " ++ errorData))
  else
    result <- parse w (resp_text response) ;;
    get w "customer" result.

(** The template of line 40, on the strings it has converted. *)
Definition note (sourceText today codeText : string) : string :=
  "Subscribed via discount popup (" ++ sourceText ++ ") on " ++ today
  ++ ". Interested in discount: " ++ codeText.

(** Lines 36-43. *)
Definition customerData (email tags : value) (note : string) : value :=
  VObj [("email", email);
        ("accepts_marketing", VBool true);
        ("tags", js_or tags (VStr "newsletter,discount-popup,popup-subscriber"));
        ("note", VStr note);
        ("marketing_opt_in_level", VStr "confirmed_opt_in");
        ("verified_email", VBool true)].

(** The [customerData] of a request whose [source] and [discount_code]
    convert; [today] is the clock value [new Date()] read. *)
Definition customerData_of (w : World) (email source discount_code tags : value)
    (today : Z) : value :=
  customerData email tags
    (note (toStr w (js_or source (VStr "unknown"))) (toLocaleDateString w today)
       (toStr w (js_or discount_code (VStr "N/A")))).

(** Lines 57-73: the [catch] block. *)
Definition on_error (error : JsError) : M unit :=
  if includes "422" (message error) then
    respond 200 (VObj [("success", VBool true);
                       ("message", VStr "Customer already exists - updated marketing consent");
                       ("note", VStr "Email was already in system")])
  else
    respond 500 (VObj [("error", VStr "Failed to create customer");
                       ("details", VStr (message error))]).

Definition handler (w : World) (req : Request) : M unit :=
  if (req_method req =? "OPTIONS")%string then respond_end 200
  else if negb (req_method req =? "POST")%string then
    respond 405 (VObj [("error", VStr "Method not allowed")])
  else
    try_catch
      (email <- get w "email" (req_body req) ;;
       let source := prop "source" (req_body req) in
       let discount_code := prop "discount_code" (req_body req) in
       let tags := prop "tags" (req_body req) in
       (* [!email || !isValidEmail(email)] *)
       invalid <- (if negb (truthy email) then ret true
                   else valid <- isValidEmail w email ;; ret (negb valid)) ;;
       if invalid then
         respond 400 (VObj [("error", VStr "Invalid email address")])
       else
         let accessToken := env w "SHOPIFY_ACCESS_TOKEN" in
         let shopDomain := env w "SHOPIFY_SHOP_DOMAIN" in
         if env_missing accessToken || env_missing shopDomain then
           respond 500 (VObj [("error", VStr "Missing Shopify configuration")])
         else
           sourceText <- to_string w (js_or source (VStr "unknown")) ;;
           today <- new_Date w ;;
           codeText <- to_string w (js_or discount_code (VStr "N/A")) ;;
           customer <- createShopifyCustomer w
                         (customerData email tags
                            (note sourceText (toLocaleDateString w today) codeText))
                         (env_str accessToken) (env_str shopDomain) ;;
           customer_id <- get w "id" customer ;;
           respond 200 (VObj [("success", VBool true);
                              ("customer_id", customer_id);
                              ("email", prop "email" customer);
                              ("message", VStr "Customer created successfully")]))
      on_error.

End Webhook1.

(** ** src/api/webhook.js, second handler (lines 109-365) *)
Module Webhook2.

(** The template of line 293, on the strings it has converted. *)
Definition note (sourceText codeText created : string) : string :=
  "Customer created via discount popup. Source: " ++ sourceText
  ++ ". Discount code: " ++ codeText ++ ". Created: " ++ created.

(** Lines 284-315; [t1] is the clock value read for the consent. *)
Definition customerData (w : World) (email source discount_code tags : value)
    (t1 : Z) (note : string) : value :=
  VObj [("customer",
    VObj [("email", email);
          ("email_marketing_consent", consent w t1);
          ("tags", js_or tags (VStr "newsletter,discount-popup,popup-subscriber"));
          ("note", VStr note);
          ("metafields",
           VArr [metafield "discount_popup" "source" (js_or source (VStr "discount_popup"));
                 metafield "discount_popup" "discount_code"
                   (js_or discount_code (VStr "WELCOME10"));
                 metafield "discount_popup" "created_via" (VStr "popup_webhook")])])].

(** Lines 281-347: the create step.  The object literal reads the clock
    for the consent, converts [source] and [discount_code] for the note,
    then reads the clock again. *)
Definition create_step (w : World) (shopifyDomain accessToken : string)
    (email source discount_code tags : value) : M unit :=
  t1 <- new_Date w ;;
  sourceText <- to_string w (js_or source (VStr "discount_popup")) ;;
  codeText <- to_string w (js_or discount_code (VStr "WELCOME10")) ;;
  t2 <- new_Date w ;;
  createResponse <- do_fetch w
    (mkCall "POST" (createUrl shopifyDomain) (json_headers accessToken)
       (Some (customerData w email source discount_code tags t1
                (note sourceText codeText (toISOString w t2))))) ;;
  let responseText := resp_text createResponse in
  if resp_ok createResponse then
    result <- parse w responseText ;;
    customer <- get w "customer" result ;;
    customer_id <- get w "id" customer ;;
    respond 200 (VObj [("success", VBool true);
                       ("message", VStr "Customer created successfully");
                       ("customer_id", customer_id);
                       ("email", prop "email" customer);
                       ("existing_customer", VBool false)])
  else
    respond 500 (VObj [("error", VStr "Failed to create customer");
                       ("details", VStr ("Shopify API Error: "
                                         ++ string_of_Z (resp_status createResponse)
                                         ++ " - " ++ responseText))]).

(** Lines 238-240: the template converts [existingTags] and [newTags]
    when [existingTags] is truthy. *)
Definition combinedTags (w : World) (existingCustomer tags : value) : M value :=
  let existingTags := js_or (prop "tags" existingCustomer) (VStr "") in
  let newTags := js_or tags (VStr "newsletter,discount-popup,popup-subscriber") in
  if truthy existingTags then
    existingText <- to_string w existingTags ;;
    newText <- to_string w newTags ;;
    ret (VStr (existingText ++ "," ++ newText))
  else ret newTags.

(** Lines 244-254. *)
Definition updateData (w : World) (existingCustomer combinedTags : value) (t : Z) : value :=
  VObj [("customer",
    VObj [("id", prop "id" existingCustomer);
          ("email_marketing_consent", consent w t);
          ("tags", combinedTags)])].

(** Lines 233-279: the update branch; [ret tt] is falling out of the [if]. *)
Definition update_step (w : World) (shopifyDomain accessToken : string)
    (email tags customers : value) : M unit :=
  found <- converted w (has_customers w customers) ;;
  if found then
    let existingCustomer := index0 customers in
    id <- get w "id" existingCustomer ;;
    combined <- combinedTags w existingCustomer tags ;;
    idText <- to_string w id ;;
    t <- new_Date w ;;
    updateResponse <- do_fetch w
      (mkCall "PUT" (updateUrl shopifyDomain idText) (json_headers accessToken)
         (Some (updateData w existingCustomer combined t))) ;;
    if resp_ok updateResponse then
      respond 200 (VObj [("success", VBool true);
                         ("message", VStr "Customer already exists - updated marketing consent");
                         ("customer_id", id);
                         ("email", email);
                         ("existing_customer", VBool true)])
    else ret tt
  else ret tt.

(** Lines 349-355: the inner [catch] block. *)
Definition on_shopify_error (shopifyError : JsError) : M unit :=
  respond 500 (VObj [("error", VStr "Shopify API request failed");
                     ("details", VStr (message shopifyError))]).

(** Lines 207-355: the search URL is built before the inner [try]; the
    search, then the update or the create, run inside it. *)
Definition upsert (w : World) (shopifyDomain accessToken : string)
    (email source discount_code tags : value) : M unit :=
  emailText <- to_string w email ;;
  try_catch
    (searchResponse <- do_fetch w
       (mkCall "GET" (searchUrl shopifyDomain emailText) (json_headers accessToken) None) ;;
     if negb (resp_ok searchResponse) then
       let errorText := resp_text searchResponse in
       respond 500 (VObj [("error", VStr "Failed to search for existing customer");
                          ("details", VStr ("Shopify API Error: "
                                            ++ string_of_Z (resp_status searchResponse)
                                            ++ " - " ++ errorText))])
     else
       searchData <- parse w (resp_text searchResponse) ;;
       customers <- get w "customers" searchData ;;
       update_step w shopifyDomain accessToken email tags customers ;;;
       create_step w shopifyDomain accessToken email source discount_code tags)
    on_shopify_error.

(** Lines 148-166: body parsing with its own [try]/[catch]. *)
Definition parse_body (w : World) (req : Request) : M value :=
  try_catch
    (if (typeof (req_body req) =? "string")%string then parse w (toStr w (req_body req))
     else if (typeof (req_body req) =? "object")%string && negb (nullish (req_body req))
          then ret (req_body req)
     else throw (new_Error w ("Invalid body type: " ++ typeof (req_body req))))
    (fun parseError =>
       respond 400 (VObj [("error", VStr "Invalid JSON in request body");
                          ("details", VStr (message parseError));
                          ("received",
                           if (typeof (req_body req) =? "string")%string
                           then VStr (substring0 200 (toStr w (req_body req)))
                           else VStr (toStr w (req_body req)))])).

(** Lines 357-364: the outer [catch] block. *)
Definition on_error (w : World) (error : JsError) : M unit :=
  respond 500 (VObj [("error", VStr "Internal server error");
                     ("details", VStr (message error));
                     ("stack", dev_stack w error)]).

Definition handler (w : World) (req : Request) : M unit :=
  if (req_method req =? "OPTIONS")%string then respond_end 200
  else if negb (req_method req =? "POST")%string then
    respond 405 (VObj [("error", VStr "Method not allowed"); ("allowed", VStr "POST")])
  else
    try_catch
      (parsedBody <- parse_body w req ;;
       email <- get w "email" parsedBody ;;
       let source := prop "source" parsedBody in
       let discount_code := prop "discount_code" parsedBody in
       let tags := prop "tags" parsedBody in
       if negb (truthy email) then
         respond 400 (VObj [("error", VStr "Email is required"); ("received", parsedBody)])
       else
         valid <- test w emailRegex email ;;
         if negb valid then
           respond 400 (VObj [("error", VStr "Invalid email format"); ("email", email)])
         else
           let shopifyDomain := env w "SHOPIFY_SHOP_DOMAIN" in
           let accessToken := env w "SHOPIFY_ACCESS_TOKEN" in
           if env_missing shopifyDomain || env_missing accessToken then
             respond 500 (VObj [("error", VStr "Webhook configuration error");
                                ("details",
                                 VStr "Missing Shopify credentials in environment variables")])
           else
             upsert w (env_str shopifyDomain) (env_str accessToken)
               email source discount_code tags)
      (on_error w).

End Webhook2.

(** ** src/unnamed/part_000 *)
Module Part000.

(** The template of line 175, on the strings it has converted. *)
Definition note (sourceText codeText created : string) : string :=
  "Customer created via discount popup. Source: " ++ sourceText
  ++ ". Discount: " ++ codeText ++ ". Created: " ++ created.

(** Lines 166-191; [t1] is the clock value read for the consent. *)
Definition customerData (w : World) (email source discount_code : value)
    (t1 : Z) (note : string) : value :=
  VObj [("customer",
    VObj [("email", email);
          ("email_marketing_consent", consent w t1);
          ("tags", VStr "newsletter,discount-popup,popup-subscriber");
          ("note", VStr note);
          ("metafields",
           VArr [metafield "popup" "source" (js_or source (VStr "discount_popup"));
                 metafield "popup" "discount_code"
                   (js_or discount_code (VStr "WELCOME10"))])])].

(** Lines 163-220: the create step. *)
Definition create_step (w : World) (shopifyDomain accessToken : string)
    (email source discount_code : value) : M unit :=
  t1 <- new_Date w ;;
  sourceText <- to_string w (js_or source (VStr "popup")) ;;
  codeText <- to_string w (js_or discount_code (VStr "WELCOME10")) ;;
  t2 <- new_Date w ;;
  createResponse <- do_fetch w
    (mkCall "POST" (createUrl shopifyDomain) (json_headers accessToken)
       (Some (customerData w email source discount_code t1
                (note sourceText codeText (toISOString w t2))))) ;;
  if resp_ok createResponse then
    result <- parse w (resp_text createResponse) ;;
    customer <- get w "customer" result ;;
    customer_id <- get w "id" customer ;;
    respond 200 (VObj [("success", VBool true);
                       ("message", VStr "Customer created successfully");
                       ("customer_id", customer_id);
                       ("email", prop "email" customer);
                       ("existing_customer", VBool false)])
  else
    respond 500 (VObj [("success", VBool false);
                       ("error", VStr "Failed to create customer");
                       ("details", VStr ("Shopify API Error: "
                                         ++ string_of_Z (resp_status createResponse)))]).

(** Lines 131-133: the tags of the update; the template converts the
    existing tags when they are truthy. *)
Definition updateTags (w : World) (existingCustomer : value) : M value :=
  if truthy (prop "tags" existingCustomer) then
    existingText <- to_string w (prop "tags" existingCustomer) ;;
    ret (VStr (existingText ++ ",newsletter,discount-popup,popup-subscriber"))
  else ret (VStr "newsletter,discount-popup,popup-subscriber").

(** Lines 123-135. *)
Definition updateData (w : World) (existingCustomer tags : value) (t : Z) : value :=
  VObj [("customer",
    VObj [("id", prop "id" existingCustomer);
          ("email_marketing_consent", consent w t);
          ("tags", tags)])].

(** Lines 117-161: the update branch; [ret tt] is falling out of the [if]. *)
Definition update_step (w : World) (shopifyDomain accessToken : string)
    (email customers : value) : M unit :=
  found <- converted w (has_customers w customers) ;;
  if found then
    let existingCustomer := index0 customers in
    id <- get w "id" existingCustomer ;;
    idText <- to_string w id ;;
    t <- new_Date w ;;
    tags <- updateTags w existingCustomer ;;
    updateResponse <- do_fetch w
      (mkCall "PUT" (updateUrl shopifyDomain idText) (json_headers accessToken)
         (Some (updateData w existingCustomer tags t))) ;;
    if resp_ok updateResponse then
      updatedCustomer <- parse w (resp_text updateResponse) ;;
      respond 200 (VObj [("success", VBool true);
                         ("message", VStr "Existing customer updated with marketing consent");
                         ("customer_id", id);
                         ("email", email);
                         ("existing_customer", VBool true)])
    else ret tt
  else ret tt.

(** Lines 91-220: search, then update or create. *)
Definition upsert (w : World) (shopifyDomain accessToken : string)
    (email source discount_code : value) : M unit :=
  emailText <- to_string w email ;;
  searchResponse <- do_fetch w
    (mkCall "GET" (searchUrl shopifyDomain emailText) (json_headers accessToken) None) ;;
  if negb (resp_ok searchResponse) then
    respond 500 (VObj [("success", VBool false);
                       ("error", VStr "Failed to search customers");
                       ("details", VStr ("Shopify API Error: "
                                         ++ string_of_Z (resp_status searchResponse)))])
  else
    searchData <- parse w (resp_text searchResponse) ;;
    customers <- get w "customers" searchData ;;
    update_step w shopifyDomain accessToken email customers ;;;
    create_step w shopifyDomain accessToken email source discount_code.

(** Lines 35-50: a string body is parsed, anything else is taken as it is. *)
Definition parse_body (w : World) (req : Request) : M value :=
  if (typeof (req_body req) =? "string")%string then
    try_catch (parse w (toStr w (req_body req)))
      (fun parseError =>
         respond 400 (VObj [("success", VBool false);
                            ("error", VStr "Invalid JSON in request body");
                            ("details", VStr (message parseError))]))
  else ret (req_body req).

(** Lines 222-230: the [catch] block. *)
Definition on_error (w : World) (error : JsError) : M unit :=
  respond 500 (VObj [("success", VBool false);
                     ("error", VStr "Internal server error");
                     ("details", VStr (message error));
                     ("stack", dev_stack w error)]).

Definition handler (w : World) (req : Request) : M unit :=
  if (req_method req =? "OPTIONS")%string then respond_end 200
  else if negb (req_method req =? "POST")%string then
    respond 405 (VObj [("error", VStr "Method not allowed"); ("allowed", VStr "POST");
                       ("received", VStr (req_method req))])
  else
    try_catch
      (requestBody <- parse_body w req ;;
       email <- get w "email" requestBody ;;
       let source := prop "source" requestBody in
       let discount_code := prop "discount_code" requestBody in
       if negb (truthy email) then
         respond 400 (VObj [("success", VBool false); ("error", VStr "Email is required");
                            ("received", requestBody)])
       else
         valid <- test w emailRegex email ;;
         if negb valid then
           respond 400 (VObj [("success", VBool false); ("error", VStr "Invalid email format");
                              ("email", email)])
         else
           let shopifyDomain := env w "SHOPIFY_SHOP_DOMAIN" in
           let accessToken := env w "SHOPIFY_ACCESS_TOKEN" in
           if env_missing shopifyDomain || env_missing accessToken then
             respond 500 (VObj [("success", VBool false);
                                ("error", VStr "Server configuration error");
                                ("details", VStr "Missing required environment variables")])
           else
             upsert w (env_str shopifyDomain) (env_str accessToken) email source discount_code)
      (on_error w).

End Part000.

(** ** src/unnamed/part_001 *)
Module Part001.

(** The template of line 109, on the strings it has converted. *)
Definition note (sourceText codeText created : string) : string :=
  "Customer created via discount popup. Source: " ++ sourceText
  ++ ". Discount code: " ++ codeText ++ ". Created: " ++ created.

(** Lines 100-125; [t1] is the clock value read for the consent. *)
Definition customerData (w : World) (email source discount_code tags : value)
    (t1 : Z) (note : string) : value :=
  VObj [("customer",
    VObj [("email", email);
          ("email_marketing_consent", consent w t1);
          ("tags", js_or tags (VStr "newsletter,discount-popup"));
          ("note", VStr note);
          ("metafields",
           VArr [metafield "discount_popup" "source" source;
                 metafield "discount_popup" "discount_code" discount_code])])].

(** Lines 98-155: the create step. *)
Definition create_step (w : World) (shopifyDomain accessToken : string)
    (email source discount_code tags : value) : M unit :=
  t1 <- new_Date w ;;
  sourceText <- to_string w source ;;
  codeText <- to_string w discount_code ;;
  t2 <- new_Date w ;;
  createResponse <- do_fetch w
    (mkCall "POST" (createUrl shopifyDomain) (json_headers accessToken)
       (Some (customerData w email source discount_code tags t1
                (note sourceText codeText (toISOString w t2))))) ;;
  let responseText := resp_text createResponse in
  if resp_ok createResponse then
    result <- parse w responseText ;;
    customer <- get w "customer" result ;;
    customer_id <- get w "admin_graphql_api_id" customer ;;
    respond 200 (VObj [("success", VBool true);
                       ("message", VStr "Customer created successfully");
                       ("customer_id", customer_id);
                       ("email", prop "email" customer)])
  else
    respond 500 (VObj [("error", VStr "Failed to create customer");
                       ("details", VStr ("Shopify API Error: "
                                         ++ string_of_Z (resp_status createResponse)
                                         ++ " - " ++ responseText))]).

(** Line 75: the tags of the update; the template converts the existing
    tags and the submitted ones when the existing tags are truthy. *)
Definition updateTags (w : World) (existingCustomer tags : value) : M value :=
  if truthy (prop "tags" existingCustomer) then
    existingText <- to_string w (prop "tags" existingCustomer) ;;
    newText <- to_string w tags ;;
    ret (VStr (existingText ++ "," ++ newText))
  else ret tags.

(** Lines 67-77. *)
Definition updateData (w : World) (existingCustomer tags : value) (t : Z) : value :=
  VObj [("customer",
    VObj [("id", prop "id" existingCustomer);
          ("email_marketing_consent", consent w t);
          ("tags", tags)])].

(** Lines 61-96: the update branch; [ret tt] is falling out of the [if]. *)
Definition update_step (w : World) (shopifyDomain accessToken : string)
    (tags customers : value) : M unit :=
  found <- converted w (has_customers w customers) ;;
  if found then
    let existingCustomer := index0 customers in
    id <- get w "id" existingCustomer ;;
    idText <- to_string w id ;;
    t <- new_Date w ;;
    merged <- updateTags w existingCustomer tags ;;
    updateResponse <- do_fetch w
      (mkCall "PUT" (updateUrl shopifyDomain idText) (json_headers accessToken)
         (Some (updateData w existingCustomer merged t))) ;;
    if resp_ok updateResponse then
      respond 200 (VObj [("success", VBool true);
                         ("message", VStr "Customer already exists - updated marketing consent");
                         ("customer_id", prop "admin_graphql_api_id" existingCustomer);
                         ("note", VStr "Email was already in system")])
    else ret tt
  else ret tt.

(** Lines 40-155: search, then update or create. *)
Definition upsert (w : World) (shopifyDomain accessToken : string)
    (email source discount_code tags : value) : M unit :=
  emailText <- to_string w email ;;
  searchResponse <- do_fetch w
    (mkCall "GET" (searchUrl shopifyDomain emailText) (json_headers accessToken) None) ;;
  if negb (resp_ok searchResponse) then
    let errorText := resp_text searchResponse in
    respond 500 (VObj [("error", VStr "Failed to search for existing customer");
                       ("details", VStr ("Shopify API Error: "
                                         ++ string_of_Z (resp_status searchResponse)
                                         ++ " - " ++ errorText))])
  else
    searchData <- parse w (resp_text searchResponse) ;;
    customers <- get w "customers" searchData ;;
    update_step w shopifyDomain accessToken tags customers ;;;
    create_step w shopifyDomain accessToken email source discount_code tags.

(** Lines 157-163: the [catch] block. *)
Definition on_error (error : JsError) : M unit :=
  respond 500 (VObj [("error", VStr "Internal server error");
                     ("details", VStr (message error))]).

Definition handler (w : World) (req : Request) : M unit :=
  if (req_method req =? "OPTIONS")%string then respond_end 200
  else if negb (req_method req =? "POST")%string then
    respond 405 (VObj [("error", VStr "Method not allowed")])
  else
    try_catch
      (email <- get w "email" (req_body req) ;;
       let source := prop "source" (req_body req) in
       let discount_code := prop "discount_code" (req_body req) in
       let tags := prop "tags" (req_body req) in
       if negb (truthy email) then
         respond 400 (VObj [("error", VStr "Email is required")])
       else
         let shopifyDomain := env w "SHOPIFY_SHOP_DOMAIN" in
         let accessToken := env w "SHOPIFY_ACCESS_TOKEN" in
         if env_missing shopifyDomain || env_missing accessToken then
           respond 500 (VObj [("error", VStr "Webhook configuration error");
                              ("details",
                               VStr "Missing Shopify credentials in environment variables")])
         else
           upsert w (env_str shopifyDomain) (env_str accessToken)
             email source discount_code tags)
      on_error.

End Part001.

(** ** The three search-based variants, side by side *)

Inductive Variant : Type := W2 | P000 | P001.

Definition handler_of (v : Variant) : World -> Request -> M unit :=
  match v with
  | W2 => Webhook2.handler
  | P000 => Part000.handler
  | P001 => Part001.handler
  end.

(** The search-update-create sequence of a variant together with the
    [catch] block of the [try] it runs in. *)
Definition upsert_of (v : Variant) (w : World) (shopifyDomain accessToken : string)
    (email source discount_code tags : value) : M unit :=
  match v with
  | W2 => try_catch (Webhook2.upsert w shopifyDomain accessToken email source discount_code tags)
            (Webhook2.on_error w)
  | P000 => try_catch (Part000.upsert w shopifyDomain accessToken email source discount_code)
              (Part000.on_error w)
  | P001 => try_catch (Part001.upsert w shopifyDomain accessToken email source discount_code tags)
              Part001.on_error
  end.

(** The create step of a variant inside the [try] blocks it runs in. *)
Definition create_of (v : Variant) (w : World) (shopifyDomain accessToken : string)
    (email source discount_code tags : value) : M unit :=
  match v with
  | W2 => try_catch
            (try_catch
               (Webhook2.create_step w shopifyDomain accessToken email source discount_code tags)
               Webhook2.on_shopify_error)
            (Webhook2.on_error w)
  | P000 => try_catch
              (Part000.create_step w shopifyDomain accessToken email source discount_code)
              (Part000.on_error w)
  | P001 => try_catch
              (Part001.create_step w shopifyDomain accessToken email source discount_code tags)
              Part001.on_error
  end.

(** The tags an update sends, for an existing customer and submitted
    tags whose conversions complete: the value of [combinedTags]
    (webhook.js) and of the [tags] property of [updateData] (part_000,
    part_001). *)
Definition update_tags (v : Variant) (w : World) (existingCustomer tags : value) : value :=
  match v with
  | W2 =>
      let existingTags := js_or (prop "tags" existingCustomer) (VStr "") in
      let newTags := js_or tags (VStr "newsletter,discount-popup,popup-subscriber") in
      if truthy existingTags then VStr (toStr w existingTags ++ "," ++ toStr w newTags)
      else newTags
  | P000 =>
      if truthy (prop "tags" existingCustomer)
      then VStr (toStr w (prop "tags" existingCustomer)
                 ++ ",newsletter,discount-popup,popup-subscriber")
      else VStr "newsletter,discount-popup,popup-subscriber"
  | P001 =>
      if truthy (prop "tags" existingCustomer)
      then VStr (toStr w (prop "tags" existingCustomer) ++ "," ++ toStr w tags)
      else tags
  end.

(** Whether the conversions that build those tags complete. *)
Definition tags_convert (v : Variant) (existingCustomer tags : value) : bool :=
  match v with
  | W2 =>
      let existingTags := js_or (prop "tags" existingCustomer) (VStr "") in
      let newTags := js_or tags (VStr "newsletter,discount-popup,popup-subscriber") in
      if truthy existingTags then converts existingTags && converts newTags else true
  | P000 =>
      if truthy (prop "tags" existingCustomer) then converts (prop "tags" existingCustomer)
      else true
  | P001 =>
      if truthy (prop "tags" existingCustomer)
      then converts (prop "tags" existingCustomer) && converts tags
      else true
  end.

Definition updateData_of (v : Variant) (w : World) (existingCustomer tags : value)
    (t : Z) : value :=
  match v with
  | W2 => Webhook2.updateData w existingCustomer (update_tags W2 w existingCustomer tags) t
  | P000 => Part000.updateData w existingCustomer (update_tags P000 w existingCustomer tags) t
  | P001 => Part001.updateData w existingCustomer (update_tags P001 w existingCustomer tags) t
  end.

(** The body of the create request of a request whose [source] and
    [discount_code] convert; [t1] and [t2] are the two clock values read. *)
Definition customerData_of (v : Variant) (w : World) (email source discount_code tags : value)
    (t1 t2 : Z) : value :=
  match v with
  | W2 =>
      Webhook2.customerData w email source discount_code tags t1
        (Webhook2.note (toStr w (js_or source (VStr "discount_popup")))
           (toStr w (js_or discount_code (VStr "WELCOME10"))) (toISOString w t2))
  | P000 =>
      Part000.customerData w email source discount_code t1
        (Part000.note (toStr w (js_or source (VStr "popup")))
           (toStr w (js_or discount_code (VStr "WELCOME10"))) (toISOString w t2))
  | P001 =>
      Part001.customerData w email source discount_code tags t1
        (Part001.note (toStr w source) (toStr w discount_code) (toISOString w t2))
  end.

(** The update request: PUT to the URL of [existingCustomer.id]. *)
Definition updateCall (v : Variant) (w : World) (shopifyDomain accessToken : string)
    (existingCustomer tags : value) (t : Z) : Call :=
  mkCall "PUT" (updateUrl shopifyDomain (toStr w (prop "id" existingCustomer)))
    (json_headers accessToken) (Some (updateData_of v w existingCustomer tags t)).

(** The create request: POST to the customers collection. *)
Definition createCall (v : Variant) (w : World) (shopifyDomain accessToken : string)
    (email source discount_code tags : value) (t1 t2 : Z) : Call :=
  mkCall "POST" (createUrl shopifyDomain) (json_headers accessToken)
    (Some (customerData_of v w email source discount_code tags t1 t2)).

Definition is_get (c : Call) : bool := (call_method c =? "GET")%string.
Definition is_put (c : Call) : bool := (call_method c =? "PUT")%string.
Definition is_post (c : Call) : bool := (call_method c =? "POST")%string.

(** [payload.customer.k] of an outbound call. *)
Definition customer_field (k : string) (c : Call) : value :=
  match call_payload c with
  | Some p => prop k (prop "customer" p)
  | None => VUndef
  end.

(** The answer the world gave to the [n]-th call of an invocation. *)
Definition answer_at (w : World) (m : M unit) (n : nat) : option (JsError + FetchResponse) :=
  match nth_error (trace m) n with
  | Some c => Some (fetch w (firstn n (trace m)) c)
  | None => None
  end.

(** The status and a body property of the response an invocation sent. *)
Definition sent_status (m : M unit) : option Z :=
  match outcome m with
  | Sent r => Some (status r)
  | _ => None
  end.

Definition sent_field (k : string) (m : M unit) : value :=
  match outcome m with
  | Sent (mkResponse _ (Some b)) => prop k b
  | _ => VUndef
  end.

(** The configured shop domain and access token. *)
Definition shop_domain (w : World) : string := env_str (env w "SHOPIFY_SHOP_DOMAIN").
Definition access_token (w : World) : string := env_str (env w "SHOPIFY_ACCESS_TOKEN").

(** A call addresses the customer record [id]: it is a PUT to the URL of
    that id, or a PUT whose body names that id. *)
Definition addresses (w : World) (dom : string) (id : value) (x : Call) : Prop :=
  is_put x = true /\
  (call_url x = updateUrl dom (toStr w id) \/ customer_field "id" x = id).

(** The calls of one run of the search-update-create sequence, with the
    number of clock reads made.  A run stops short of a call when a
    conversion on the way to it throws: before any clock read, or between
    the clock read of the consent and the call. *)
Inductive shape (v : Variant) (w : World) (dom tok : string)
    (email source dc tags : value) : list Call -> nat -> Prop :=
| shape_none :
    shape v w dom tok email source dc tags [] 0
| shape_search :
    shape v w dom tok email source dc tags [searchCall w dom tok email] 0
| shape_search_stopped :
    shape v w dom tok email source dc tags [searchCall w dom tok email] 1
| shape_create :
    shape v w dom tok email source dc tags
      [searchCall w dom tok email;
       createCall v w dom tok email source dc tags (clock w 0) (clock w 1)] 2
| shape_update (c : value) :
    shape v w dom tok email source dc tags
      [searchCall w dom tok email; updateCall v w dom tok c tags (clock w 0)] 1
| shape_update_stopped (c : value) :
    shape v w dom tok email source dc tags
      [searchCall w dom tok email; updateCall v w dom tok c tags (clock w 0)] 2
| shape_update_create (c : value) :
    shape v w dom tok email source dc tags
      [searchCall w dom tok email; updateCall v w dom tok c tags (clock w 0);
       createCall v w dom tok email source dc tags (clock w 1) (clock w 2)] 3.

(** The request body whose fields the variant goes on to read, if it gets
    that far: part_001 takes [req.body] as it is; part_000 parses a string
    body first; webhook.js parses a string body and accepts only a non-null
    object otherwise. *)
Definition parsed_body (v : Variant) (w : World) (req : Request) : option value :=
  match v with
  | P001 => Some (req_body req)
  | P000 =>
      if (typeof (req_body req) =? "string")%string then
        match JSON_parse w (toStr w (req_body req)) with
        | inr b => Some b
        | inl _ => None
        end
      else Some (req_body req)
  | W2 =>
      if (typeof (req_body req) =? "string")%string then
        match JSON_parse w (toStr w (req_body req)) with
        | inr b => Some b
        | inl _ => None
        end
      else if (typeof (req_body req) =? "object")%string && negb (nullish (req_body req))
           then Some (req_body req)
      else None
  end.



(** The invocation sent a 400 with an [error] message and made no
    outbound call. *)
Definition rejected_400 (m : M unit) : Prop :=
  sent_status m = Some 400 /\
  (exists msg, sent_field "error" m = VStr msg) /\
  trace m = [].

(** Tag merge as the specification words it: [existing + "," + new] when
    [existing] is non-empty, else just [new]. *)
Definition merged_tags (w : World) (existing : string) (new : value) : value :=
  if (existing =? "")%string then new
  else VStr (existing ++ "," ++ toStr w new).

(** The ways [Webhook1.createShopifyCustomer] fails on its call [c], with
    the error it throws: the [fetch] is rejected (line 82), the status is
    not a success one (lines 93-96), the body does not parse (line 98). *)
Inductive create_failed (w : World) (c : Call) : JsError -> Prop :=
| create_rejected (e : JsError) :
    fetch w [] c = inl e -> create_failed w c e
| create_not_ok (r : FetchResponse) :
    fetch w [] c = inr r -> resp_ok r = false ->
    create_failed w c
      (new_Error w ("Shopify API Error: " ++ string_of_Z (resp_status r)
                    ++ " - " ++ resp_text r))
| create_unparsable (r : FetchResponse) (e : JsError) :
    fetch w [] c = inr r -> resp_ok r = true ->
    JSON_parse w (resp_text r) = inl e -> create_failed w c e.

(** ** A concrete world for examples *)

Definition dq : string := String "034"%char "".

(** [{"customers":[]}] *)
Definition text_no_customers : string := "{" ++ dq ++ "customers" ++ dq ++ ":[]}".

(** [{"customers":[{"id":7,"email":"a@b.com","tags":"gold"},{"id":8}]}] *)
Definition text_two_customers : string :=
  "{" ++ dq ++ "customers" ++ dq ++ ":[{" ++ dq ++ "id" ++ dq ++ ":7," ++ dq ++ "email" ++ dq
  ++ ":" ++ dq ++ "a@b.com" ++ dq ++ "," ++ dq ++ "tags" ++ dq ++ ":" ++ dq ++ "gold" ++ dq
  ++ "},{" ++ dq ++ "id" ++ dq ++ ":8}]}".

(** [{"customer":{"id":9,"email":"a@b.com"}}] *)
Definition text_customer : string :=
  "{" ++ dq ++ "customer" ++ dq ++ ":{" ++ dq ++ "id" ++ dq ++ ":9," ++ dq ++ "email" ++ dq
  ++ ":" ++ dq ++ "a@b.com" ++ dq ++ "}}".

Definition customer7 : value :=
  VObj [("id", VNum 7); ("email", VStr "a@b.com"); ("tags", VStr "gold")].

Definition customer9 : value := VObj [("id", VNum 9); ("email", VStr "a@b.com")].

(** [JSON.parse] on the three texts above; any other text is taken to be
    malformed. *)
Definition demo_parse (text : string) : JsError + value :=
  if (text =? text_no_customers)%string then inr (VObj [("customers", VArr [])])
  else if (text =? text_two_customers)%string then
    inr (VObj [("customers", VArr [customer7; VObj [("id", VNum 8)]])])
  else if (text =? text_customer)%string then inr (VObj [("customer", customer9)])
  else inl (mkError "Unexpected token" "SyntaxError").

(** The engine's error for a conversion that fails. *)
Definition not_primitive : JsError :=
  mkError "Cannot convert object to primitive value" "TypeError".

(** A platform that answers each call by its method alone. *)
Definition demo_fetch (search update create : JsError + FetchResponse)
    (history : list Call) (c : Call) : JsError + FetchResponse :=
  if is_get c then search else if is_put c then update else create.

Definition demo_env (k : string) : option string :=
  if (k =? "SHOPIFY_SHOP_DOMAIN")%string then Some "shop.example"
  else if (k =? "SHOPIFY_ACCESS_TOKEN")%string then Some "tok"
  else None.

Definition demo_world (search update create : JsError + FetchResponse) : World :=
  mkWorld (demo_fetch search update create)
          (fun n => Z.of_nat n)
          (fun t => "T" ++ string_of_Z t)
          (fun t => "D" ++ string_of_Z t)
          demo_env
          demo_parse
          (fun k => mkError ("Cannot read properties of undefined (reading '" ++ k ++ "')")
                            "TypeError")
          not_primitive
          (fun _ => "Error")
          (fun _ => false)
          (fun _ => "1e+21").

Definition answer (n : Z) (text : string) : JsError + FetchResponse :=
  inr (mkFetchResponse n text).

Definition post (fields : list (string * value)) : Request :=
  mkRequest "POST" (VObj fields).

(** Worlds: no customer found; one found and updated; one found and the
    update refused; the search refused; the create refused with 422 or 500. *)
Definition w_empty : World :=
  demo_world (answer 200 text_no_customers) (answer 500 "boom") (answer 201 text_customer).
Definition w_found : World :=
  demo_world (answer 200 text_two_customers) (answer 200 text_customer)
    (answer 201 text_customer).
Definition w_update_refused : World :=
  demo_world (answer 200 text_two_customers) (answer 500 "boom") (answer 201 text_customer).
Definition w_search_down : World :=
  demo_world (answer 500 "down") (answer 500 "boom") (answer 201 text_customer).
Definition w_taken : World :=
  demo_world (answer 200 text_no_customers) (answer 500 "boom") (answer 422 "taken").
Definition w_create_down : World :=
  demo_world (answer 200 text_no_customers) (answer 500 "boom") (answer 500 "boom").

Definition req_plain : Request := post [("email", VStr "a@b.com")].
Definition req_vip : Request := post [("email", VStr "a@b.com"); ("tags", VStr "vip")].
Definition req_bad : Request := post [("email", VStr "not-an-email")].

(** An object that owns a [toString] property, as [JSON.parse] gives for
    [{"toString":1}]: it cannot be converted to a string. *)
Definition no_string : value := VObj [("toString", VNum 1)].

Definition req_odd_source : Request :=
  post [("email", VStr "a@b.com"); ("source", no_string)].
Definition req_odd_tags : Request :=
  post [("email", VStr "a@b.com"); ("tags", no_string)].

Definition found_customers : value :=
  VObj [("customers", VArr [customer7; VObj [("id", VNum 8)]])].

(** The create call of [req_plain] in a variant, on clock reads 0 and 1. *)
Definition plain_create (v : Variant) : Call :=
  createCall v w_empty "shop.example" "tok" (VStr "a@b.com") VUndef VUndef VUndef 0 1.

(** The create call of [req_plain] in the first handler of webhook.js. *)
Definition plain_create1 (w : World) : Call :=
  mkCall "POST" (createUrl "shop.example")
    [("Content-Type", "application/json"); ("X-Shopify-Access-Token", "tok")]
    (Some (VObj [("customer",
                  Webhook1.customerData_of w (VStr "a@b.com") VUndef VUndef VUndef 0)])).

(** ** All four handlers, side by side *)

Inductive Endpoint : Type := First | Searching (v : Variant).

Definition endpoint_handler (e : Endpoint) : World -> Request -> M unit :=
  match e with
  | First => Webhook1.handler
  | Searching v => handler_of v
  end.

(** The one call of the first handler of webhook.js: the [fetch] of
    [createShopifyCustomer] (lines 80-91) on the [customerData] of lines
    36-43. *)
Definition createCall1 (w : World) (email source discount_code tags : value) : Call :=
  mkCall "POST" (createUrl (shop_domain w))
    [("Content-Type", "application/json"); ("X-Shopify-Access-Token", access_token w)]
    (Some (VObj [("customer",
                  Webhook1.customerData_of w email source discount_code tags (clock w 0))])).

(** The property names of [payload.customer], in order. *)
Definition customer_keys (c : Call) : list string :=
  match call_payload c with
  | Some p => match prop "customer" p with
              | VObj fields => List.map fst fields
              | _ => []
              end
  | None => []
  end.

(** ** What the e-mail pattern accepts *)

(** The strings a regular expression denotes. *)
Inductive lang : regex -> string -> Prop :=
| lang_empty : lang Empty ""
| lang_class (p : ascii -> bool) (c : ascii) :
    p c = true -> lang (Class p) (String c "")
| lang_seq (r1 r2 : regex) (s1 s2 : string) :
    lang r1 s1 -> lang r2 s2 -> lang (Seq r1 r2) (s1 ++ s2)
| lang_alt_l (r1 r2 : regex) (s : string) : lang r1 s -> lang (Alt r1 r2) s
| lang_alt_r (r1 r2 : regex) (s : string) : lang r2 s -> lang (Alt r1 r2) s
| lang_star_nil (r : regex) : lang (Star r) ""
| lang_star_app (r : regex) (s1 s2 : string) :
    lang r s1 -> lang (Star r) s2 -> lang (Star r) (s1 ++ s2).

Fixpoint all_chars (p : ascii -> bool) (s : string) : bool :=
  match s with
  | EmptyString => true
  | String c rest => p c && all_chars p rest
  end.

(** A non-empty run of characters that are neither whitespace nor [@]. *)
Definition email_part (s : string) : Prop :=
  s <> "" /\ all_chars not_space_at s = true.

(** [local@domain.tld]: three such runs, joined by [@] and by a dot. *)
Definition email_shape (s : string) : Prop :=
  exists a b c, s = a ++ "@" ++ b ++ "." ++ c /\
                email_part a /\ email_part b /\ email_part c.

(** A character [encodeURIComponent] may produce. *)
Definition uri_safe (c : ascii) : bool := uri_unreserved c || Ascii.eqb c "%".

(** The reading of a percent-encoded query that the receiving side makes
    ([decodeURIComponent]): an escape [%XX] below 128 is that character,
    the two escapes of a two-byte UTF-8 sequence are one code unit, every
    other character stands for itself.  [None] where the text is malformed
    (JavaScript's URIError) or stands for a code unit from 256 on, which the
    strings of this development do not hold. *)
Definition hex_value (c : ascii) : option nat :=
  let n := nat_of_ascii c in
  if ((48 <=? n) && (n <=? 57))%nat then Some (n - 48)%nat
  else if ((65 <=? n) && (n <=? 70))%nat then Some (n - 55)%nat
  else if ((97 <=? n) && (n <=? 102))%nat then Some (n - 87)%nat
  else None.

Definition escape_value (a b : ascii) : option nat :=
  match hex_value a, hex_value b with
  | Some h, Some l => Some (16 * h + l)%nat
  | _, _ => None
  end.

Fixpoint decodeURIComponent (s : string) : option string :=
  match s with
  | EmptyString => Some EmptyString
  | String c rest =>
      if negb (Ascii.eqb c "%") then option_map (String c) (decodeURIComponent rest)
      else
        match rest with
        | String a (String b rest1) =>
            match escape_value a b with
            | None => None
            | Some n =>
                if (n <? 128)%nat
                then option_map (String (ascii_of_nat n)) (decodeURIComponent rest1)
                else
                  match rest1 with
                  | String p (String a2 (String b2 rest2)) =>
                      match escape_value a2 b2 with
                      | None => None
                      | Some n2 =>
                          if Ascii.eqb p "%" && (194 <=? n)%nat && (n <=? 195)%nat
                             && (128 <=? n2)%nat && (n2 <=? 191)%nat
                          then option_map
                                 (String (ascii_of_nat ((n - 192) * 64 + (n2 - 128))))
                                 (decodeURIComponent rest2)
                          else None
                      end
                  | _ => None
                  end
            end
        | _ => None
        end
  end.

(** Worlds in which a call is rejected (the network fails), an answer
    cannot be read, or the configuration is missing. *)
Definition network_down : JsError := mkError "fetch failed" "TypeError".

Definition w_search_rejected : World :=
  demo_world (inl network_down) (answer 500 "boom") (answer 201 text_customer).
Definition w_update_rejected : World :=
  demo_world (answer 200 text_two_customers) (inl network_down) (answer 201 text_customer).
Definition w_search_garbled : World :=
  demo_world (answer 200 "<html>") (answer 500 "boom") (answer 201 text_customer).
Definition w_update_garbled : World :=
  demo_world (answer 200 text_two_customers) (answer 200 "") (answer 201 text_customer).
Definition w_create_garbled : World :=
  demo_world (answer 200 text_no_customers) (answer 500 "boom") (answer 201 "<html>").

Definition w_taken_in_text : World :=
  demo_world (answer 200 text_no_customers) (answer 500 "boom")
    (answer 500 "upstream said 422").

Definition req_options : Request := mkRequest "OPTIONS" VUndef.
Definition req_get : Request := mkRequest "GET" VUndef.
Definition req_no_body : Request := mkRequest "POST" VUndef.
Definition req_garbled : Request := mkRequest "POST" (VStr "{").

(** [{"customers":[null]}] *)
Definition text_null_customer : string := "{" ++ dq ++ "customers" ++ dq ++ ":[null]}".

Definition w_null_customer : World :=
  mkWorld (demo_fetch (answer 200 text_null_customer) (answer 500 "boom")
             (answer 201 text_customer))
          (fun n => Z.of_nat n)
          (fun t => "T" ++ string_of_Z t)
          (fun t => "D" ++ string_of_Z t)
          demo_env
          (fun text => if (text =? text_null_customer)%string
                       then inr (VObj [("customers", VArr [VNull])])
                       else demo_parse text)
          (fun k => mkError ("Cannot read properties of null (reading '" ++ k ++ "')")
                            "TypeError")
          not_primitive
          (fun _ => "Error")
          (fun _ => false)
          (fun _ => "1e+21").

Definition w_unconfigured : World :=
  mkWorld (demo_fetch (answer 200 text_no_customers) (answer 500 "boom")
             (answer 201 text_customer))
          (fun n => Z.of_nat n)
          (fun t => "T" ++ string_of_Z t)
          (fun t => "D" ++ string_of_Z t)
          (fun k => if (k =? "SHOPIFY_SHOP_DOMAIN")%string then Some "shop.example" else None)
          demo_parse
          (fun k => mkError ("Cannot read properties of undefined (reading '" ++ k ++ "')")
                            "TypeError")
          not_primitive
          (fun _ => "Error")
          (fun _ => false)
          (fun _ => "1e+21").

(** A development deployment: [NODE_ENV] is [development]. *)
Definition w_development : World :=
  mkWorld (demo_fetch (answer 200 text_no_customers) (answer 500 "boom")
             (answer 201 text_customer))
          (fun n => Z.of_nat n)
          (fun t => "T" ++ string_of_Z t)
          (fun t => "D" ++ string_of_Z t)
          (fun k => if (k =? "NODE_ENV")%string then Some "development" else demo_env k)
          demo_parse
          (fun k => mkError ("Cannot read properties of undefined (reading '" ++ k ++ "')")
                            "TypeError: at handler")
          not_primitive
          (fun _ => "Error")
          (fun _ => false)
          (fun _ => "1e+21").

Example email_ok (w : World) : regex_test w emailRegex (VStr "a@b.com") = true.
Proof. reflexivity. Qed.

Example email_bad (w : World) : regex_test w emailRegex (VStr "not-an-email") = false.
Proof. reflexivity. Qed.

Example str_42 (w : World) : toStr w (VNum 42) = "42".
Proof. reflexivity. Qed.

Example str_0 (w : World) : toStr w (VNum 0) = "0".
Proof. reflexivity. Qed.

Example enc_email : encodeURIComponent "a@b.com" = "a%40b.com".
Proof. reflexivity. Qed.

(** No customer found: the create call carries the default tags and the
    answer says the customer is new. *)
Example scenario_create :
  trace (Webhook2.handler w_empty req_plain)
  = [searchCall w_empty "shop.example" "tok" (VStr "a@b.com"); plain_create W2] /\
  customer_field "tags" (plain_create W2)
  = VStr "newsletter,discount-popup,popup-subscriber" /\
  customer_field "note" (plain_create W2)
  = VStr "Customer created via discount popup. Source: discount_popup. Discount code: WELCOME10. Created: T1" /\
  sent_field "success" (Webhook2.handler w_empty req_plain) = VBool true /\
  sent_field "existing_customer" (Webhook2.handler w_empty req_plain) = VBool false.
Proof. repeat split. Qed.

(** A malformed e-mail: 400 and no outbound call. *)
Example scenario_malformed :
  invoke (Webhook2.handler w_empty req_bad)
  = (Sent (mkResponse 400 (Some (VObj [("error", VStr "Invalid email format");
                                       ("email", VStr "not-an-email")]))),
     init).
Proof. reflexivity. Qed.

(** The search is refused: 500 and no further call. *)
Example scenario_search_down :
  invoke (Part000.handler w_search_down req_plain)
  = (Sent (mkResponse 500 (Some (VObj [("success", VBool false);
                                       ("error", VStr "Failed to search customers");
                                       ("details", VStr "Shopify API Error: 500")]))),
     mkState [searchCall w_search_down "shop.example" "tok" (VStr "a@b.com")] 0).
Proof. reflexivity. Qed.



(** ** Running the handlers *)

Lemma converts_js_or (a b : value) : converts b = true -> converts (js_or a b) = converts a.
Proof.
  unfold js_or. intros Hb.
  destruct a as [| | [|] | n | s | items | fields]; cbn [truthy converts];
    try reflexivity; try assumption.
  - destruct (n =? 0); cbn [negb]; [exact Hb | reflexivity].
  - destruct (s =? "")%string; cbn [negb]; [exact Hb | reflexivity].
Qed.

Lemma has_customers_nil (w : World) : has_customers w (VArr []) = Some false.
Proof. reflexivity. Qed.

Lemma has_customers_cons (w : World) (c : value) (rest : list value) :
  has_customers w (VArr (c :: rest)) = Some true.
Proof. reflexivity. Qed.

Lemma prop_not_nullish (k : string) (v x : value) (items : list value) :
  prop k v = VArr items -> nullish v = false.
Proof. destruct v; simpl; intros H; try reflexivity; discriminate. Qed.

Ltac unfold_monad :=
  unfold test, to_string, converted, ToString,
    try_catch, bind, get, parse, ret, throw, respond, respond_end, do_fetch, new_Date.

(** The tags of an update, computed by each variant, are [update_tags]
    when the conversions complete, and the TypeError otherwise. *)
Lemma combinedTags_run (w : World) (c tags : value) (s : State) :
  Webhook2.combinedTags w c tags s
  = if tags_convert W2 c tags then (Val (update_tags W2 w c tags), s)
    else (Throw (cannot_convert w), s).
Proof.
  unfold Webhook2.combinedTags, tags_convert, update_tags. unfold_monad. cbv zeta.
  destruct (truthy (js_or (prop "tags" c) (VStr ""))); [| reflexivity].
  destruct (converts (js_or (prop "tags" c) (VStr ""))); [| reflexivity].
  destruct (converts (js_or tags (VStr "newsletter,discount-popup,popup-subscriber")));
    reflexivity.
Qed.

Lemma updateTags0_run (w : World) (c tags : value) (s : State) :
  Part000.updateTags w c s
  = if tags_convert P000 c tags then (Val (update_tags P000 w c tags), s)
    else (Throw (cannot_convert w), s).
Proof.
  unfold Part000.updateTags, tags_convert, update_tags. unfold_monad.
  destruct (truthy (prop "tags" c)); [| reflexivity].
  destruct (converts (prop "tags" c)); reflexivity.
Qed.

Lemma updateTags1_run (w : World) (c tags : value) (s : State) :
  Part001.updateTags w c tags s
  = if tags_convert P001 c tags then (Val (update_tags P001 w c tags), s)
    else (Throw (cannot_convert w), s).
Proof.
  unfold Part001.updateTags, tags_convert, update_tags. unfold_monad.
  destruct (truthy (prop "tags" c)); [| reflexivity].
  destruct (converts (prop "tags" c)); [| reflexivity].
  destruct (converts tags); reflexivity.
Qed.

Ltac tags_run :=
  first [ rewrite combinedTags_run
        | rewrite updateTags1_run
        | match goal with
          | |- context [Part000.updateTags ?w ?c ?s] =>
              let t := match goal with
                       | H : context [tags_convert P000 c ?t] |- _ => t
                       | |- context [updateCall P000 _ _ _ _ ?t _] => t
                       | |- context [shape P000 _ _ _ _ _ _ ?t] => t
                       | _ => constr:(VUndef)
                       end in
              rewrite (updateTags0_run w c t s)
          end ].

Ltac scrutinee t :=
  lazymatch t with
  | context [match ?y with _ => _ end] => scrutinee y
  | _ => lazymatch type of t with
         | (Result _ * State)%type => tags_run
         | _ => destruct t eqn:?
         end
  end.

Ltac case_step :=
  cbv beta iota;
  lazymatch goal with
  | |- context [match ?x with _ => _ end] => scrutinee x
  end.

Ltac reduce_state := cbv beta iota; cbn [calls ticks init app negb].

(** Follow a run along the facts at hand: the scrutinee the run waits
    on is replaced by its value when a hypothesis gives it. *)
Ltac known t :=
  lazymatch t with
  | context [match ?y with _ => _ end] => known y
  | _ => lazymatch type of t with
         | (Result _ * State)%type => tags_run
         | _ => first
             [ rewrite converts_js_or by reflexivity
             | match goal with H : t = _ |- _ => rewrite H end
             | match goal with H : _ = ?b |- _ => rewrite (H : t = b) end
             | match goal with
               | H : ?l = _ |- _ => match t with context [l] => rewrite H end
               end
             | rewrite has_customers_cons
             | rewrite has_customers_nil ]
         end
  end.

Ltac follow :=
  repeat (reduce_state;
          lazymatch goal with
          | |- context [match ?x with _ => _ end] => known x
          end);
  reduce_state.

Ltac truthy_goal :=
  lazymatch goal with
  | |- ?x = true =>
      let E := fresh in destruct x eqn:E; [reflexivity | try rewrite E in *; cbn [negb] in *; discriminate]
  end.

Ltac read_body :=
  unfold parsed_body; cbn [req_body];
  try match goal with
      | H : (typeof _ =? "string")%string = _ |- _ => rewrite H
      end;
  repeat match goal with
         | H : nullish ?x = _ |- context [nullish ?x] => rewrite H
         end;
  try match goal with
      | H : (typeof _ =? "object")%string && _ = _ |- _ => rewrite H
      end;
  try match goal with
      | H : JSON_parse _ _ = _ |- _ => rewrite H
      end;
  reflexivity.

Ltac method_facts :=
  repeat match goal with
         | H : (_ =? _)%string = true |- _ => apply String.eqb_eq in H
         | H : (_ =? _)%string = false |- _ => apply String.eqb_neq in H
         | H : negb _ = false |- _ => apply negb_false_iff in H
         | H : negb _ = true |- _ => apply negb_true_iff in H
         | H : _ || _ = false |- _ => apply orb_false_elim in H; destruct H
         end.

Ltac unfold_handlers :=
  unfold handler_of, upsert_of, shop_domain, access_token;
  unfold Webhook2.handler, Webhook2.parse_body, Webhook2.on_error,
    Part000.handler, Part000.parse_body, Part000.on_error,
    Part001.handler, Part001.on_error;
  unfold_monad.

(** The four ways an invocation of a search-based variant goes: the
    preflight answer, a refused method, an answer to the POST before any
    call, or the search-update-create sequence. *)
Lemma dispatch (v : Variant) (w : World) (req : Request) :
  (req_method req = "OPTIONS" /\
   handler_of v w req init = (Respond (mkResponse 200 None), init)) \/
  (req_method req <> "OPTIONS" /\ req_method req <> "POST" /\
   exists b, handler_of v w req init = (Respond (mkResponse 405 (Some b)), init) /\
             prop "error" b = VStr "Method not allowed" /\
             prop "success" b = VUndef) \/
  (req_method req = "POST" /\
   exists st b, handler_of v w req init = (Respond (mkResponse st (Some b)), init) /\
                (st = 400 \/ st = 500) /\
                prop "success" b <> VBool true) \/
  (req_method req = "POST" /\
   exists body,
     parsed_body v w req = Some body /\
     nullish body = false /\
     truthy (prop "email" body) = true /\
     (v <> P001 -> regex_test w emailRegex (prop "email" body) = true) /\
     (v <> P001 -> converts (prop "email" body) = true) /\
     env_missing (env w "SHOPIFY_SHOP_DOMAIN") = false /\
     env_missing (env w "SHOPIFY_ACCESS_TOKEN") = false /\
     handler_of v w req init
     = upsert_of v w (shop_domain w) (access_token w) (prop "email" body)
         (prop "source" body) (prop "discount_code" body) (prop "tags" body) init).
Proof.
  destruct req as [m b].
  destruct v; unfold_handlers; cbn [req_method req_body].
  all: repeat case_step.
  all: first
    [ solve [left; split; [method_facts; assumption | reflexivity]]
    | solve [right; left; method_facts; split; [assumption |]; split; [assumption |];
             eexists; split; [reflexivity | split; reflexivity]]
    | solve [right; right; left; method_facts; split; [assumption |];
             do 2 eexists; split; [reflexivity |]; split; [auto | discriminate]]
    | solve [right; right; right; split; [method_facts; assumption |];
             eexists; split; [read_body |]; method_facts;
             repeat split; try reflexivity; try assumption; try (intros _; assumption);
             try (let Hv := fresh in intros Hv; now elim Hv);
             try match goal with H : ?x <> ?x |- _ => now elim H end] ].
Qed.

(** Every invocation of a search-based variant either answers without
    any outbound call, or runs the search-update-create sequence on the
    fields of a body whose e-mail passed the variant's validation. *)
Lemma reach (v : Variant) (w : World) (req : Request) :
  (exists r, handler_of v w req init = (Respond r, init)) \/
  (exists body,
      parsed_body v w req = Some body /\
      truthy (prop "email" body) = true /\
      (v <> P001 -> regex_test w emailRegex (prop "email" body) = true) /\
      handler_of v w req init
      = upsert_of v w (shop_domain w) (access_token w) (prop "email" body)
          (prop "source" body) (prop "discount_code" body) (prop "tags" body) init).
Proof.
  destruct (dispatch v w req)
    as [[_ H] | [(_ & _ & b & H & _) | [(_ & st & b & H & _)
       | (_ & body & Hb & _ & Ht & Hre & _ & _ & _ & H)]]];
    [left; eauto .. | right; exists body; auto].
Qed.

Ltac unfold_steps :=
  unfold upsert_of, create_of,
    Webhook2.upsert, Webhook2.update_step, Webhook2.create_step,
    Webhook2.on_shopify_error, Webhook2.on_error,
    Part000.upsert, Part000.update_step, Part000.create_step, Part000.on_error,
    Part001.upsert, Part001.update_step, Part001.create_step, Part001.on_error;
  unfold_monad.

(** A run of the sequence ends in a response; its calls have one of the
    seven shapes, and it makes a call only for an e-mail that converts. *)
Lemma upsert_shape (v : Variant) (w : World) (dom tok : string)
    (email source dc tags : value) :
  exists r l n,
    upsert_of v w dom tok email source dc tags init = (Respond r, mkState l n) /\
    shape v w dom tok email source dc tags l n /\
    (l <> [] -> converts email = true).
Proof.
  destruct v; unfold_steps; reduce_state.
  all: repeat (case_step; reduce_state).
  all: do 3 eexists; split; [reflexivity |]; split.
  all: try (constructor; fail).
  all: try (intros _; assumption).
  all: intros N; now elim N.
Qed.

Lemma run_observed (m : M unit) (r : HttpResponse) (l : list Call) (n : nat) :
  m init = (Respond r, mkState l n) ->
  trace m = l /\ outcome m = Sent r /\ ticks (snd (invoke m)) = n.
Proof. unfold trace, outcome, invoke. intros ->. repeat split. Qed.

Lemma observed_eq (m m' : M unit) :
  m init = m' init ->
  trace m = trace m' /\ outcome m = outcome m' /\
  (forall w k, answer_at w m k = answer_at w m' k) /\
  sent_status m = sent_status m' /\ (forall k, sent_field k m = sent_field k m').
Proof.
  intros H.
  assert (Hi : invoke m = invoke m') by (unfold invoke; now rewrite H).
  unfold answer_at, sent_status, sent_field, trace, outcome. rewrite Hi.
  repeat split.
Qed.

(** An invocation whose first call was answered ran the sequence, and
    that first call is the customer search, for an e-mail that converts. *)
Lemma searched (v : Variant) (w : World) (req : Request) (a : JsError + FetchResponse) :
  answer_at w (handler_of v w req) 0 = Some a ->
  exists body,
    parsed_body v w req = Some body /\
    truthy (prop "email" body) = true /\
    (v <> P001 -> regex_test w emailRegex (prop "email" body) = true) /\
    handler_of v w req init
    = upsert_of v w (shop_domain w) (access_token w) (prop "email" body)
        (prop "source" body) (prop "discount_code" body) (prop "tags" body) init /\
    fetch w [] (searchCall w (shop_domain w) (access_token w) (prop "email" body)) = a /\
    converts (prop "email" body) = true.
Proof.
  intros Ha.
  destruct (reach v w req) as [[r Hr] | (body & Hb & Ht & Hre & Hrun)].
  - unfold answer_at, trace, invoke in Ha. rewrite Hr in Ha. discriminate.
  - exists body. repeat split; try assumption.
    all: destruct (observed_eq _ _ Hrun) as (_ & _ & Hans & _);
      rewrite Hans in Ha;
      destruct (upsert_shape v w (shop_domain w) (access_token w) (prop "email" body)
                  (prop "source" body) (prop "discount_code" body) (prop "tags" body))
        as (r & l & n & Hu & Hs & Hce);
      destruct (run_observed _ _ _ _ Hu) as (Htr & _);
      unfold answer_at in Ha; rewrite Htr in Ha.
    + destruct Hs; cbn in Ha; congruence.
    + apply Hce. destruct Hs; cbn in Ha; congruence.
Qed.

Ltac start Ha :=
  destruct (searched _ _ _ _ Ha) as (rb & Hrb & Hemail & Hre & Hrun & Hf & Hce);
  set (email := prop "email" rb) in *;
  set (source := prop "source" rb) in *;
  set (dc := prop "discount_code" rb) in *;
  set (tags := prop "tags" rb) in *.

Lemma append_empty_r (s : string) : s ++ "" = s.
Proof. induction s as [| c s IH]; simpl; [reflexivity | now rewrite IH]. Qed.

Lemma append_length (a b : string) :
  String.length (a ++ b) = (String.length a + String.length b)%nat.
Proof. induction a as [| c a IH]; simpl; [reflexivity | now rewrite IH]. Qed.

Lemma append_inj_l (p a b : string) : p ++ a = p ++ b -> a = b.
Proof.
  induction p as [| c p IH]; simpl; intros H; [assumption |].
  injection H as H. auto.
Qed.

Lemma append_inj_r (a b s : string) : a ++ s = b ++ s -> a = b.
Proof.
  revert b. induction a as [| c a IH]; intros [| d b] H; simpl in H.
  - reflexivity.
  - apply (f_equal String.length) in H. simpl in H. rewrite append_length in H. lia.
  - apply (f_equal String.length) in H. simpl in H. rewrite append_length in H. lia.
  - injection H as -> H. f_equal. auto.
Qed.

Lemma updateUrl_inj (dom i j : string) : updateUrl dom i = updateUrl dom j -> i = j.
Proof.
  unfold updateUrl. intros H.
  apply append_inj_l in H. apply append_inj_l in H. apply append_inj_l in H.
  now apply append_inj_r in H.
Qed.

Section Runs.

Variables (v : Variant) (w : World) (dom tok : string) (email source dc tags : value).

Hypothesis Hce : converts email = true.

Let S0 := searchCall w dom tok email.
Let U0 (c : value) := updateCall v w dom tok c tags (clock w 0).
Let C0 (k : nat) := createCall v w dom tok email source dc tags (clock w k) (clock w (S k)).


Lemma run_empty (resp : FetchResponse) (sd : value) :
  fetch w [] S0 = inr resp ->
  resp_ok resp = true ->
  JSON_parse w (resp_text resp) = inr sd ->
  prop "customers" sd = VArr [] ->
  upsert_of v w dom tok email source dc tags init
  = create_of v w dom tok email source dc tags (mkState [S0] 0).
Proof.
  intros Hf Hok Hp Hc. subst S0.
  pose proof (prop_not_nullish _ _ VUndef _ Hc) as Hn.
  destruct v; unfold_steps; follow; reflexivity.
Qed.

(** A first customer whose id or tags do not convert (or, in webhook.js
    and part_001, submitted tags that do not) end the run before the
    update call. *)
Lemma run_update_stopped (resp : FetchResponse) (sd c : value) (rest : list value) :
  fetch w [] S0 = inr resp ->
  resp_ok resp = true ->
  JSON_parse w (resp_text resp) = inr sd ->
  prop "customers" sd = VArr (c :: rest) ->
  nullish c = false ->
  converts (prop "id" c) && tags_convert v c tags = false ->
  exists b n,
    upsert_of v w dom tok email source dc tags init
    = (Respond (mkResponse 500 (Some b)), mkState [S0] n) /\
    prop "details" b = VStr (message (cannot_convert w)).
Proof.
  intros Hf Hok Hp Hc Hnc Hno. subst S0.
  pose proof (prop_not_nullish _ _ VUndef _ Hc) as Hn.
  destruct v; unfold_steps; follow; cbn [index0 hd]; follow.
  all: repeat (case_step; reduce_state).
  all: try (do 2 eexists; split; reflexivity).
  all: exfalso; cbn [index0 hd] in *;
    repeat match goal with
           | H : converts _ = true |- _ => rewrite H in Hno
           | H : tags_convert _ _ _ = true |- _ => rewrite H in Hno
           end; discriminate.
Qed.



(** With a first customer that is not null, the run either stops before
    the update call, on a conversion that fails, or makes it as its
    second call. *)
Lemma run_found (resp : FetchResponse) (sd c : value) (rest : list value) :
  fetch w [] S0 = inr resp ->
  resp_ok resp = true ->
  JSON_parse w (resp_text resp) = inr sd ->
  prop "customers" sd = VArr (c :: rest) ->
  nullish c = false ->
  exists r tail n,
    upsert_of v w dom tok email source dc tags init
    = (Respond r, mkState (S0 :: tail) n) /\
    ((converts (prop "id" c) && tags_convert v c tags = false /\ tail = []) \/
     (converts (prop "id" c) = true /\ tags_convert v c tags = true /\
      (tail = [U0 c] \/ tail = [U0 c; C0 1%nat]))).
Proof.
  intros Hf Hok Hp Hc Hnc. subst S0 U0 C0.
  pose proof (prop_not_nullish _ _ VUndef _ Hc) as Hn.
  destruct v.
  all: unfold_steps; follow; cbn [index0 hd]; follow.
  all: repeat (case_step; reduce_state).
  all: do 3 eexists; split; [reflexivity |].
  all: repeat match goal with
              | H : converts _ = _ |- _ => rewrite H
              | H : tags_convert _ _ _ = _ |- _ => rewrite H
              end.
  all: first [ left; split; [first [reflexivity | apply andb_false_r] | reflexivity]
             | right; split; [reflexivity |]; split; [reflexivity |]; auto ].
Qed.

End Runs.

Section Creates.

Variables (v : Variant) (w : World) (dom tok : string) (email source dc tags : value).

Let C0 (k : nat) := createCall v w dom tok email source dc tags (clock w k) (clock w (S k)).

(** What the [catch] block around the sequence names as the error. *)
Let caught : value :=
  VStr match v with
       | W2 => "Shopify API request failed"
       | _ => "Internal server error"
       end.

(** A source or discount code that does not convert ends the create step
    after its first clock read, before the call. *)
Lemma create_stopped (s : State) :
  converts source && converts dc = false ->
  exists b,
    create_of v w dom tok email source dc tags s
    = (Respond (mkResponse 500 (Some b)), mkState (calls s) (S (ticks s))) /\
    prop "details" b = VStr (message (cannot_convert w)) /\
    prop "error" b = caught.
Proof.
  intros Hno. subst caught.
  destruct (converts source) eqn:Hs; cbn [andb] in Hno.
  all: destruct v; unfold_steps; follow.
  all: eexists; split; [reflexivity |]; split; reflexivity.
Qed.

Lemma create_calls (s : State) :
  converts source = true ->
  converts dc = true ->
  exists r,
    create_of v w dom tok email source dc tags s
    = (Respond r, mkState (calls s ++ [C0 (ticks s)]) (S (S (ticks s)))).
Proof.
  intros Hs Hd. subst C0. unfold createCall, customerData_of.
  destruct v; unfold_steps; follow.
  all: repeat (case_step; reduce_state).
  all: eexists; reflexivity.
Qed.




Lemma create_answer_unparsable (s : State) (r : FetchResponse) (e : JsError) :
  converts source = true ->
  converts dc = true ->
  fetch w (calls s) (C0 (ticks s)) = inr r ->
  resp_ok r = true ->
  JSON_parse w (resp_text r) = inl e ->
  exists b,
    create_of v w dom tok email source dc tags s
    = (Respond (mkResponse 500 (Some b)),
       mkState (calls s ++ [C0 (ticks s)]) (S (S (ticks s)))) /\
    prop "details" b = VStr (message e) /\ prop "error" b = caught.
Proof.
  intros Hs Hd. subst C0 caught. intros Hf Hok Hp.
  destruct v; unfold_steps; follow.
  all: eexists; split; [reflexivity |]; split; reflexivity.
Qed.

Lemma create_without_customer (s : State) (r : FetchResponse) (res : value) :
  converts source = true ->
  converts dc = true ->
  fetch w (calls s) (C0 (ticks s)) = inr r ->
  resp_ok r = true ->
  JSON_parse w (resp_text r) = inr res ->
  nullish res = false ->
  nullish (prop "customer" res) = true ->
  exists b,
    create_of v w dom tok email source dc tags s
    = (Respond (mkResponse 500 (Some b)),
       mkState (calls s ++ [C0 (ticks s)]) (S (S (ticks s)))) /\
    prop "details" b
    = VStr (message (TypeError w match v with
                                 | P001 => "admin_graphql_api_id"
                                 | _ => "id"
                                 end)) /\
    prop "error" b = caught.
Proof.
  intros Hs Hd. subst C0 caught. intros Hf Hok Hp Hn Hnc.
  destruct v; unfold_steps; follow.
  all: eexists; split; [reflexivity |]; split; reflexivity.
Qed.

(** The create step either stops before its call or makes it. *)
Lemma create_cases (s : State) :
  exists r l n,
    create_of v w dom tok email source dc tags s = (Respond r, mkState l n) /\
    ((converts source && converts dc = false /\ l = calls s) \/
     (converts source = true /\ converts dc = true /\
      l = (calls s ++ [C0 (ticks s)])%list)).
Proof.
  destruct (converts source && converts dc) eqn:E.
  - apply andb_true_iff in E as [Hs Hd].
    destruct (create_calls s Hs Hd) as [r Hr]. exists r. do 2 eexists.
    split; [exact Hr |]. right. auto.
  - destruct (create_stopped s E) as (b & Hb & _). do 3 eexists.
    split; [exact Hb |]. left. auto.
Qed.

End Creates.

Lemma updateCall_id (v : Variant) (w : World) (dom tok : string) (c tags : value) (t : Z) :
  customer_field "id" (updateCall v w dom tok c tags t) = prop "id" c.
Proof. destruct v; reflexivity. Qed.


Ltac start_on Ha Hpb :=
  destruct (searched _ _ _ _ Ha) as (rb & Hrb & Hemail & Hre & Hrun & Hf & Hce);
  rewrite Hpb in Hrb; injection Hrb as <-;
  match type of Hpb with
  | _ = Some ?body =>
      set (email := prop "email" body) in *;
      set (source := prop "source" body) in *;
      set (dc := prop "discount_code" body) in *;
      set (tags := prop "tags" body) in *
  end.

(** C1 (amended). When the customer search answers with an empty
    customers list, no call of the invocation is an update (PUT).  When
    the request's source and discount_code convert to strings, the
    invocation makes exactly two calls, the search and then a create (POST
    to the customers collection).  When one of them does not (an object
    that owns a toString property), the template of the note throws: the
    search stays the only call and the answer is a 500. *)
Theorem C1_empty_search_creates_never_updates
    (v : Variant) (w : World) (req : Request) (resp : FetchResponse) (body sd : value) :
  let m := handler_of v w req in
  parsed_body v w req = Some body ->
  answer_at w m 0 = Some (inr resp) ->
  resp_ok resp = true ->
  JSON_parse w (resp_text resp) = inr sd ->
  prop "customers" sd = VArr [] ->
  (forall c, In c (trace m) -> is_put c = false) /\
  (converts (prop "source" body) = true ->
   converts (prop "discount_code" body) = true ->
   exists search create,
     trace m = [search; create] /\
     is_get search = true /\
     is_post create = true /\
     call_url create
     = "https://" ++ shop_domain w ++ "/admin/api/2023-10/customers.json") /\
  (converts (prop "source" body) && converts (prop "discount_code" body) = false ->
   sent_status m = Some 500 /\
   sent_field "details" m = VStr (message (cannot_convert w)) /\
   exists search, trace m = [search] /\ is_get search = true).
Proof.
  intros m Hpb Ha Hok Hp Hc. subst m.
  start_on Ha Hpb.
  rewrite (run_empty v w _ _ email source dc tags Hce resp sd Hf Hok Hp Hc) in Hrun.
  set (s := mkState [searchCall w (shop_domain w) (access_token w) email] 0) in *.
  split; [| split].
  - destruct (create_cases v w (shop_domain w) (access_token w) email source dc tags s)
      as (r & l & n & Hr & [[_ ->] | (_ & _ & ->)]);
      rewrite Hr in Hrun; destruct (run_observed _ _ _ _ Hrun) as (Htr & _); rewrite Htr.
    + intros c [<- | []]. reflexivity.
    + intros c [<- | [<- | []]]; reflexivity.
  - intros Hs Hd.
    destruct (create_calls v w (shop_domain w) (access_token w) email source dc tags s Hs Hd)
      as [r Hr].
    rewrite Hr in Hrun. destruct (run_observed _ _ _ _ Hrun) as (Htr & _).
    rewrite Htr. do 2 eexists. repeat split.
  - intros Hno.
    destruct (create_stopped v w (shop_domain w) (access_token w) email source dc tags s Hno)
      as (b & Hb & Hd & _).
    rewrite Hb in Hrun. destruct (run_observed _ _ _ _ Hrun) as (Htr & Hout & _).
    unfold sent_status, sent_field. rewrite Hout, Htr. cbn [status].
    split; [reflexivity |]. split; [exact Hd |]. eexists. split; reflexivity.
Qed.

(** C2 (amended). When the customer search answers with one or more
    customers, of which the first is not null: if the first customer's
    id converts to a string and so do the tags the update merges, the
    second call of the invocation is a PUT to
    [/admin/api/2023-10/customers/<id>.json] whose body carries that id,
    and it is the only PUT; if one of these conversions fails, the
    handler answers 500 and makes no PUT.  In either case no call
    addresses a later customer whose id differs from the first one's.
    The id of the URL is the decimal numeral of a numeric id (up to 2^53)
    and the string itself of a string id. *)
Theorem C2_update_targets_first_customer
    (v : Variant) (w : World) (req : Request) (resp : FetchResponse)
    (body sd c : value) (rest : list value) :
  let m := handler_of v w req in
  parsed_body v w req = Some body ->
  answer_at w m 0 = Some (inr resp) ->
  resp_ok resp = true ->
  JSON_parse w (resp_text resp) = inr sd ->
  prop "customers" sd = VArr (c :: rest) ->
  nullish c = false ->
  (converts (prop "id" c) = true ->
   tags_convert v c (prop "tags" body) = true ->
   exists search update tail,
     trace m = search :: update :: tail /\
     is_put update = true /\
     call_url update
     = "https://" ++ shop_domain w ++ "/admin/api/2023-10/customers/"
       ++ toStr w (prop "id" c) ++ ".json" /\
     customer_field "id" update = prop "id" c /\
     (forall x, In x (search :: tail) -> is_put x = false)) /\
  (converts (prop "id" c) && tags_convert v c (prop "tags" body) = false ->
   sent_status m = Some 500 /\
   forall x, In x (trace m) -> is_put x = false) /\
  (forall c', In c' rest ->
     toStr w (prop "id" c') <> toStr w (prop "id" c) ->
     forall x, In x (trace m) -> ~ addresses w (shop_domain w) (prop "id" c') x) /\
  (forall n, prop "id" c = VNum n -> Z.abs n <= 9007199254740991 ->
     toStr w (prop "id" c) = NilZero.string_of_int (Z.to_int n)) /\
  (forall s, prop "id" c = VStr s -> toStr w (prop "id" c) = s).
Proof.
  intros m Hpb Ha Hok Hp Hc Hnc. subst m.
  start_on Ha Hpb.
  destruct (run_found v w _ _ email source dc tags Hce resp sd c rest Hf Hok Hp Hc Hnc)
    as (r & tail & n & Hr & Htail).
  rewrite Hr in Hrun.
  destruct (run_observed _ _ _ _ Hrun) as (Htr & Hout & _).
  rewrite Htr.
  assert (Hsearch : is_put (searchCall w (shop_domain w) (access_token w) email) = false)
    by reflexivity.
  split; [| split; [| split; [| split]]].
  - intros Hid Htc.
    destruct Htail as [(Hno & _) | (_ & _ & Htail)];
      [rewrite Hid, Htc in Hno; discriminate |].
    destruct Htail as [-> | ->]; do 3 eexists; (split; [reflexivity |]).
    + repeat split; try apply updateCall_id.
      intros x [<- | []]. reflexivity.
    + repeat split; try apply updateCall_id.
      intros x [<- | [<- | []]]; reflexivity.
  - intros Hno.
    destruct Htail as [(_ & ->) | (Hid & Htc & _)];
      [| rewrite Hid, Htc in Hno; discriminate].
    split.
    + destruct (run_update_stopped v w _ _ email source dc tags Hce resp sd c rest
                  Hf Hok Hp Hc Hnc Hno) as (b & n' & Hb & _).
      rewrite Hb in Hr. injection Hr as <- _.
      unfold sent_status. now rewrite Hout.
    + intros x [<- | []]. reflexivity.
  - intros c' _ Hne x Hx [Hput Haddr].
    destruct Hx as [<- | Hx]; [discriminate |].
    assert (Hupd : x = updateCall v w (shop_domain w) (access_token w) c tags (clock w 0)).
    { destruct Htail as [(_ & ->) | (_ & _ & [-> | ->])].
      - destruct Hx.
      - destruct Hx as [<- | []]. reflexivity.
      - destruct Hx as [<- | [<- | []]]; [reflexivity | discriminate]. }
    subst x. destruct Haddr as [Hurl | Hid].
    + apply updateUrl_inj in Hurl. congruence.
    + rewrite updateCall_id in Hid. congruence.
  - intros k -> Hk. cbn [toStr]. unfold Number_toString.
    apply Z.leb_le in Hk. now rewrite Hk.
  - intros t ->. reflexivity.
Qed.



(** The calls of any invocation of a search-based variant. *)
Lemma handler_trace (v : Variant) (w : World) (req : Request) :
  trace (handler_of v w req) = [] \/
  exists body l n,
    parsed_body v w req = Some body /\
    trace (handler_of v w req) = l /\
    ticks (snd (invoke (handler_of v w req))) = n /\
    shape v w (shop_domain w) (access_token w) (prop "email" body) (prop "source" body)
      (prop "discount_code" body) (prop "tags" body) l n.
Proof.
  destruct (reach v w req) as [[r Hr] | (body & Hb & _ & _ & Hrun)].
  - left. unfold trace, invoke. now rewrite Hr.
  - right.
    destruct (upsert_shape v w (shop_domain w) (access_token w) (prop "email" body)
                (prop "source" body) (prop "discount_code" body) (prop "tags" body))
      as (r & l & n & Hu & Hs & _).
    rewrite Hu in Hrun. destruct (run_observed _ _ _ _ Hrun) as (Htr & _ & Hn).
    exists body, l, n. auto.
Qed.

Ltac unfold_upsert :=
  unfold upsert_of, create_of,
    Webhook2.upsert, Webhook2.update_step, Webhook2.on_shopify_error, Webhook2.on_error,
    Part000.upsert, Part000.update_step, Part000.on_error,
    Part001.upsert, Part001.update_step, Part001.on_error;
  unfold_monad.

(** A run of the sequence either ends without a POST, or ends with the
    create step, entered right after the search or after a failed update. *)
Lemma upsert_cases (v : Variant) (w : World) (dom tok : string)
    (email source dc tags : value) :
  (exists r l n,
      upsert_of v w dom tok email source dc tags init = (Respond r, mkState l n) /\
      forall c, In c l -> is_post c = false) \/
  upsert_of v w dom tok email source dc tags init
  = create_of v w dom tok email source dc tags (mkState [searchCall w dom tok email] 0) \/
  (exists c,
      upsert_of v w dom tok email source dc tags init
      = create_of v w dom tok email source dc tags
          (mkState [searchCall w dom tok email; updateCall v w dom tok c tags (clock w 0)] 1)).
Proof.
  destruct v; unfold_upsert; reduce_state.
  all: repeat (case_step; reduce_state).
  all: try (right; left; reflexivity).
  all: try (right; right; eexists; reflexivity).
  all: left; do 3 eexists; split; [reflexivity |].
  all: intros x Hx; cbn [In] in Hx;
    repeat match goal with
           | H : _ \/ _ |- _ => destruct H as [<- | H]
           | H : False |- _ => destruct H
           end; reflexivity.
Qed.

Lemma tags_convert_intro (v : Variant) (c tags : value) :
  converts (prop "tags" c) = true ->
  converts tags = true ->
  tags_convert v c tags = true.
Proof.
  intros Hc Ht. destruct v; cbn [tags_convert]; cbv zeta.
  - rewrite !converts_js_or by reflexivity. rewrite Hc, Ht.
    now destruct (truthy (js_or (prop "tags" c) (VStr ""))).
  - rewrite Hc. now destruct (truthy (prop "tags" c)).
  - rewrite Hc, Ht. now destruct (truthy (prop "tags" c)).
Qed.

Lemma updateCall_tags (v : Variant) (w : World) (dom tok : string) (c tags : value)
    (t : Z) (e : string) :
  prop "tags" c = VStr e ->
  customer_field "tags" (updateCall v w dom tok c tags t)
  = merged_tags w e
      match v with
      | W2 => js_or tags (VStr "newsletter,discount-popup,popup-subscriber")
      | P000 => VStr "newsletter,discount-popup,popup-subscriber"
      | P001 => tags
      end.
Proof.
  intros He. unfold merged_tags.
  destruct v;
    unfold customer_field, updateCall, updateData_of, update_tags, Webhook2.updateData,
      Part000.updateData, Part001.updateData;
    cbn [call_payload lookup String.eqb Ascii.eqb Bool.eqb prop]; rewrite He.
  - cbv zeta. unfold js_or at 1 2 3. cbn [truthy].
    destruct (e =? "")%string eqn:Ee; cbn [negb truthy toStr]; try rewrite Ee; reflexivity.
  - cbn [truthy]. destruct (e =? "")%string; reflexivity.
  - cbn [truthy]. destruct (e =? "")%string; reflexivity.
Qed.

(** C5 (amended). For a found customer whose tags are a string and whose
    id converts, the update is issued when the tags to merge convert, and
    the tags it sends are the existing customer's tags, a comma and the
    new tags when the existing tags are non-empty, and just the new tags
    otherwise, where the new tags are: in webhook.js's second handler the
    submitted tags, or the default
    "newsletter,discount-popup,popup-subscriber" when none or empty ones
    were submitted; in part_001 the submitted tags, when they are a
    string; in part_000 always the default, whatever was submitted. *)
Theorem C5_update_tags_merge
    (v : Variant) (w : World) (req : Request) (resp : FetchResponse)
    (body sd c : value) (rest : list value) (e : string) :
  let m := handler_of v w req in
  parsed_body v w req = Some body ->
  answer_at w m 0 = Some (inr resp) ->
  resp_ok resp = true ->
  JSON_parse w (resp_text resp) = inr sd ->
  prop "customers" sd = VArr (c :: rest) ->
  prop "tags" c = VStr e ->
  converts (prop "id" c) = true ->
  match v with
  | W2 => converts (prop "tags" body) = true
  | P000 => True
  | P001 => exists t, prop "tags" body = VStr t
  end ->
  exists update,
    nth_error (trace m) 1 = Some update /\
    is_put update = true /\
    customer_field "tags" update
    = merged_tags w e
        match v with
        | W2 => js_or (prop "tags" body) (VStr "newsletter,discount-popup,popup-subscriber")
        | P000 => VStr "newsletter,discount-popup,popup-subscriber"
        | P001 => prop "tags" body
        end.
Proof.
  intros m Hpb Ha Hok Hp Hc He Hid Hnew. subst m.
  assert (Hnc : nullish c = false) by (destruct c; try reflexivity; discriminate).
  start_on Ha Hpb.
  assert (Htc : tags_convert v c tags = true).
  { destruct v; cbn [tags_convert]; cbv zeta; rewrite ?converts_js_or by reflexivity;
      rewrite He; cbn [converts andb].
    - rewrite Hnew. now destruct (truthy (js_or (VStr e) (VStr ""))).
    - now destruct (truthy (VStr e)).
    - destruct Hnew as [t Ht]. rewrite Ht. now destruct (truthy (VStr e)). }
  destruct (run_found v w _ _ email source dc tags Hce resp sd c rest Hf Hok Hp Hc Hnc)
    as (r & tail & n & Hr & [(Hno & _) | (_ & _ & Htail)]);
    [rewrite Hid, Htc in Hno; discriminate |].
  rewrite Hr in Hrun. destruct (run_observed _ _ _ _ Hrun) as (Htr & _).
  rewrite Htr.
  exists (updateCall v w (shop_domain w) (access_token w) c tags (clock w 0)).
  split; [destruct Htail as [-> | ->]; reflexivity |]. split; [reflexivity |].
  now apply updateCall_tags.
Qed.

(** Every POST of a run is the create call, built on two successive
    clock reads of the run. *)
Lemma shape_post (v : Variant) (w : World) (dom tok : string)
    (email source dc tags : value) (l : list Call) (n : nat) (c : Call) :
  shape v w dom tok email source dc tags l n ->
  In c l -> is_post c = true ->
  exists k, (S k < n)%nat /\
            c = createCall v w dom tok email source dc tags (clock w k) (clock w (S k)).
Proof.
  intros Hs Hin Hpost.
  destruct Hs; cbn [In] in Hin;
    repeat match goal with
           | H : _ \/ _ |- _ => destruct H as [<- | H]
           | H : False |- _ => destruct H
           end; try discriminate.
  - exists 0%nat. split; [lia | reflexivity].
  - exists 1%nat. split; [lia | reflexivity].
Qed.

(** Every PUT of a run is the update call, built on the first clock read. *)
Lemma shape_put (v : Variant) (w : World) (dom tok : string)
    (email source dc tags : value) (l : list Call) (n : nat) (c : Call) :
  shape v w dom tok email source dc tags l n ->
  In c l -> is_put c = true ->
  (0 < n)%nat /\ exists cust, c = updateCall v w dom tok cust tags (clock w 0).
Proof.
  intros Hs Hin Hput.
  destruct Hs; cbn [In] in Hin;
    repeat match goal with
           | H : _ \/ _ |- _ => destruct H as [<- | H]
           | H : False |- _ => destruct H
           end; try discriminate.
  all: split; [lia | eexists; reflexivity].
Qed.


Ltac unfold_webhook1 :=
  unfold Webhook1.handler, Webhook1.createShopifyCustomer, Webhook1.on_error,
    Webhook1.isValidEmail;
  unfold_monad.

Ltac split_in H :=
  cbn [In] in H;
  repeat match goal with
         | H' : _ \/ _ |- _ => destruct H' as [<- | H']
         | H' : False |- _ => destruct H'
         end.

(** The first handler of webhook.js makes at most one call, the create,
    after one clock read. *)
Lemma webhook1_trace (w : World) (req : Request) :
  trace (Webhook1.handler w req) = [] \/
  exists email source dc tags,
    trace (Webhook1.handler w req)
    = [mkCall "POST" (createUrl (shop_domain w))
         [("Content-Type", "application/json");
          ("X-Shopify-Access-Token", access_token w)]
         (Some (VObj [("customer",
                       Webhook1.customerData_of w email source dc tags (clock w 0))]))].
Proof.
  destruct req as [m b]. unfold trace, invoke, shop_domain, access_token.
  unfold_webhook1. cbn [req_method req_body]. reduce_state.
  repeat (case_step; reduce_state).
  all: cbn [snd calls]; try (left; reflexivity).
  all: right; do 4 eexists; reflexivity.
Qed.

(** C9 (amended). In the three search-based variants every write to a
    customer record, update or create, sets the marketing consent to
    state "subscribed", opt-in level "single_opt_in" and a timestamp read
    from the clock during the invocation.  The create-only first handler
    of webhook.js writes no consent object: it sets accepts_marketing to
    true and marketing_opt_in_level to "confirmed_opt_in". *)
Theorem C9_consent_written
    (w : World) (req : Request) (c : Call) :
  (forall v,
      In c (trace (handler_of v w req)) ->
      is_put c = true \/ is_post c = true ->
      exists k,
        (k < ticks (snd (invoke (handler_of v w req))))%nat /\
        customer_field "email_marketing_consent" c
        = VObj [("state", VStr "subscribed");
                ("opt_in_level", VStr "single_opt_in");
                ("consent_updated_at", VStr (toISOString w (clock w k)))]) /\
  (In c (trace (Webhook1.handler w req)) ->
   is_post c = true /\
   customer_field "email_marketing_consent" c = VUndef /\
   customer_field "accepts_marketing" c = VBool true /\
   customer_field "marketing_opt_in_level" c = VStr "confirmed_opt_in").
Proof.
  split.
  - intros v Hin Hwrite.
    destruct (handler_trace v w req) as [Hnil | (body & l & n & Hb & Htr & Hn & Hs)].
    + rewrite Hnil in Hin. destruct Hin.
    + rewrite Htr in Hin. rewrite Hn. destruct Hwrite as [Hput | Hpost].
      * destruct (shape_put _ _ _ _ _ _ _ _ _ _ _ Hs Hin Hput) as (Hlt & cust & ->).
        exists 0%nat. split; [assumption | destruct v; reflexivity].
      * destruct (shape_post _ _ _ _ _ _ _ _ _ _ _ Hs Hin Hpost) as (k & Hlt & ->).
        exists k. split; [lia | destruct v; reflexivity].
  - intros Hin.
    destruct (webhook1_trace w req) as [Hnil | (email & source & dc & tags & Htr)].
    + rewrite Hnil in Hin. destruct Hin.
    + rewrite Htr in Hin. destruct Hin as [<- | []]. repeat split.
Qed.


(** The second call of an invocation that found a customer is the update,
    made after the conversions on the way to it. *)
Lemma update_answered (v : Variant) (w : World) (req : Request) (rb : value)
    (resp : FetchResponse) (sd c : value) (rest : list value) (a : JsError + FetchResponse) :
  handler_of v w req init
  = upsert_of v w (shop_domain w) (access_token w) (prop "email" rb) (prop "source" rb)
      (prop "discount_code" rb) (prop "tags" rb) init ->
  converts (prop "email" rb) = true ->
  fetch w [] (searchCall w (shop_domain w) (access_token w) (prop "email" rb)) = inr resp ->
  resp_ok resp = true ->
  JSON_parse w (resp_text resp) = inr sd ->
  prop "customers" sd = VArr (c :: rest) ->
  nullish c = false ->
  answer_at w (handler_of v w req) 1 = Some a ->
  converts (prop "id" c) = true /\
  tags_convert v c (prop "tags" rb) = true /\
  fetch w [searchCall w (shop_domain w) (access_token w) (prop "email" rb)]
    (updateCall v w (shop_domain w) (access_token w) c (prop "tags" rb) (clock w 0)) = a.
Proof.
  intros Hrun Hce Hf Hok Hp Hc Hnc Ha.
  destruct (run_found v w (shop_domain w) (access_token w) (prop "email" rb)
              (prop "source" rb) (prop "discount_code" rb) (prop "tags" rb)
              Hce resp sd c rest Hf Hok Hp Hc Hnc) as (r0 & tail & n & Hr0 & Htail).
  rewrite Hr0 in Hrun. unfold answer_at, trace, invoke in Ha. rewrite Hrun in Ha.
  destruct Htail as [(_ & ->) | (Hid & Htc & [-> | ->])]; cbn in Ha;
    [discriminate | ..]; injection Ha as Ha; auto.
Qed.


Lemma shape_head (v : Variant) (w : World) (dom tok : string)
    (email source dc tags : value) (l : list Call) (n : nat) :
  shape v w dom tok email source dc tags l n ->
  l <> [] ->
  hd_error l = Some (searchCall w dom tok email).
Proof. intros Hs Hne. destruct Hs; try reflexivity. now elim Hne. Qed.









(** A failed create call lands in the [catch] block with its error. *)
Lemma webhook1_failed (w : World) (req : Request) (c : Call) (error : JsError) :
  hd_error (trace (Webhook1.handler w req)) = Some c ->
  create_failed w c error ->
  Webhook1.handler w req init = Webhook1.on_error error (mkState [c] 1).
Proof.
  intros Hhd Hfail. revert Hhd. destruct req as [meth b].
  unfold trace, invoke. unfold_webhook1. cbn [req_method req_body]. reduce_state.
  destruct Hfail.
  all: repeat (case_step; reduce_state).
  all: cbn [fst snd calls hd_error]; intros Hhd; try discriminate.
  all: injection Hhd as <-; try congruence.
  all: repeat match goal with
              | H : negb _ = false |- _ => apply negb_false_iff in H
              | H : negb _ = true |- _ => apply negb_true_iff in H
              end; congruence.
Qed.

(** C10. The first handler of webhook.js only ever issues the create
    POST.  When that call fails with an error whose message contains
    "422", the handler answers 200 with success true and the message
    "Customer already exists - updated marketing consent"; on every other
    failure of the call it answers 500 "Failed to create customer". *)
Theorem C10_create_only_handler_422
    (w : World) (req : Request) (c : Call) (error : JsError) :
  let m := Webhook1.handler w req in
  hd_error (trace m) = Some c ->
  create_failed w c error ->
  (forall x, In x (trace m) ->
     is_post x = true /\ call_url x = createUrl (shop_domain w)) /\
  (includes "422" (message error) = true ->
   outcome m
   = Sent (mkResponse 200
             (Some (VObj [("success", VBool true);
                          ("message",
                           VStr "Customer already exists - updated marketing consent");
                          ("note", VStr "Email was already in system")])))) /\
  (includes "422" (message error) = false ->
   sent_status m = Some 500 /\
   sent_field "error" m = VStr "Failed to create customer" /\
   sent_field "details" m = VStr (message error)).
Proof.
  intros m Hhd Hfail. subst m. split.
  - intros x Hx.
    destruct (webhook1_trace w req) as [Hnil | (email & source & dc & tags & Htr)].
    + rewrite Hnil in Hx. destruct Hx.
    + rewrite Htr in Hx. destruct Hx as [<- | []]. split; reflexivity.
  - pose proof (webhook1_failed w req c error Hhd Hfail) as Hrun.
    unfold sent_status, sent_field, outcome, invoke. rewrite Hrun.
    unfold Webhook1.on_error, respond.
    split; intros ->; repeat split.
Qed.

(** ** The theorems at concrete inputs *)

Lemma C1_witness :
  exists search create,
    trace (handler_of W2 w_empty req_plain) = [search; create] /\
    is_get search = true /\
    is_post create = true /\
    call_url create = "https://shop.example/admin/api/2023-10/customers.json".
Proof.
  destruct (C1_empty_search_creates_never_updates W2 w_empty req_plain
              (mkFetchResponse 200 text_no_customers)
              (VObj [("email", VStr "a@b.com")]) (VObj [("customers", VArr [])]))
    as (_ & H & _); [reflexivity .. |].
  apply H; reflexivity.
Defined.

Lemma C2_witness :
  exists search update tail,
    trace (handler_of P001 w_found req_plain) = search :: update :: tail /\
    is_put update = true /\
    call_url update = "https://shop.example/admin/api/2023-10/customers/7.json" /\
    customer_field "id" update = VNum 7.
Proof.
  destruct (C2_update_targets_first_customer P001 w_found req_plain
              (mkFetchResponse 200 text_two_customers)
              (VObj [("email", VStr "a@b.com")]) found_customers
              customer7 [VObj [("id", VNum 8)]])
    as (H & _); [reflexivity .. |].
  destruct H as (search & update & tail & H1 & H2 & H3 & H4 & _); [reflexivity .. |].
  exists search, update, tail. repeat split; assumption.
Defined.



Lemma C5_witness :
  exists update,
    nth_error (trace (handler_of W2 w_found req_vip)) 1 = Some update /\
    is_put update = true /\
    customer_field "tags" update = VStr "gold,vip".
Proof.
  apply (C5_update_tags_merge W2 w_found req_vip
           (mkFetchResponse 200 text_two_customers)
           (VObj [("email", VStr "a@b.com"); ("tags", VStr "vip")])
           found_customers customer7 [VObj [("id", VNum 8)]] "gold"); reflexivity.
Defined.




Lemma C9_witness :
  (exists k,
      (k < ticks (snd (invoke (handler_of W2 w_empty req_plain))))%nat /\
      customer_field "email_marketing_consent" (plain_create W2)
      = VObj [("state", VStr "subscribed");
              ("opt_in_level", VStr "single_opt_in");
              ("consent_updated_at", VStr (toISOString w_empty (clock w_empty k)))]) /\
  customer_field "marketing_opt_in_level" (plain_create1 w_empty) = VStr "confirmed_opt_in".
Proof.
  split.
  - apply (proj1 (C9_consent_written w_empty req_plain (plain_create W2)) W2).
    + right; left; reflexivity.
    + right; reflexivity.
  - apply (proj2 (C9_consent_written w_empty req_plain (plain_create1 w_empty))).
    left; reflexivity.
Defined.

Lemma C10_witness :
  outcome (Webhook1.handler w_taken req_plain)
  = Sent (mkResponse 200
            (Some (VObj [("success", VBool true);
                         ("message",
                          VStr "Customer already exists - updated marketing consent");
                         ("note", VStr "Email was already in system")]))) /\
  sent_status (Webhook1.handler w_create_down req_plain) = Some 500.
Proof.
  split.
  - apply (C10_create_only_handler_422 w_taken req_plain (plain_create1 w_taken)
             (new_Error w_taken "Shopify API Error: 422 - taken")).
    + reflexivity.
    + apply (create_not_ok w_taken (plain_create1 w_taken) (mkFetchResponse 422 "taken"));
        reflexivity.
    + reflexivity.
  - apply (C10_create_only_handler_422 w_create_down req_plain (plain_create1 w_create_down)
             (new_Error w_create_down "Shopify API Error: 500 - boom")).
    + reflexivity.
    + apply (create_not_ok w_create_down (plain_create1 w_create_down)
               (mkFetchResponse 500 "boom")); reflexivity.
    + reflexivity.
Defined.

(** ** Where the claims as first stated fail *)

(** C1 as stated fails on a request whose source cannot be converted to
    a string: the search is answered with an empty customers list, yet
    no create call follows; the note's template throws and the answer is
    a 500. *)
Lemma C1_counterexample :
  answer_at w_empty (Webhook2.handler w_empty req_odd_source) 0
  = Some (inr (mkFetchResponse 200 text_no_customers)) /\
  JSON_parse w_empty text_no_customers = inr (VObj [("customers", VArr [])]) /\
  List.map call_method (trace (Webhook2.handler w_empty req_odd_source)) = ["GET"] /\
  sent_status (Webhook2.handler w_empty req_odd_source) = Some 500 /\
  ~ exists create,
      In create (trace (Webhook2.handler w_empty req_odd_source)) /\ is_post create = true.
Proof.
  repeat split. intros (create & [<- | []] & H). discriminate H.
Qed.

(** C2 as stated fails on a request whose tags cannot be converted to a
    string: the search finds a customer with tags, yet no update call is
    issued; the template that merges the tags throws and the answer is a
    500. *)
Lemma C2_counterexample :
  answer_at w_found (Webhook2.handler w_found req_odd_tags) 0
  = Some (inr (mkFetchResponse 200 text_two_customers)) /\
  JSON_parse w_found text_two_customers = inr found_customers /\
  List.map call_method (trace (Webhook2.handler w_found req_odd_tags)) = ["GET"] /\
  sent_status (Webhook2.handler w_found req_odd_tags) = Some 500 /\
  ~ exists update,
      In update (trace (Webhook2.handler w_found req_odd_tags)) /\ is_put update = true.
Proof.
  repeat split. intros (update & [<- | []] & H). discriminate H.
Qed.



(** C5 as stated fails in part_000: with submitted tags "vip" and an
    existing customer tagged "gold" the update carries the default tags
    after "gold", not "gold,vip". *)
Lemma C5_counterexample :
  exists update,
    nth_error (trace (Part000.handler w_found req_vip)) 1 = Some update /\
    is_put update = true /\
    customer_field "tags" update
    = VStr "gold,newsletter,discount-popup,popup-subscriber" /\
    customer_field "tags" update <> VStr "gold,vip".
Proof.
  eexists. split; [reflexivity |]. repeat split. discriminate.
Qed.



(** C9 as stated fails in the first handler of webhook.js: its create
    body records opt-in level "confirmed_opt_in" and no consent object. *)
Lemma C9_counterexample :
  exists create,
    nth_error (trace (Webhook1.handler w_empty req_plain)) 0 = Some create /\
    is_post create = true /\
    customer_field "marketing_opt_in_level" create = VStr "confirmed_opt_in" /\
    customer_field "email_marketing_consent" create = VUndef /\
    prop "opt_in_level" (customer_field "email_marketing_consent" create)
    <> VStr "single_opt_in".
Proof.
  eexists. split; [reflexivity |]. repeat split. discriminate.
Qed.
(** * Further properties of the handlers *)

(** ** The matcher and the e-mail pattern *)

Lemma lang_nil_inv (r : regex) (s : string) :
  lang r s -> s = "" -> nullable r = true.
Proof.
  induction 1; intros E; simpl; try reflexivity; try discriminate.
  - destruct s1; [| discriminate]. simpl in E. rewrite IHlang1, IHlang2; auto.
  - rewrite IHlang; auto.
  - rewrite IHlang; auto. apply orb_true_r.
Qed.

Lemma nullable_lang (r : regex) : nullable r = true <-> lang r "".
Proof.
  split.
  - induction r; simpl; intros H; try discriminate.
    + constructor.
    + apply andb_true_iff in H as [H1 H2].
      change "" with ("" ++ ""). constructor; auto.
    + apply orb_true_iff in H as [H | H]; [apply lang_alt_l | apply lang_alt_r]; auto.
    + constructor.
  - intros H. now apply (lang_nil_inv r "").
Qed.

Lemma lang_deriv (c : ascii) (r : regex) (s : string) :
  lang (deriv c r) s -> lang r (String c s).
Proof.
  revert s. induction r; simpl; intros s H.
  - inversion H.
  - inversion H.
  - destruct (p c) eqn:Hp; inversion H; subst. now constructor.
  - destruct (nullable r1) eqn:Hn.
    + inversion H; subst.
      * match goal with X : lang (Seq _ _) _ |- _ => inversion X; subst end.
        change (String c (s1 ++ s2)) with (String c s1 ++ s2). constructor; auto.
      * change (String c s) with ("" ++ String c s).
        constructor; [now apply nullable_lang | auto].
    + inversion H; subst.
      change (String c (s1 ++ s2)) with (String c s1 ++ s2). constructor; auto.
  - inversion H; subst; [apply lang_alt_l | apply lang_alt_r]; auto.
  - inversion H; subst.
    change (String c (s1 ++ s2)) with (String c s1 ++ s2). constructor; auto.
Qed.

Lemma deriv_lang (r : regex) (t : string) :
  lang r t -> forall c u, t = String c u -> lang (deriv c r) u.
Proof.
  induction 1; intros a u E; simpl.
  - discriminate.
  - injection E as -> <-. rewrite H. constructor.
  - destruct s1 as [| c1 s1]; simpl in E.
    + subst s2. rewrite (lang_nil_inv _ _ H eq_refl).
      apply lang_alt_r. now apply IHlang2.
    + injection E as -> <-.
      destruct (nullable r1); [apply lang_alt_l |]; constructor; auto.
  - apply lang_alt_l. auto.
  - apply lang_alt_r. auto.
  - discriminate.
  - destruct s1 as [| c1 s1]; simpl in E.
    + subst s2. now apply IHlang2.
    + injection E as -> <-. constructor; auto.
Qed.

(** The matcher decides membership in the denoted set of strings. *)
Lemma matches_lang (r : regex) (s : string) : matches r s = true <-> lang r s.
Proof.
  revert r. induction s as [| c s IH]; intros r; simpl.
  - apply nullable_lang.
  - rewrite IH. split; [apply lang_deriv | intros H; now apply (deriv_lang r _ H)].
Qed.

Lemma all_chars_app (p : ascii -> bool) (a b : string) :
  all_chars p (a ++ b) = all_chars p a && all_chars p b.
Proof.
  induction a as [| c a IH]; simpl; [reflexivity |].
  rewrite IH. apply andb_assoc.
Qed.

Lemma all_chars_impl (p q : ascii -> bool) (s : string) :
  (forall c, p c = true -> q c = true) ->
  all_chars p s = true -> all_chars q s = true.
Proof.
  intros Hpq. induction s as [| c s IH]; simpl; [reflexivity |].
  intros H. apply andb_true_iff in H as [Hc Hs]. rewrite (Hpq c Hc). auto.
Qed.

Lemma lang_star_class (p : ascii -> bool) (s : string) :
  lang (Star (Class p)) s <-> all_chars p s = true.
Proof.
  split.
  - intros H. remember (Star (Class p)) as r eqn:E.
    induction H; try discriminate; [reflexivity |].
    injection E as ->. inversion H; subst. simpl.
    rewrite IHlang2 by reflexivity.
    match goal with X : p _ = true |- _ => rewrite X end. reflexivity.
  - induction s as [| c s IH]; simpl; intros H; [constructor |].
    apply andb_true_iff in H as [Hc Hs].
    change (String c s) with (String c "" ++ s). constructor; [now constructor | auto].
Qed.

Lemma lang_plus_class (p : ascii -> bool) (s : string) :
  lang (Plus (Class p)) s <-> s <> "" /\ all_chars p s = true.
Proof.
  unfold Plus. split.
  - intros H. inversion H; subst.
    match goal with X : lang (Class p) _ |- _ => inversion X; subst end.
    split; [discriminate |]. simpl.
    match goal with X : p _ = true |- _ => rewrite X end.
    now apply lang_star_class.
  - intros [Hne H]. destruct s as [| c s]; [now elim Hne |].
    simpl in H. apply andb_true_iff in H as [Hc Hs].
    change (String c s) with (String c "" ++ s).
    constructor; [now constructor | now apply lang_star_class].
Qed.

Lemma lang_lit (a : ascii) (s : string) : lang (lit a) s <-> s = String a "".
Proof.
  unfold lit. split.
  - intros H. inversion H; subst.
    match goal with X : Ascii.eqb _ _ = true |- _ => apply Ascii.eqb_eq in X; now subst end.
  - intros ->. constructor. apply Ascii.eqb_refl.
Qed.

Lemma lang_emailRegex (s : string) : lang emailRegex s <-> email_shape s.
Proof.
  unfold emailRegex, email_shape, email_part. split.
  - intros H.
    inversion H as [| | r1 r2 a t1 Ha H1 | | | |]; subst.
    inversion H1 as [| | r1 r2 at_ t2 Hat H2 | | | |]; subst.
    inversion H2 as [| | r1 r2 b t3 Hb H3 | | | |]; subst.
    inversion H3 as [| | r1 r2 dot c Hdot Hc | | | |]; subst.
    apply lang_lit in Hat, Hdot. subst at_ dot.
    apply lang_plus_class in Ha, Hb, Hc.
    exists a, b, c. auto.
  - intros (a & b & c & -> & Ha & Hb & Hc).
    apply lang_plus_class in Ha, Hb, Hc.
    constructor; [assumption |].
    change ("@" ++ b ++ "." ++ c) with (String "@" "" ++ b ++ "." ++ c).
    constructor; [now apply lang_lit |].
    constructor; [assumption |].
    change ("." ++ c) with (String "." "" ++ c).
    constructor; [now apply lang_lit | assumption].
Qed.

(** X1. The e-mail pattern accepts a value exactly when its string form
    is [local@domain.tld]: three non-empty runs of characters that are
    neither whitespace nor [@], joined by one [@] and by a dot. *)
Theorem email_pattern_accepts_exactly (w : World) (v : value) :
  regex_test w emailRegex v = true <-> email_shape (toStr w v).
Proof.
  unfold regex_test. rewrite matches_lang. apply lang_emailRegex.
Qed.

Lemma email_pattern_accepts_exactly_witness : email_shape "a@b.com".
Proof.
  apply (email_pattern_accepts_exactly w_empty (VStr "a@b.com")). reflexivity.
Defined.

Lemma email_shape_no_space (s : string) :
  email_shape s -> all_chars (fun c => negb (is_space c)) s = true.
Proof.
  intros (a & b & c & -> & [_ Ha] & [_ Hb] & [_ Hc]).
  assert (Hpart : forall t, all_chars not_space_at t = true ->
                            all_chars (fun c => negb (is_space c)) t = true).
  { intros t. apply all_chars_impl. intros x Hx. unfold not_space_at in Hx.
    now apply andb_true_iff in Hx as [Hx _]. }
  rewrite !all_chars_app, (Hpart a Ha), (Hpart b Hb), (Hpart c Hc). reflexivity.
Qed.

(** The string of a value that cannot be converted holds a space (that
    of "[object Object]"), so it never has the shape of an e-mail: a value
    the pattern accepts is one whose conversion completes. *)
Lemma join_space (f : value -> string) (x : value) (rest : list value) :
  all_chars (fun c => negb (is_space c)) (f x) = false \/
  (rest <> [] /\
   all_chars (fun c => negb (is_space c)) (join "," (List.map f rest)) = false) ->
  all_chars (fun c => negb (is_space c)) (join "," (List.map f (x :: rest))) = false.
Proof.
  intros H. destruct rest as [| y ys].
  - destruct H as [H | [N _]]; [exact H | now elim N].
  - change (join "," (List.map f (x :: y :: ys)))
      with (f x ++ "," ++ join "," (List.map f (y :: ys))).
    rewrite !all_chars_app. destruct H as [-> | [_ ->]]; [reflexivity |].
    now rewrite !andb_false_r.
Qed.

Lemma unconverted_has_space (w : World) (v : value) :
  converts v = false ->
  all_chars (fun c => negb (is_space c)) (toStr w v) = false.
Proof.
  revert v. fix IH 1. intros [| | b | n | s | items | fields]; cbn [converts];
    try discriminate.
  - intros H. cbn [toStr]. revert H.
    induction items as [| x rest IHl]; [discriminate |].
    cbn [forallb]. intros H. apply join_space.
    destruct (converts x) eqn:Hx.
    + right. cbn [andb] in H. split; [| exact (IHl H)].
      intros ->. discriminate.
    + left. pose proof (IH x Hx) as Hs.
      destruct x; try exact Hs; discriminate.
  - intros _. reflexivity.
Qed.

Lemma regex_converts (w : World) (v : value) :
  regex_test w emailRegex v = true -> converts v = true.
Proof.
  intros H. destruct (converts v) eqn:Hc; [reflexivity |].
  unfold regex_test in H. apply matches_lang, lang_emailRegex, email_shape_no_space in H.
  rewrite (unconverted_has_space w v Hc) in H. discriminate.
Qed.

(** X2. The e-mail pattern rejects every string that contains a
    whitespace character, every string without [@] and every string
    without a dot. *)
Theorem email_pattern_rejects (w : World) (s : string) :
  all_chars (fun c => negb (is_space c)) s = false \/
  all_chars (fun c => negb (Ascii.eqb c "@")) s = true \/
  all_chars (fun c => negb (Ascii.eqb c ".")) s = true ->
  regex_test w emailRegex (VStr s) = false.
Proof.
  intros H. destruct (regex_test w emailRegex (VStr s)) eqn:E; [| reflexivity].
  unfold regex_test in E. apply matches_lang, lang_emailRegex in E. simpl in E.
  destruct H as [H | [H | H]].
  - rewrite (email_shape_no_space s E) in H. discriminate.
  - destruct E as (a & b & c & -> & _). rewrite !all_chars_app in H. simpl in H.
    rewrite andb_false_r in H. discriminate.
  - destruct E as (a & b & c & -> & _). rewrite !all_chars_app in H. simpl in H.
    rewrite !andb_false_r in H. discriminate.
Qed.

Lemma email_pattern_rejects_witness :
  regex_test w_empty emailRegex (VStr "a b@c.d") = false /\
  regex_test w_empty emailRegex (VStr "not-an-email") = false /\
  regex_test w_empty emailRegex (VStr "a@bcd") = false.
Proof.
  split; [| split].
  - apply (email_pattern_rejects w_empty "a b@c.d"). left. reflexivity.
  - apply (email_pattern_rejects w_empty "not-an-email"). right. left. reflexivity.
  - apply (email_pattern_rejects w_empty "a@bcd"). right. right. reflexivity.
Defined.

(** ** The search URL *)

Lemma hex_digit_unreserved (k : nat) : uri_unreserved (hex_digit k) = true.
Proof. do 16 (destruct k as [| k]; [reflexivity |]). reflexivity. Qed.

Lemma percent_safe (n : nat) : all_chars uri_safe (percent n) = true.
Proof.
  unfold percent, uri_safe. simpl. now rewrite !hex_digit_unreserved.
Qed.

Lemma encodeURIComponent_safe (s : string) :
  all_chars uri_safe (encodeURIComponent s) = true.
Proof.
  induction s as [| c s IH]; [reflexivity |].
  cbn [encodeURIComponent]. rewrite all_chars_app, IH, andb_true_r.
  destruct (uri_unreserved c) eqn:Hc.
  - unfold uri_safe. cbn [all_chars]. now rewrite Hc.
  - destruct (nat_of_ascii c <? 128)%nat.
    + apply percent_safe.
    + now rewrite all_chars_app, !percent_safe.
Qed.

Lemma encodeURIComponent_unreserved (s : string) :
  all_chars uri_unreserved s = true -> encodeURIComponent s = s.
Proof.
  induction s as [| c s IH]; [reflexivity |].
  cbn [all_chars encodeURIComponent]. intros H.
  apply andb_true_iff in H as [Hc Hs]. rewrite Hc, (IH Hs). reflexivity.
Qed.

(** How [decodeURIComponent] reads a plain character, a one-byte escape
    and a two-byte sequence. *)
Lemma decode_plain (c : ascii) (rest : string) :
  Ascii.eqb c "%" = false ->
  decodeURIComponent (String c rest) = option_map (String c) (decodeURIComponent rest).
Proof. intros H. cbn [decodeURIComponent]. now rewrite H. Qed.

Lemma decode_one (a b : ascii) (n : nat) (rest : string) :
  escape_value a b = Some n ->
  (n <? 128)%nat = true ->
  decodeURIComponent (String "%" (String a (String b rest)))
  = option_map (String (ascii_of_nat n)) (decodeURIComponent rest).
Proof.
  intros He Hn. cbn [decodeURIComponent].
  change (Ascii.eqb "%" "%") with true. cbn [negb]. now rewrite He, Hn.
Qed.

Lemma decode_two (a b a2 b2 : ascii) (n n2 : nat) (rest : string) :
  escape_value a b = Some n ->
  escape_value a2 b2 = Some n2 ->
  (n <? 128)%nat = false ->
  ((194 <=? n) && (n <=? 195) && (128 <=? n2) && (n2 <=? 191))%nat = true ->
  decodeURIComponent
    (String "%" (String a (String b (String "%" (String a2 (String b2 rest))))))
  = option_map (String (ascii_of_nat ((n - 192) * 64 + (n2 - 128))))
      (decodeURIComponent rest).
Proof.
  intros He He2 Hn Hr. cbn [decodeURIComponent].
  change (Ascii.eqb "%" "%") with true. cbn [negb andb]. rewrite He, Hn, He2.
  cbn [andb] in Hr |- *. now rewrite Hr.
Qed.

(** Reading back what [encodeURIComponent] wrote gives the string it was
    given: one character at a time, whatever follows. *)
Lemma decode_encoded_char (c : ascii) (t : string) :
  decodeURIComponent (encodeURIComponent (String c EmptyString) ++ t)
  = option_map (String c) (decodeURIComponent t).
Proof.
  destruct c as [[] [] [] [] [] [] [] []];
    match goal with
    | |- context [encodeURIComponent ?x] =>
        let e := eval vm_compute in (encodeURIComponent x) in
        change (encodeURIComponent x) with e
    end;
    cbn [append];
    first [ apply decode_plain; reflexivity
          | erewrite decode_one by reflexivity; reflexivity
          | erewrite decode_two by reflexivity; reflexivity ].
Qed.

Lemma decode_encoded (s : string) : decodeURIComponent (encodeURIComponent s) = Some s.
Proof.
  induction s as [| c s IH]; [reflexivity |].
  replace (encodeURIComponent (String c s))
    with (encodeURIComponent (String c EmptyString) ++ encodeURIComponent s)
    by (cbn [encodeURIComponent]; now rewrite !append_empty_r).
  now rewrite decode_encoded_char, IH.
Qed.

(** X3. The first call a searching handler issues is a GET to the
    customers search endpoint of the configured shop, with the e-mail of
    the request in percent-encoded form as the query: the query holds only
    unreserved characters and [%], so no character of the e-mail can end or
    extend it; read back with [decodeURIComponent] it is the string of the
    e-mail, character for character; and an e-mail of unreserved
    characters is passed as it is.  The e-mail of such a call is one whose
    conversion to a string completes. *)
Theorem search_url_is_encoded (v : Variant) (w : World) (req : Request) (c : Call) :
  hd_error (trace (handler_of v w req)) = Some c ->
  exists body q,
    parsed_body v w req = Some body /\
    converts (prop "email" body) = true /\
    call_method c = "GET" /\
    call_url c
    = "https://" ++ shop_domain w
      ++ "/admin/api/2023-10/customers/search.json?query=email:" ++ q /\
    all_chars uri_safe q = true /\
    decodeURIComponent q = Some (toStr w (prop "email" body)) /\
    (all_chars uri_unreserved (toStr w (prop "email" body)) = true ->
     q = toStr w (prop "email" body)).
Proof.
  intros Hc.
  destruct (reach v w req) as [[r Hr] | (body & Hb & _ & _ & Hrun)].
  - unfold trace, invoke in Hc. rewrite Hr in Hc. discriminate.
  - destruct (upsert_shape v w (shop_domain w) (access_token w) (prop "email" body)
                (prop "source" body) (prop "discount_code" body) (prop "tags" body))
      as (r & l & n & Hu & Hs & Hce).
    rewrite Hu in Hrun. destruct (run_observed _ _ _ _ Hrun) as (Htr & _).
    rewrite Htr in Hc.
    assert (Hne : l <> []) by (intros ->; discriminate).
    rewrite (shape_head _ _ _ _ _ _ _ _ _ _ Hs Hne) in Hc. injection Hc as <-.
    exists body, (encodeURIComponent (toStr w (prop "email" body))).
    repeat split.
    + exact Hb.
    + exact (Hce Hne).
    + apply encodeURIComponent_safe.
    + apply decode_encoded.
    + apply encodeURIComponent_unreserved.
Qed.

Lemma search_url_is_encoded_witness :
  exists q,
    call_url (searchCall w_empty "shop.example" "tok" (VStr "a b@c.d"))
    = "https://shop.example/admin/api/2023-10/customers/search.json?query=email:" ++ q /\
    decodeURIComponent q = Some "a b@c.d".
Proof.
  destruct (search_url_is_encoded P001 w_empty (mkRequest "POST" (VObj [("email", VStr "a b@c.d")]))
              (searchCall w_empty "shop.example" "tok" (VStr "a b@c.d")))
    as (body & q & Hb & _ & _ & Hu & _ & Hd & _).
  - reflexivity.
  - injection Hb as <-. exists q. split; [exact Hu | exact Hd].
Defined.

(** ** Substring search *)

Lemma prefix_app (a b : string) : String.prefix a (a ++ b) = true.
Proof.
  induction a as [| c a IH]; simpl; [now destruct b |].
  destruct (ascii_dec c c) as [_ | N]; [assumption | now elim N].
Qed.

Lemma includes_cons (n : string) (c : ascii) (h : string) :
  includes n (String c h)
  = if String.prefix n (String c h) then true else includes n h.
Proof. reflexivity. Qed.

Lemma includes_app_r (n a b : string) : includes n b = true -> includes n (a ++ b) = true.
Proof.
  intros H. induction a as [| c a IH]; [assumption |].
  change (String c a ++ b) with (String c (a ++ b)).
  rewrite includes_cons, IH. now destruct (String.prefix n (String c (a ++ b))).
Qed.

Lemma includes_self_app (n b : string) : includes n (n ++ b) = true.
Proof.
  destruct (n ++ b) as [| c h] eqn:E.
  - destruct n; [reflexivity | discriminate].
  - rewrite includes_cons, <- E, prefix_app. reflexivity.
Qed.

Lemma includes_middle (n a b : string) : includes n (a ++ n ++ b) = true.
Proof. apply includes_app_r, includes_self_app. Qed.

(** ** How every request is dispatched *)

(** The four ways an invocation of the first handler of webhook.js
    goes: the preflight answer, a refused method, an answer to the POST
    without any call, or the single create call. *)
Lemma dispatch1 (w : World) (req : Request) :
  (req_method req = "OPTIONS" /\
   Webhook1.handler w req init = (Respond (mkResponse 200 None), init)) \/
  (req_method req <> "OPTIONS" /\ req_method req <> "POST" /\
   exists b, Webhook1.handler w req init = (Respond (mkResponse 405 (Some b)), init) /\
             prop "error" b = VStr "Method not allowed") \/
  (req_method req = "POST" /\
   exists st b s, Webhook1.handler w req init = (Respond (mkResponse st (Some b)), s) /\
                  calls s = [] /\
                  (st = 200 \/ st = 400 \/ st = 500)) \/
  (req_method req = "POST" /\
   nullish (req_body req) = false /\
   truthy (prop "email" (req_body req)) = true /\
   regex_test w emailRegex (prop "email" (req_body req)) = true /\
   env_missing (env w "SHOPIFY_SHOP_DOMAIN") = false /\
   env_missing (env w "SHOPIFY_ACCESS_TOKEN") = false /\
   exists st b,
     Webhook1.handler w req init
     = (Respond (mkResponse st (Some b)),
        mkState [createCall1 w (prop "email" (req_body req)) (prop "source" (req_body req))
                   (prop "discount_code" (req_body req)) (prop "tags" (req_body req))] 1) /\
     (st = 200 \/ st = 500)).
Proof.
  destruct req as [m b]. unfold createCall1, shop_domain, access_token.
  unfold_webhook1. cbn [req_method req_body]. reduce_state.
  repeat (case_step; reduce_state).
  all: first
    [ solve [left; split; [method_facts; assumption | reflexivity]]
    | solve [right; left; method_facts; split; [assumption |]; split; [assumption |];
             eexists; split; reflexivity]
    | solve [right; right; left; method_facts; split; [assumption |];
             do 3 eexists; split; [reflexivity |]; split; [reflexivity | auto]]
    | solve [right; right; right; method_facts;
             repeat (split; [first [assumption | reflexivity] |]);
             do 2 eexists; split; [reflexivity | auto]] ].
Qed.

(** The sequence always ends in a response, 200 or 500. *)
Lemma upsert_status (v : Variant) (w : World) (dom tok : string)
    (email source dc tags : value) :
  exists st b l n,
    upsert_of v w dom tok email source dc tags init
    = (Respond (mkResponse st (Some b)), mkState l n) /\
    (st = 200 \/ st = 500).
Proof.
  destruct v; unfold_steps; reduce_state.
  all: repeat (case_step; reduce_state).
  all: do 4 eexists; split; [reflexivity | auto].
Qed.

(** X4. Whatever the request and whatever the platform does, each of the
    four handlers sends exactly one response: no error escapes its
    [try] blocks, and the status is 200, 400, 405 or 500. *)
Theorem every_invocation_is_answered (e : Endpoint) (w : World) (req : Request) :
  exists r,
    outcome (endpoint_handler e w req) = Sent r /\
    In (status r) [200; 400; 405; 500].
Proof.
  assert (Hsent : forall (m : M unit) r s, m init = (Respond r, s) -> outcome m = Sent r).
  { intros m r s H. unfold outcome, invoke. now rewrite H. }
  destruct e as [| v]; cbn [endpoint_handler].
  - destruct (dispatch1 w req)
      as [[_ H] | [(_ & _ & b & H & _) | [(_ & st & b & s & H & _ & Hst)
         | (_ & _ & _ & _ & _ & _ & st & b & H & Hst)]]];
      eexists; (split; [exact (Hsent _ _ _ H) |]); cbn [status In];
      intuition auto.
  - destruct (dispatch v w req)
      as [[_ H] | [(_ & _ & b & H & _) | [(_ & st & b & H & Hst & _)
         | (_ & body & _ & _ & _ & _ & _ & _ & _ & H)]]].
    + eexists; (split; [exact (Hsent _ _ _ H) |]); cbn [status In]; auto.
    + eexists; (split; [exact (Hsent _ _ _ H) |]); cbn [status In]; auto.
    + eexists; (split; [exact (Hsent _ _ _ H) |]); cbn [status In]; intuition auto.
    + destruct (upsert_status v w (shop_domain w) (access_token w) (prop "email" body)
                  (prop "source" body) (prop "discount_code" body) (prop "tags" body))
        as (st & b & l & n & Hu & Hst).
      rewrite Hu in H.
      eexists; (split; [exact (Hsent _ _ _ H) |]); cbn [status In]; intuition auto.
Qed.

Lemma run_facts (m : M unit) (r : HttpResponse) (s : State) :
  m init = (Respond r, s) ->
  invoke m = (Sent r, s) /\ trace m = calls s /\ sent_status m = Some (status r).
Proof.
  intros H. unfold sent_status, trace, outcome, invoke. rewrite H. repeat split.
Qed.

(** X5. In each of the four handlers an OPTIONS request gets an empty
    200, the status 405 is sent exactly when the method is neither
    OPTIONS nor POST, and only a POST can lead to an outbound call. *)
Theorem method_dispatch (e : Endpoint) (w : World) (req : Request) :
  let m := endpoint_handler e w req in
  (req_method req = "OPTIONS" -> invoke m = (Sent (mkResponse 200 None), init)) /\
  (sent_status m = Some 405 <->
   req_method req <> "OPTIONS" /\ req_method req <> "POST") /\
  (req_method req <> "POST" -> trace m = []).
Proof.
  intros m. subst m.
  assert (Hcase :
    (req_method req = "OPTIONS" /\
     endpoint_handler e w req init = (Respond (mkResponse 200 None), init)) \/
    (req_method req <> "OPTIONS" /\ req_method req <> "POST" /\
     exists b, endpoint_handler e w req init = (Respond (mkResponse 405 (Some b)), init)) \/
    (req_method req = "POST" /\
     exists st b s, endpoint_handler e w req init = (Respond (mkResponse st (Some b)), s) /\
                    (st = 200 \/ st = 400 \/ st = 500))).
  { destruct e as [| v]; cbn [endpoint_handler].
    - destruct (dispatch1 w req)
        as [[Hm H] | [(Hm & Hm' & b & H & _) | [(Hm & st & b & s & H & _ & Hst)
           | (Hm & _ & _ & _ & _ & _ & st & b & H & Hst)]]].
      + auto.
      + right; left. eauto.
      + right; right. split; [assumption |]. do 3 eexists. eauto.
      + right; right. split; [assumption |]. do 3 eexists. split; [exact H | intuition auto].
    - destruct (dispatch v w req)
        as [[Hm H] | [(Hm & Hm' & b & H & _) | [(Hm & st & b & H & Hst & _)
           | (Hm & body & _ & _ & _ & _ & _ & _ & _ & H)]]].
      + auto.
      + right; left. eauto.
      + right; right. split; [assumption |]. do 3 eexists. split; [exact H | intuition auto].
      + right; right. split; [assumption |].
        destruct (upsert_status v w (shop_domain w) (access_token w) (prop "email" body)
                    (prop "source" body) (prop "discount_code" body) (prop "tags" body))
          as (st & b & l & n & Hu & Hst).
        rewrite Hu in H. do 3 eexists. split; [exact H | intuition auto]. }
  destruct Hcase as [[Hm H] | [(Hm & Hm' & b & H) | (Hm & st & b & s & H & Hst)]];
    destruct (run_facts _ _ _ H) as (Hi & Ht & Hs).
  - split; [intros _; exact Hi |]. split.
    + rewrite Hs. cbn [status]. split; [discriminate | intros [N _]; now elim N].
    + intros _. exact Ht.
  - split; [intros E; now elim Hm |]. split.
    + rewrite Hs. cbn [status]. split; auto.
    + intros _. exact Ht.
  - split; [intros E; rewrite E in Hm; discriminate |]. split.
    + rewrite Hs. cbn [status]. split.
      * intros E. injection E as E. lia.
      * intros [_ N]. now elim N.
    + intros N. now elim N.
Qed.

Lemma method_dispatch_witness :
  invoke (endpoint_handler (Searching P000) w_empty req_options)
  = (Sent (mkResponse 200 None), init) /\
  sent_status (endpoint_handler First w_empty req_get) = Some 405 /\
  trace (endpoint_handler (Searching W2) w_empty req_get) = [].
Proof.
  split; [| split].
  - apply (method_dispatch (Searching P000) w_empty req_options). reflexivity.
  - apply (method_dispatch First w_empty req_get). split; discriminate.
  - apply (method_dispatch (Searching W2) w_empty req_get). discriminate.
Defined.

Lemma env_str_present (o : option string) : env_missing o = false -> env_str o <> "".
Proof.
  destruct o as [s |]; simpl; [| discriminate].
  intros H. now apply String.eqb_neq in H.
Qed.

(** X6. A search-based handler contacts the platform only for a POST,
    with both credentials configured and non-empty, on a body that it
    could read and that is neither null nor undefined, whose e-mail is
    truthy; in webhook.js and part_000 the e-mail moreover has the shape
    [local@domain.tld]. *)
Theorem calls_are_guarded (v : Variant) (w : World) (req : Request) :
  trace (handler_of v w req) <> [] ->
  req_method req = "POST" /\
  shop_domain w <> "" /\ access_token w <> "" /\
  exists body,
    parsed_body v w req = Some body /\
    nullish body = false /\
    truthy (prop "email" body) = true /\
    (v <> P001 -> email_shape (toStr w (prop "email" body))).
Proof.
  intros Hne.
  destruct (dispatch v w req)
    as [[Hm H] | [(Hm & Hm' & b & H & _) | [(Hm & st & b & H & Hst & _)
       | (Hm & body & Hb & Hn & Ht & Hre & Hcv & Hd & Hk & H)]]].
  1-3: destruct (run_facts _ _ _ H) as (_ & Htr & _); now elim Hne.
  split; [assumption |].
  split; [now apply env_str_present |]. split; [now apply env_str_present |].
  exists body. repeat split; try assumption.
  intros Hv. apply lang_emailRegex, matches_lang. exact (Hre Hv).
Qed.

Lemma calls_are_guarded_witness :
  exists body,
    parsed_body W2 w_empty req_plain = Some body /\
    nullish body = false /\
    truthy (prop "email" body) = true /\
    (W2 <> P001 -> email_shape (toStr w_empty (prop "email" body))).
Proof.
  apply (calls_are_guarded W2 w_empty req_plain). discriminate.
Defined.

(** X7. The first handler of webhook.js contacts the platform only for a
    POST, with both credentials configured and non-empty, on a body that
    is neither null nor undefined and whose e-mail has the shape
    [local@domain.tld]; it then makes exactly one call. *)
Theorem create_only_calls_are_guarded (w : World) (req : Request) :
  trace (Webhook1.handler w req) <> [] ->
  req_method req = "POST" /\
  shop_domain w <> "" /\ access_token w <> "" /\
  nullish (req_body req) = false /\
  email_shape (toStr w (prop "email" (req_body req))) /\
  trace (Webhook1.handler w req)
  = [createCall1 w (prop "email" (req_body req)) (prop "source" (req_body req))
       (prop "discount_code" (req_body req)) (prop "tags" (req_body req))].
Proof.
  intros Hne.
  destruct (dispatch1 w req)
    as [[Hm H] | [(Hm & Hm' & b & H & _) | [(Hm & st & b & s & H & Hnil & Hst)
       | (Hm & Hn & Ht & Hre & Hd & Hk & st & b & H & Hst)]]].
  1-3: destruct (run_facts _ _ _ H) as (_ & Htr & _); try rewrite Hnil in Htr;
    now elim Hne.
  destruct (run_facts _ _ _ H) as (_ & Htr & _).
  split; [assumption |].
  split; [now apply env_str_present |]. split; [now apply env_str_present |].
  split; [assumption |]. split; [now apply lang_emailRegex, matches_lang |].
  exact Htr.
Qed.

Lemma create_only_calls_are_guarded_witness :
  email_shape (toStr w_empty (prop "email" (req_body req_plain))) /\
  trace (Webhook1.handler w_empty req_plain)
  = [createCall1 w_empty (VStr "a@b.com") VUndef VUndef VUndef].
Proof.
  destruct (create_only_calls_are_guarded w_empty req_plain) as (_ & _ & _ & _ & H1 & H2).
  - discriminate.
  - split; [exact H1 | exact H2].
Defined.

(** X8. A POST that passes the handler's e-mail checks is answered with
    a 500 naming the configuration, before any outbound call, when the
    shop domain or the access token is missing or empty. *)
Theorem missing_credentials (w : World) (req : Request) :
  req_method req = "POST" ->
  env_missing (env w "SHOPIFY_SHOP_DOMAIN") || env_missing (env w "SHOPIFY_ACCESS_TOKEN")
  = true ->
  (forall v body,
      parsed_body v w req = Some body ->
      nullish body = false ->
      truthy (prop "email" body) = true ->
      (v <> P001 -> regex_test w emailRegex (prop "email" body) = true) ->
      invoke (handler_of v w req)
      = (Sent (mkResponse 500
                 (Some match v with
                       | P000 =>
                           VObj [("success", VBool false);
                                 ("error", VStr "Server configuration error");
                                 ("details", VStr "Missing required environment variables")]
                       | _ =>
                           VObj [("error", VStr "Webhook configuration error");
                                 ("details",
                                  VStr "Missing Shopify credentials in environment variables")]
                       end)),
         init)) /\
  (nullish (req_body req) = false ->
   regex_test w emailRegex (prop "email" (req_body req)) = true ->
   truthy (prop "email" (req_body req)) = true ->
   invoke (Webhook1.handler w req)
   = (Sent (mkResponse 500 (Some (VObj [("error", VStr "Missing Shopify configuration")]))),
      init)).
Proof.
  destruct req as [m b]. cbn [req_method req_body]. intros -> Henv. split.
  - intros v body Hpb Hn Ht Hre. revert Hpb. unfold invoke.
    destruct v; unfold handler_of, parsed_body, Webhook2.handler, Webhook2.parse_body,
      Part000.handler, Part000.parse_body, Part001.handler; unfold_monad;
      cbn [req_method req_body String.eqb Ascii.eqb Bool.eqb negb]; reduce_state.
    all: repeat (case_step; reduce_state).
    all: intros Hpb; try discriminate Hpb; try (injection Hpb as <-).
    all: try reflexivity.
    all: exfalso; try (specialize (Hre ltac:(discriminate));
                       pose proof (regex_converts _ _ Hre));
      try rewrite Ht in *; try rewrite Hre in *; cbn [negb] in *; congruence.
  - intros Hn Hre Ht. unfold invoke. pose proof (regex_converts _ _ Hre) as Hcv.
    unfold_webhook1. cbn [req_method req_body String.eqb Ascii.eqb Bool.eqb negb].
    rewrite Hn. reduce_state. rewrite Ht. cbn [negb]. rewrite Hcv. reduce_state.
    rewrite Hre. cbn [negb]. reduce_state.
    rewrite orb_comm in Henv. rewrite Henv. reflexivity.
Qed.

Lemma missing_credentials_witness :
  invoke (handler_of P000 w_unconfigured req_plain)
  = (Sent (mkResponse 500
             (Some (VObj [("success", VBool false);
                          ("error", VStr "Server configuration error");
                          ("details", VStr "Missing required environment variables")]))),
     init) /\
  invoke (Webhook1.handler w_unconfigured req_plain)
  = (Sent (mkResponse 500 (Some (VObj [("error", VStr "Missing Shopify configuration")]))),
     init).
Proof.
  split.
  - apply (proj1 (missing_credentials w_unconfigured req_plain eq_refl eq_refl) P000
             (VObj [("email", VStr "a@b.com")])); reflexivity.
  - apply (proj2 (missing_credentials w_unconfigured req_plain eq_refl eq_refl));
      reflexivity.
Defined.

(** X9. A search-based handler makes at most three calls, always in the
    order search (GET), update (PUT), create (POST), each at most once and
    never an update or a create without the search before it; the first
    handler of webhook.js makes at most the one POST. *)
Theorem calls_in_order (w : World) (req : Request) :
  (forall v,
      In (List.map call_method (trace (handler_of v w req)))
        [[]; ["GET"]; ["GET"; "POST"]; ["GET"; "PUT"]; ["GET"; "PUT"; "POST"]]) /\
  In (List.map call_method (trace (Webhook1.handler w req))) [[]; ["POST"]].
Proof.
  split.
  - intros v.
    destruct (handler_trace v w req) as [-> | (body & l & n & _ & -> & _ & Hs)].
    + left. reflexivity.
    + destruct Hs; cbn; auto 6.
  - destruct (webhook1_trace w req) as [-> | (email & source & dc & tags & ->)]; cbn; auto.
Qed.

(** X10. Every call of every handler goes to the customers API of the
    configured shop over https and carries the configured access token,
    which is not empty, and the JSON content type. *)
Theorem calls_go_to_the_shop (e : Endpoint) (w : World) (req : Request) (c : Call) :
  In c (trace (endpoint_handler e w req)) ->
  (exists path,
      call_url c = "https://" ++ shop_domain w ++ "/admin/api/2023-10/customers" ++ path) /\
  In ("X-Shopify-Access-Token", access_token w) (call_headers c) /\
  In ("Content-Type", "application/json") (call_headers c) /\
  shop_domain w <> "" /\ access_token w <> "".
Proof.
  intros Hin. destruct e as [| v]; cbn [endpoint_handler] in Hin.
  - destruct (dispatch1 w req)
      as [[Hm H] | [(Hm & Hm' & b & H & _) | [(Hm & st & b & s & H & Hnil & Hst)
         | (Hm & _ & _ & _ & Hd & Hk & st & b & H & _)]]];
      destruct (run_facts _ _ _ H) as (_ & Htr & _); rewrite Htr in Hin;
      try rewrite Hnil in Hin; cbn [calls init] in Hin; try (now destruct Hin).
    destruct Hin as [<- | []].
    split; [exists ".json"; reflexivity |]. cbn [call_headers createCall1 In].
    repeat split; auto; now apply env_str_present.
  - destruct (dispatch v w req)
      as [[Hm H] | [(Hm & Hm' & b & H & _) | [(Hm & st & b & H & Hst & _)
         | (Hm & body0 & _ & _ & _ & _ & _ & Hd & Hk & _)]]];
      try (destruct (run_facts _ _ _ H) as (_ & Htr & _); rewrite Htr in Hin;
           now destruct Hin).
    destruct (handler_trace v w req) as [E | (body & l & n & _ & Htr & _ & Hs)];
      [rewrite E in Hin; now destruct Hin |].
    rewrite Htr in Hin.
    assert (Hurl : exists path,
               call_url c
               = "https://" ++ shop_domain w ++ "/admin/api/2023-10/customers" ++ path /\
               call_headers c = json_headers (access_token w)).
    { destruct Hs; split_in Hin.
      all: first [ exists ("/search.json?query=email:"
                           ++ encodeURIComponent (toStr w (prop "email" body)));
                   split; reflexivity
                 | exists ".json"; split; reflexivity
                 | eexists; split; reflexivity ]. }
    destruct Hurl as (path & Hu & Hh). split; [eauto |]. rewrite Hh.
    cbn [json_headers In]. repeat split; auto; now apply env_str_present.
Qed.

Lemma calls_go_to_the_shop_witness :
  (exists path,
      call_url (plain_create W2)
      = "https://" ++ shop_domain w_empty ++ "/admin/api/2023-10/customers" ++ path) /\
  In ("X-Shopify-Access-Token", "tok") (call_headers (plain_create W2)).
Proof.
  destruct (calls_go_to_the_shop (Searching W2) w_empty req_plain (plain_create W2))
    as (H1 & H2 & _).
  - right. left. reflexivity.
  - split; [exact H1 | exact H2].
Defined.

(** X11. The update body of a search-based handler holds the customer's
    id, the marketing consent and the tags, and nothing else: an update
    never carries an e-mail, a note or metafields. *)
Theorem update_body_fields (v : Variant) (w : World) (req : Request) (c : Call) :
  In c (trace (handler_of v w req)) ->
  is_put c = true ->
  customer_keys c = ["id"; "email_marketing_consent"; "tags"] /\
  customer_field "email" c = VUndef /\
  customer_field "note" c = VUndef /\
  customer_field "metafields" c = VUndef.
Proof.
  intros Hin Hput.
  destruct (handler_trace v w req) as [Hnil | (body & l & n & _ & Htr & _ & Hs)].
  - rewrite Hnil in Hin. destruct Hin.
  - rewrite Htr in Hin.
    destruct (shape_put _ _ _ _ _ _ _ _ _ _ _ Hs Hin Hput) as (_ & cust & ->).
    destruct v; repeat split.
Qed.

Lemma update_body_fields_witness :
  customer_keys (updateCall P000 w_found "shop.example" "tok" customer7 (VStr "vip") 0)
  = ["id"; "email_marketing_consent"; "tags"] /\
  customer_field "note"
    (updateCall P000 w_found "shop.example" "tok" customer7 (VStr "vip") 0) = VUndef.
Proof.
  destruct (update_body_fields P000 w_found req_vip
              (updateCall P000 w_found "shop.example" "tok" customer7 (VStr "vip") 0))
    as (H1 & _ & H2 & _).
  - right. left. reflexivity.
  - reflexivity.
  - split; [exact H1 | exact H2].
Defined.

(** X12. A search-based handler creates the customer under the very
    e-mail it searched for: the [email] of every create body is the
    e-mail of the request, and that e-mail is the one in the search
    call that opened the invocation. *)
Theorem create_uses_searched_email (v : Variant) (w : World) (req : Request) (c : Call) :
  In c (trace (handler_of v w req)) ->
  is_post c = true ->
  exists body,
    parsed_body v w req = Some body /\
    customer_field "email" c = prop "email" body /\
    hd_error (trace (handler_of v w req))
    = Some (searchCall w (shop_domain w) (access_token w) (prop "email" body)).
Proof.
  intros Hin Hpost.
  destruct (handler_trace v w req) as [Hnil | (body & l & n & Hb & Htr & _ & Hs)].
  - rewrite Hnil in Hin. destruct Hin.
  - rewrite Htr in *. exists body. split; [assumption |].
    destruct (shape_post _ _ _ _ _ _ _ _ _ _ _ Hs Hin Hpost) as (k & _ & ->).
    split; [destruct v; reflexivity |].
    apply (shape_head _ _ _ _ _ _ _ _ _ _ Hs). intros ->. destruct Hin.
Qed.

Lemma create_uses_searched_email_witness :
  exists body,
    parsed_body P001 w_update_refused req_plain = Some body /\
    customer_field "email"
      (createCall P001 w_update_refused "shop.example" "tok" (VStr "a@b.com")
         VUndef VUndef VUndef 1 2)
    = prop "email" body /\
    hd_error (trace (handler_of P001 w_update_refused req_plain))
    = Some (searchCall w_update_refused (shop_domain w_update_refused) (access_token w_update_refused)
              (prop "email" body)).
Proof.
  apply (create_uses_searched_email P001 w_update_refused req_plain).
  - right. right. left. reflexivity.
  - reflexivity.
Defined.

Lemma upsert_success (v : Variant) (w : World) (dom tok : string)
    (email source dc tags : value) (st : Z) (b : value) (l : list Call) (n : nat) :
  upsert_of v w dom tok email source dc tags init
  = (Respond (mkResponse st (Some b)), mkState l n) ->
  prop "success" b = VBool true ->
  st = 200 /\
  exists k c r,
    nth_error l k = Some c /\
    S k = List.length l /\
    (is_put c = true \/ is_post c = true) /\
    fetch w (firstn k l) c = inr r /\
    resp_ok r = true.
Proof.
  destruct v; unfold_steps; reduce_state.
  all: repeat (case_step; reduce_state).
  all: intros E Hs; injection E as <- <- <- <-; try discriminate Hs.
  all: split; [reflexivity |].
  all: first
    [ solve [exists 1%nat; do 2 eexists; split; [reflexivity |]; split; [reflexivity |];
             split; [auto |]; split; [cbn [firstn]; eassumption | assumption]]
    | solve [exists 2%nat; do 2 eexists; split; [reflexivity |]; split; [reflexivity |];
             split; [auto |]; split; [cbn [firstn]; eassumption | assumption]] ].
Qed.

(** X13. A search-based handler reports success only after the platform
    accepted a write: when the response says [success: true], its status
    is 200 and the last call of the invocation is an update or a create
    that was answered with a success status. *)
Theorem success_means_accepted_write (v : Variant) (w : World) (req : Request) :
  let m := handler_of v w req in
  sent_field "success" m = VBool true ->
  sent_status m = Some 200 /\
  exists k c r,
    nth_error (trace m) k = Some c /\
    S k = List.length (trace m) /\
    (is_put c = true \/ is_post c = true) /\
    answer_at w m k = Some (inr r) /\
    resp_ok r = true.
Proof.
  intros m Hs. subst m.
  destruct (dispatch v w req)
    as [[Hm H] | [(Hm & Hm' & b & H & _ & Hb) | [(Hm & st & b & H & Hst & Hb)
       | (Hm & body & _ & _ & _ & _ & _ & _ & _ & H)]]].
  - unfold sent_field, outcome, invoke in Hs. rewrite H in Hs. discriminate.
  - unfold sent_field, outcome, invoke in Hs. rewrite H in Hs. cbn in Hs. congruence.
  - unfold sent_field, outcome, invoke in Hs. rewrite H in Hs. cbn in Hs. now elim Hb.
  - destruct (upsert_status v w (shop_domain w) (access_token w) (prop "email" body)
                (prop "source" body) (prop "discount_code" body) (prop "tags" body))
      as (st & b & l & n & Hu & _).
    rewrite Hu in H.
    assert (Hb : prop "success" b = VBool true).
    { unfold sent_field, outcome, invoke in Hs. now rewrite H in Hs. }
    destruct (upsert_success _ _ _ _ _ _ _ _ _ _ _ _ Hu Hb)
      as (-> & k & c & r & Hk & Hlen & Hw & Hf & Hok).
    unfold answer_at, sent_status, trace, outcome, invoke. rewrite H. cbn [fst snd calls status].
    split; [reflexivity |]. exists k, c, r. rewrite Hk, Hf. auto.
Qed.

Lemma success_means_accepted_write_witness :
  sent_status (handler_of W2 w_found req_plain) = Some 200 /\
  exists k c r,
    nth_error (trace (handler_of W2 w_found req_plain)) k = Some c /\
    S k = List.length (trace (handler_of W2 w_found req_plain)) /\
    (is_put c = true \/ is_post c = true) /\
    answer_at w_found (handler_of W2 w_found req_plain) k = Some (inr r) /\
    resp_ok r = true.
Proof.
  apply (success_means_accepted_write W2 w_found req_plain). reflexivity.
Defined.

(** ** When a call is rejected or its answer cannot be read *)

Section Failures.

Variables (v : Variant) (w : World) (dom tok : string) (email source dc tags : value).

Hypothesis Hce : converts email = true.

Let S0 := searchCall w dom tok email.
Let U0 (c : value) := updateCall v w dom tok c tags (clock w 0).

(** What the [catch] block around the sequence names as the error. *)
Let caught : value :=
  VStr match v with
       | W2 => "Shopify API request failed"
       | _ => "Internal server error"
       end.

Lemma run_search_rejected (e : JsError) :
  fetch w [] S0 = inl e ->
  exists b,
    upsert_of v w dom tok email source dc tags init
    = (Respond (mkResponse 500 (Some b)), mkState [S0] 0) /\
    prop "details" b = VStr (message e) /\ prop "error" b = caught.
Proof.
  intros Hf. subst S0 caught.
  destruct v; unfold_steps; follow.
  all: eexists; split; [reflexivity |]; split; reflexivity.
Qed.

Lemma run_search_unparsable (resp : FetchResponse) (e : JsError) :
  fetch w [] S0 = inr resp ->
  resp_ok resp = true ->
  JSON_parse w (resp_text resp) = inl e ->
  exists b,
    upsert_of v w dom tok email source dc tags init
    = (Respond (mkResponse 500 (Some b)), mkState [S0] 0) /\
    prop "details" b = VStr (message e) /\ prop "error" b = caught.
Proof.
  intros Hf Hok Hp. subst S0 caught.
  destruct v; unfold_steps; follow.
  all: eexists; split; [reflexivity |]; split; reflexivity.
Qed.

Lemma run_search_null (resp : FetchResponse) (sd : value) :
  fetch w [] S0 = inr resp ->
  resp_ok resp = true ->
  JSON_parse w (resp_text resp) = inr sd ->
  nullish sd = true ->
  exists b,
    upsert_of v w dom tok email source dc tags init
    = (Respond (mkResponse 500 (Some b)), mkState [S0] 0) /\
    prop "details" b = VStr (message (TypeError w "customers")) /\ prop "error" b = caught.
Proof.
  intros Hf Hok Hp Hn. subst S0 caught.
  destruct v; unfold_steps; follow.
  all: eexists; split; [reflexivity |]; split; reflexivity.
Qed.

Lemma run_no_list (resp : FetchResponse) (sd : value) :
  fetch w [] S0 = inr resp ->
  resp_ok resp = true ->
  JSON_parse w (resp_text resp) = inr sd ->
  nullish sd = false ->
  has_customers w (prop "customers" sd) = Some false ->
  upsert_of v w dom tok email source dc tags init
  = create_of v w dom tok email source dc tags (mkState [S0] 0).
Proof.
  intros Hf Hok Hp Hn Hc. subst S0.
  destruct v; unfold_steps; follow; reflexivity.
Qed.

Lemma run_null_customer (resp : FetchResponse) (sd c : value) (rest : list value) :
  fetch w [] S0 = inr resp ->
  resp_ok resp = true ->
  JSON_parse w (resp_text resp) = inr sd ->
  prop "customers" sd = VArr (c :: rest) ->
  nullish c = true ->
  exists b,
    upsert_of v w dom tok email source dc tags init
    = (Respond (mkResponse 500 (Some b)), mkState [S0] 0) /\
    prop "details" b = VStr (message (TypeError w "id")) /\ prop "error" b = caught.
Proof.
  intros Hf Hok Hp Hc Hnc. subst S0 caught.
  pose proof (prop_not_nullish _ _ VUndef _ Hc) as Hn.
  destruct v; unfold_steps; follow; cbn [index0 hd]; follow.
  all: eexists; split; [reflexivity |]; split; reflexivity.
Qed.

Lemma run_update_rejected (resp : FetchResponse) (sd c : value) (rest : list value)
    (e : JsError) :
  fetch w [] S0 = inr resp ->
  resp_ok resp = true ->
  JSON_parse w (resp_text resp) = inr sd ->
  prop "customers" sd = VArr (c :: rest) ->
  nullish c = false ->
  converts (prop "id" c) = true ->
  tags_convert v c tags = true ->
  fetch w [S0] (U0 c) = inl e ->
  exists b,
    upsert_of v w dom tok email source dc tags init
    = (Respond (mkResponse 500 (Some b)), mkState [S0; U0 c] 1) /\
    prop "details" b = VStr (message e) /\ prop "error" b = caught.
Proof.
  intros Hf Hok Hp Hc Hnc Hid Htc Hu. subst S0 U0 caught. cbv beta in Hu.
  pose proof (prop_not_nullish _ _ VUndef _ Hc) as Hn.
  destruct v; unfold_steps; follow; cbn [index0 hd]; follow.
  all: eexists; split; [reflexivity |]; split; reflexivity.
Qed.

End Failures.

Lemma update_unparsable (w : World) (dom tok : string) (email source dc tags : value)
    (resp u : FetchResponse) (sd c : value) (rest : list value) (e : JsError) :
  converts email = true ->
  fetch w [] (searchCall w dom tok email) = inr resp ->
  resp_ok resp = true ->
  JSON_parse w (resp_text resp) = inr sd ->
  prop "customers" sd = VArr (c :: rest) ->
  nullish c = false ->
  converts (prop "id" c) = true ->
  tags_convert P000 c tags = true ->
  fetch w [searchCall w dom tok email] (updateCall P000 w dom tok c tags (clock w 0)) = inr u ->
  resp_ok u = true ->
  JSON_parse w (resp_text u) = inl e ->
  upsert_of P000 w dom tok email source dc tags init
  = (Respond (mkResponse 500
                (Some (VObj [("success", VBool false);
                             ("error", VStr "Internal server error");
                             ("details", VStr (message e));
                             ("stack", dev_stack w e)]))),
     mkState [searchCall w dom tok email; updateCall P000 w dom tok c tags (clock w 0)] 1).
Proof.
  intros Hce Hf Hok Hp Hc Hnc Hid Htc Hu Huok Hpu.
  pose proof (prop_not_nullish _ _ VUndef _ Hc) as Hn.
  unfold_steps; follow; cbn [index0 hd]; follow.
  reflexivity.
Qed.

Lemma sent_facts (m : M unit) (st : Z) (b : value) (s : State) :
  m init = (Respond (mkResponse st (Some b)), s) ->
  sent_status m = Some st /\ (forall k, sent_field k m = prop k b) /\ trace m = calls s.
Proof.
  intros H. unfold sent_status, sent_field, trace, outcome, invoke. rewrite H.
  repeat split.
Qed.

(** X14. When the search call itself is rejected (the network fails), a
    search-based handler answers 500 with the error's message as details
    and makes no further call. *)
Theorem rejected_search_is_terminal
    (v : Variant) (w : World) (req : Request) (e : JsError) :
  let m := handler_of v w req in
  answer_at w m 0 = Some (inl e) ->
  sent_status m = Some 500 /\
  sent_field "details" m = VStr (message e) /\
  sent_field "error" m
  = VStr match v with
         | W2 => "Shopify API request failed"
         | _ => "Internal server error"
         end /\
  List.map call_method (trace m) = ["GET"].
Proof.
  intros m Ha. subst m. start Ha.
  destruct (run_search_rejected v w _ _ email source dc tags Hce e Hf) as (b & Hb & Hd & He).
  rewrite Hb in Hrun. destruct (sent_facts _ _ _ _ Hrun) as (Hst & Hfl & Htr).
  rewrite Hst, !Hfl, Htr. auto.
Qed.

Lemma rejected_search_is_terminal_witness :
  sent_status (handler_of W2 w_search_rejected req_plain) = Some 500 /\
  sent_field "details" (handler_of W2 w_search_rejected req_plain) = VStr "fetch failed" /\
  sent_field "error" (handler_of W2 w_search_rejected req_plain)
  = VStr "Shopify API request failed" /\
  List.map call_method (trace (handler_of W2 w_search_rejected req_plain)) = ["GET"].
Proof.
  apply (rejected_search_is_terminal W2 w_search_rejected req_plain network_down).
  reflexivity.
Defined.

(** X15. When a customer was found and the update call is rejected (the
    network fails), a search-based handler answers 500 with the error's
    message as details and does not go on to the create call: the search
    and the update stay the only calls. *)
Theorem rejected_update_is_terminal
    (v : Variant) (w : World) (req : Request) (resp : FetchResponse)
    (sd c : value) (rest : list value) (e : JsError) :
  let m := handler_of v w req in
  answer_at w m 0 = Some (inr resp) ->
  resp_ok resp = true ->
  JSON_parse w (resp_text resp) = inr sd ->
  prop "customers" sd = VArr (c :: rest) ->
  nullish c = false ->
  answer_at w m 1 = Some (inl e) ->
  sent_status m = Some 500 /\
  sent_field "details" m = VStr (message e) /\
  List.map call_method (trace m) = ["GET"; "PUT"].
Proof.
  intros m Ha Hok Hp Hc Hnc Hua. subst m. start Ha.
  destruct (update_answered v w req rb resp sd c rest _ Hrun Hce Hf Hok Hp Hc Hnc Hua)
    as (Hid & Htc & Hu).
  destruct (run_update_rejected v w _ _ email source dc tags Hce resp sd c rest e
              Hf Hok Hp Hc Hnc Hid Htc Hu) as (b & Hb & Hd & _).
  rewrite Hb in Hrun. destruct (sent_facts _ _ _ _ Hrun) as (Hst & Hfl & Htr).
  rewrite Hst, !Hfl, Htr. auto.
Qed.

Lemma rejected_update_is_terminal_witness :
  sent_status (handler_of P001 w_update_rejected req_plain) = Some 500 /\
  sent_field "details" (handler_of P001 w_update_rejected req_plain) = VStr "fetch failed" /\
  List.map call_method (trace (handler_of P001 w_update_rejected req_plain))
  = ["GET"; "PUT"].
Proof.
  apply (rejected_update_is_terminal P001 w_update_rejected req_plain
           (mkFetchResponse 200 text_two_customers) found_customers customer7
           [VObj [("id", VNum 8)]] network_down); reflexivity.
Defined.

(** X16. When the search is answered with a success status but the body
    is not JSON, or is JSON [null], a search-based handler answers 500
    with the parser's or the engine's message and makes no further call. *)
Theorem unreadable_search_answer
    (v : Variant) (w : World) (req : Request) (resp : FetchResponse) :
  let m := handler_of v w req in
  answer_at w m 0 = Some (inr resp) ->
  resp_ok resp = true ->
  match JSON_parse w (resp_text resp) with
  | inl e =>
      sent_status m = Some 500 /\ sent_field "details" m = VStr (message e) /\
      List.map call_method (trace m) = ["GET"]
  | inr sd =>
      nullish sd = true ->
      sent_status m = Some 500 /\
      sent_field "details" m = VStr (message (TypeError w "customers")) /\
      List.map call_method (trace m) = ["GET"]
  end.
Proof.
  intros m Ha Hok. subst m. start Ha.
  destruct (JSON_parse w (resp_text resp)) as [e | sd] eqn:Hp.
  - destruct (run_search_unparsable v w _ _ email source dc tags Hce resp e Hf Hok Hp)
      as (b & Hb & Hd & _).
    rewrite Hb in Hrun. destruct (sent_facts _ _ _ _ Hrun) as (Hst & Hfl & Htr).
    rewrite Hst, !Hfl, Htr. auto.
  - intros Hn.
    destruct (run_search_null v w _ _ email source dc tags Hce resp sd Hf Hok Hp Hn)
      as (b & Hb & Hd & _).
    rewrite Hb in Hrun. destruct (sent_facts _ _ _ _ Hrun) as (Hst & Hfl & Htr).
    rewrite Hst, !Hfl, Htr. auto.
Qed.

Lemma unreadable_search_answer_witness :
  sent_status (handler_of P000 w_search_garbled req_plain) = Some 500 /\
  sent_field "details" (handler_of P000 w_search_garbled req_plain)
  = VStr "Unexpected token" /\
  List.map call_method (trace (handler_of P000 w_search_garbled req_plain)) = ["GET"].
Proof.
  apply (unreadable_search_answer P000 w_search_garbled req_plain
           (mkFetchResponse 200 "<html>")); reflexivity.
Defined.

(** X17. When the search answer is an object whose [customers] is
    missing, falsy or of a length that is not positive, a search-based
    handler treats it as "no customer found": no call of the invocation is
    an update.  When the request's source and discount_code convert to
    strings, the calls are the search and then the create; when one of
    them does not, the template of the note throws, the search stays the
    only call and the answer is a 500. *)
Theorem missing_customers_list_creates
    (v : Variant) (w : World) (req : Request) (resp : FetchResponse) (body sd : value) :
  let m := handler_of v w req in
  parsed_body v w req = Some body ->
  answer_at w m 0 = Some (inr resp) ->
  resp_ok resp = true ->
  JSON_parse w (resp_text resp) = inr sd ->
  nullish sd = false ->
  has_customers w (prop "customers" sd) = Some false ->
  (forall c, In c (trace m) -> is_put c = false) /\
  (converts (prop "source" body) = true ->
   converts (prop "discount_code" body) = true ->
   trace m
   = [searchCall w (shop_domain w) (access_token w) (prop "email" body);
      createCall v w (shop_domain w) (access_token w) (prop "email" body)
        (prop "source" body) (prop "discount_code" body) (prop "tags" body)
        (clock w 0) (clock w 1)]) /\
  (converts (prop "source" body) && converts (prop "discount_code" body) = false ->
   sent_status m = Some 500 /\
   sent_field "details" m = VStr (message (cannot_convert w)) /\
   trace m = [searchCall w (shop_domain w) (access_token w) (prop "email" body)]).
Proof.
  intros m Hpb Ha Hok Hp Hn Hc. subst m.
  start_on Ha Hpb.
  rewrite (run_no_list v w _ _ email source dc tags Hce resp sd Hf Hok Hp Hn Hc) in Hrun.
  set (s := mkState [searchCall w (shop_domain w) (access_token w) email] 0) in *.
  split; [| split].
  - destruct (create_cases v w (shop_domain w) (access_token w) email source dc tags s)
      as (r & l & n & Hr & [[_ ->] | (_ & _ & ->)]);
      rewrite Hr in Hrun; destruct (run_observed _ _ _ _ Hrun) as (Htr & _); rewrite Htr.
    + intros c [<- | []]. reflexivity.
    + intros c [<- | [<- | []]]; reflexivity.
  - intros Hs Hd.
    destruct (create_calls v w (shop_domain w) (access_token w) email source dc tags s Hs Hd)
      as [r Hr].
    rewrite Hr in Hrun. destruct (run_observed _ _ _ _ Hrun) as (Htr & _).
    rewrite Htr. reflexivity.
  - intros Hno.
    destruct (create_stopped v w (shop_domain w) (access_token w) email source dc tags s Hno)
      as (b & Hb & Hd & _).
    rewrite Hb in Hrun. destruct (run_observed _ _ _ _ Hrun) as (Htr & Hout & _).
    unfold sent_status, sent_field. rewrite Hout, Htr. cbn [status].
    split; [reflexivity |]. split; [exact Hd | reflexivity].
Qed.

Lemma missing_customers_list_creates_witness :
  List.map call_method
    (trace (handler_of W2
              (demo_world (answer 200 text_customer) (answer 500 "boom")
                 (answer 201 text_customer)) req_plain))
  = ["GET"; "POST"].
Proof.
  pose proof (missing_customers_list_creates W2
                (demo_world (answer 200 text_customer) (answer 500 "boom")
                   (answer 201 text_customer)) req_plain
                (mkFetchResponse 200 text_customer) (VObj [("email", VStr "a@b.com")])
                (VObj [("customer", customer9)])
                eq_refl eq_refl eq_refl eq_refl eq_refl eq_refl) as (_ & H & _).
  cbv zeta in H. rewrite (H eq_refl eq_refl). reflexivity.
Defined.

(** X18. When the first entry of the customers list is [null], a
    search-based handler answers 500 and issues neither the update nor
    the create. *)
Theorem null_first_customer
    (v : Variant) (w : World) (req : Request) (resp : FetchResponse)
    (sd c : value) (rest : list value) :
  let m := handler_of v w req in
  answer_at w m 0 = Some (inr resp) ->
  resp_ok resp = true ->
  JSON_parse w (resp_text resp) = inr sd ->
  prop "customers" sd = VArr (c :: rest) ->
  nullish c = true ->
  sent_status m = Some 500 /\
  sent_field "details" m = VStr (message (TypeError w "id")) /\
  List.map call_method (trace m) = ["GET"].
Proof.
  intros m Ha Hok Hp Hc Hnc. subst m. start Ha.
  destruct (run_null_customer v w _ _ email source dc tags Hce resp sd c rest Hf Hok Hp Hc Hnc)
    as (b & Hb & Hd & _).
  rewrite Hb in Hrun. destruct (sent_facts _ _ _ _ Hrun) as (Hst & Hfl & Htr).
  rewrite Hst, !Hfl, Htr. auto.
Qed.

Lemma null_first_customer_witness :
  sent_status (handler_of W2 w_null_customer req_plain) = Some 500 /\
  sent_field "details" (handler_of W2 w_null_customer req_plain)
  = VStr "Cannot read properties of null (reading 'id')" /\
  List.map call_method (trace (handler_of W2 w_null_customer req_plain)) = ["GET"].
Proof.
  apply (null_first_customer W2 w_null_customer req_plain
           (mkFetchResponse 200 text_null_customer)
           (VObj [("customers", VArr [VNull])]) VNull []); reflexivity.
Defined.

(** X19. In part_000 an update that the platform accepted but answered
    with a body that is not JSON is reported as a 500 with
    [success: false]; no create call follows. *)
Theorem unreadable_update_answer
    (w : World) (req : Request) (resp u : FetchResponse)
    (sd c : value) (rest : list value) (e : JsError) :
  let m := Part000.handler w req in
  answer_at w m 0 = Some (inr resp) ->
  resp_ok resp = true ->
  JSON_parse w (resp_text resp) = inr sd ->
  prop "customers" sd = VArr (c :: rest) ->
  nullish c = false ->
  answer_at w m 1 = Some (inr u) ->
  resp_ok u = true ->
  JSON_parse w (resp_text u) = inl e ->
  sent_status m = Some 500 /\
  sent_field "success" m = VBool false /\
  sent_field "details" m = VStr (message e) /\
  List.map call_method (trace m) = ["GET"; "PUT"].
Proof.
  intros m Ha Hok Hp Hc Hnc Hua Huok Hpu. subst m.
  change (Part000.handler w req) with (handler_of P000 w req) in *. start Ha.
  destruct (update_answered P000 w req rb resp sd c rest _ Hrun Hce Hf Hok Hp Hc Hnc Hua)
    as (Hid & Htc & Hu).
  rewrite (update_unparsable w _ _ email source dc tags resp u sd c rest e
             Hce Hf Hok Hp Hc Hnc Hid Htc Hu Huok Hpu) in Hrun.
  destruct (sent_facts _ _ _ _ Hrun) as (Hst & Hfl & Htr).
  rewrite Hst, !Hfl, Htr. repeat split.
Qed.

Lemma unreadable_update_answer_witness :
  sent_status (Part000.handler w_update_garbled req_plain) = Some 500 /\
  sent_field "success" (Part000.handler w_update_garbled req_plain) = VBool false /\
  sent_field "details" (Part000.handler w_update_garbled req_plain)
  = VStr "Unexpected token" /\
  List.map call_method (trace (Part000.handler w_update_garbled req_plain))
  = ["GET"; "PUT"].
Proof.
  apply (unreadable_update_answer w_update_garbled req_plain
           (mkFetchResponse 200 text_two_customers) (mkFetchResponse 200 "")
           found_customers customer7 [VObj [("id", VNum 8)]]
           (mkError "Unexpected token" "SyntaxError")); reflexivity.
Defined.

(** A POST in the trace is the last call, and the invocation ended in the
    create step that issued it, after the conversions of that step. *)
Lemma create_entered (v : Variant) (w : World) (req : Request) (k : nat) (c : Call) :
  nth_error (trace (handler_of v w req)) k = Some c ->
  is_post c = true ->
  exists body s,
    parsed_body v w req = Some body /\
    converts (prop "source" body) = true /\
    converts (prop "discount_code" body) = true /\
    handler_of v w req init
    = create_of v w (shop_domain w) (access_token w) (prop "email" body)
        (prop "source" body) (prop "discount_code" body) (prop "tags" body) s /\
    answer_at w (handler_of v w req) k
    = Some (fetch w (calls s)
              (createCall v w (shop_domain w) (access_token w) (prop "email" body)
                 (prop "source" body) (prop "discount_code" body) (prop "tags" body)
                 (clock w (ticks s)) (clock w (S (ticks s))))).
Proof.
  intros Hnth Hpost.
  destruct (reach v w req) as [[r0 Hr0] | (body & Hb & _ & _ & Hrun)].
  { unfold trace, invoke in Hnth. rewrite Hr0 in Hnth. destruct k; discriminate. }
  set (dom := shop_domain w) in *. set (tok := access_token w) in *.
  set (email := prop "email" body) in *. set (source := prop "source" body) in *.
  set (dc := prop "discount_code" body) in *. set (tags := prop "tags" body) in *.
  assert (Hin : forall s,
             handler_of v w req init = create_of v w dom tok email source dc tags s ->
             (forall x, In x (calls s) -> is_post x = false) ->
             converts source = true /\ converts dc = true /\
             answer_at w (handler_of v w req) k
             = Some (fetch w (calls s)
                       (createCall v w dom tok email source dc tags
                          (clock w (ticks s)) (clock w (S (ticks s)))))).
  { intros s Hs Hnp.
    destruct (create_cases v w dom tok email source dc tags s)
      as (r1 & l & n & Hr1 & [[_ ->] | (Hcs & Hcd & ->)]);
      rewrite Hr1 in Hs; destruct (run_observed _ _ _ _ Hs) as (Htr & _).
    { rewrite Htr in Hnth. apply nth_error_In in Hnth. apply Hnp in Hnth. congruence. }
    split; [exact Hcs |]. split; [exact Hcd |].
    unfold answer_at. rewrite Htr in *.
    assert (Hk : k = List.length (calls s)).
    { destruct (Nat.lt_trichotomy k (List.length (calls s))) as [Hlt | [Heq | Hgt]].
      - rewrite nth_error_app1 in Hnth by assumption.
        apply nth_error_In in Hnth. apply Hnp in Hnth. congruence.
      - assumption.
      - assert (Hnone : nth_error (calls s ++ [createCall v w dom tok email source dc tags
                            (clock w (ticks s)) (clock w (S (ticks s)))])%list k = None).
        { apply nth_error_None. rewrite length_app. simpl. lia. }
        congruence. }
    subst k. rewrite nth_error_app2, Nat.sub_diag by lia. cbn [nth_error].
    rewrite firstn_app, firstn_all, Nat.sub_diag. cbn [firstn].
    now rewrite app_nil_r. }
  destruct (upsert_cases v w dom tok email source dc tags)
    as [(r1 & l & n & Hr1 & Hnp) | [Hc1 | [c1 Hc2]]].
  - rewrite Hr1 in Hrun. destruct (run_observed _ _ _ _ Hrun) as (Htr & _).
    rewrite Htr in Hnth. apply nth_error_In in Hnth. apply Hnp in Hnth. congruence.
  - rewrite Hc1 in Hrun. exists body. eexists. split; [assumption |].
    assert (Hnp : forall x,
               In x (calls (mkState [searchCall w dom tok email] 0)) -> is_post x = false).
    { intros x Hx. cbn [calls] in Hx. split_in Hx. reflexivity. }
    destruct (Hin _ Hrun Hnp) as (H1 & H2 & H3).
    split; [exact H1 |]. split; [exact H2 |]. split; [exact Hrun | exact H3].
  - rewrite Hc2 in Hrun. exists body. eexists. split; [assumption |].
    assert (Hnp : forall x,
               In x (calls (mkState [searchCall w dom tok email;
                                     updateCall v w dom tok c1 tags (clock w 0)] 1)) ->
               is_post x = false).
    { intros x Hx. cbn [calls] in Hx. split_in Hx; reflexivity. }
    destruct (Hin _ Hrun Hnp) as (H1 & H2 & H3).
    split; [exact H1 |]. split; [exact H2 |]. split; [exact Hrun | exact H3].
Qed.

(** X20. When the create call is answered with a success status but the
    body is not JSON, or holds no customer, a search-based handler
    answers 500 although the platform accepted the create. *)
Theorem unreadable_create_answer
    (v : Variant) (w : World) (req : Request) (k : nat) (c : Call) (r : FetchResponse) :
  let m := handler_of v w req in
  nth_error (trace m) k = Some c ->
  is_post c = true ->
  answer_at w m k = Some (inr r) ->
  resp_ok r = true ->
  match JSON_parse w (resp_text r) with
  | inl e => sent_status m = Some 500 /\ sent_field "details" m = VStr (message e)
  | inr res =>
      nullish res = false ->
      nullish (prop "customer" res) = true ->
      sent_status m = Some 500 /\
      sent_field "details" m
      = VStr (message (TypeError w match v with
                                   | P001 => "admin_graphql_api_id"
                                   | _ => "id"
                                   end))
  end.
Proof.
  intros m Hnth Hpost Ha Hok. subst m.
  destruct (create_entered v w req k c Hnth Hpost)
    as (body & s & _ & Hcs & Hcd & Hrun & Hans).
  rewrite Hans in Ha. injection Ha as Hf.
  destruct (JSON_parse w (resp_text r)) as [e | res] eqn:Hp.
  - destruct (create_answer_unparsable v w _ _ _ _ _ _ s r e Hcs Hcd Hf Hok Hp)
      as (b & Hb & Hd & _).
    rewrite Hb in Hrun. destruct (sent_facts _ _ _ _ Hrun) as (Hst & Hfl & _).
    rewrite Hst, !Hfl. auto.
  - intros Hn Hnc.
    destruct (create_without_customer v w _ _ _ _ _ _ s r res Hcs Hcd Hf Hok Hp Hn Hnc)
      as (b & Hb & Hd & _).
    rewrite Hb in Hrun. destruct (sent_facts _ _ _ _ Hrun) as (Hst & Hfl & _).
    rewrite Hst, !Hfl. auto.
Qed.

Lemma unreadable_create_answer_witness :
  sent_status (handler_of W2 w_create_garbled req_plain) = Some 500 /\
  sent_field "details" (handler_of W2 w_create_garbled req_plain)
  = VStr "Unexpected token".
Proof.
  apply (unreadable_create_answer W2 w_create_garbled req_plain 1%nat
           (createCall W2 w_create_garbled "shop.example" "tok" (VStr "a@b.com")
              VUndef VUndef VUndef 0 1)
           (mkFetchResponse 201 "<html>")); reflexivity.
Defined.

(** ** The first handler of webhook.js *)

(** A create call that succeeds ends in the 200 of line 50. *)
Lemma webhook1_created (w : World) (req : Request) (c : Call) (r : FetchResponse)
    (res : value) :
  hd_error (trace (Webhook1.handler w req)) = Some c ->
  fetch w [] c = inr r ->
  resp_ok r = true ->
  JSON_parse w (resp_text r) = inr res ->
  nullish res = false ->
  nullish (prop "customer" res) = false ->
  Webhook1.handler w req init
  = (Respond (mkResponse 200
                (Some (VObj [("success", VBool true);
                             ("customer_id", prop "id" (prop "customer" res));
                             ("email", prop "email" (prop "customer" res));
                             ("message", VStr "Customer created successfully")]))),
     mkState [c] 1).
Proof.
  intros Hhd Hf Hok Hp Hn Hnc. revert Hhd. destruct req as [meth b].
  unfold trace, invoke. unfold_webhook1. cbn [req_method req_body]. reduce_state.
  repeat (case_step; reduce_state).
  all: cbn [fst snd calls hd_error]; intros Hhd; try discriminate.
  all: injection Hhd as <-; try congruence.
  all: repeat match goal with
              | H : negb _ = false |- _ => apply negb_false_iff in H
              | H : negb _ = true |- _ => apply negb_true_iff in H
              end; congruence.
Qed.

(** X21. When its create call is answered with a success status and a
    body holding a customer, the first handler of webhook.js answers 200
    with [success: true], the new customer's id and e-mail, and the
    message "Customer created successfully". *)
Theorem create_only_success
    (w : World) (req : Request) (c : Call) (r : FetchResponse) (res : value) :
  let m := Webhook1.handler w req in
  hd_error (trace m) = Some c ->
  fetch w [] c = inr r ->
  resp_ok r = true ->
  JSON_parse w (resp_text r) = inr res ->
  nullish res = false ->
  nullish (prop "customer" res) = false ->
  outcome m
  = Sent (mkResponse 200
            (Some (VObj [("success", VBool true);
                         ("customer_id", prop "id" (prop "customer" res));
                         ("email", prop "email" (prop "customer" res));
                         ("message", VStr "Customer created successfully")]))) /\
  trace m = [c].
Proof.
  intros m Hhd Hf Hok Hp Hn Hnc. subst m.
  pose proof (webhook1_created w req c r res Hhd Hf Hok Hp Hn Hnc) as Hrun.
  unfold outcome, trace, invoke. rewrite Hrun. split; reflexivity.
Qed.

Lemma create_only_success_witness :
  outcome (Webhook1.handler w_empty req_plain)
  = Sent (mkResponse 200
            (Some (VObj [("success", VBool true);
                         ("customer_id", VNum 9);
                         ("email", VStr "a@b.com");
                         ("message", VStr "Customer created successfully")]))) /\
  trace (Webhook1.handler w_empty req_plain) = [plain_create1 w_empty].
Proof.
  apply (create_only_success w_empty req_plain (plain_create1 w_empty)
           (mkFetchResponse 201 text_customer) (VObj [("customer", customer9)]));
    reflexivity.
Defined.

(** X22. In the first handler of webhook.js a create call answered with
    status 422, or with any non-success status and a body text that
    contains "422", is reported as a 200 with [success: true]. *)
Theorem create_only_422_is_success
    (w : World) (req : Request) (c : Call) (r : FetchResponse) :
  let m := Webhook1.handler w req in
  hd_error (trace m) = Some c ->
  fetch w [] c = inr r ->
  resp_ok r = false ->
  resp_status r = 422 \/ includes "422" (resp_text r) = true ->
  sent_status m = Some 200 /\
  sent_field "success" m = VBool true /\
  sent_field "message" m = VStr "Customer already exists - updated marketing consent" /\
  trace m = [c].
Proof.
  intros m Hhd Hf Hok H422. subst m.
  pose proof (webhook1_failed w req c _ Hhd (create_not_ok w c r Hf Hok)) as Hrun.
  assert (Hinc : includes "422"
                   (message (new_Error w ("Shopify API Error: "
                                          ++ string_of_Z (resp_status r)
                                          ++ " - " ++ resp_text r))) = true).
  { cbn [message new_Error]. destruct H422 as [-> | Ht].
    - apply (includes_middle "422" "Shopify API Error: " (" - " ++ resp_text r)).
    - apply includes_app_r, includes_app_r, includes_app_r. exact Ht. }
  unfold Webhook1.on_error in Hrun. rewrite Hinc in Hrun.
  unfold sent_status, sent_field, trace, outcome, invoke. rewrite Hrun. repeat split.
Qed.

Lemma create_only_422_is_success_witness :
  (sent_status (Webhook1.handler w_taken req_plain) = Some 200 /\
   sent_field "success" (Webhook1.handler w_taken req_plain) = VBool true) /\
  (sent_status (Webhook1.handler w_taken_in_text req_plain) = Some 200 /\
   sent_field "success" (Webhook1.handler w_taken_in_text req_plain) = VBool true).
Proof.
  split.
  - destruct (create_only_422_is_success w_taken req_plain (plain_create1 w_taken)
                (mkFetchResponse 422 "taken")) as (H1 & H2 & _);
      [reflexivity | reflexivity | reflexivity | left; reflexivity | auto].
  - destruct (create_only_422_is_success w_taken_in_text req_plain
                (plain_create1 w_taken_in_text)
                (mkFetchResponse 500 "upstream said 422")) as (H1 & H2 & _);
      [reflexivity | reflexivity | reflexivity | right; reflexivity | auto].
Defined.

(** ** Bodies that are missing or are text *)

Ltac run_post :=
  unfold sent_status, sent_field, trace, outcome, invoke, rejected_400;
  unfold handler_of, Webhook1.handler, Webhook1.isValidEmail, Webhook1.on_error,
    Webhook2.handler, Webhook2.parse_body, Webhook2.on_error,
    Part000.handler, Part000.parse_body, Part000.on_error,
    Part001.handler, Part001.on_error;
  unfold_monad;
  cbn [req_method req_body typeof nullish prop toStr String.eqb Ascii.eqb Bool.eqb
       negb andb orb truthy];
  reduce_state.

(** X23. A POST without a body ([req.body] null or undefined) never
    reaches the platform.  webhook.js's second handler answers 400 and
    names the body's type; part_000 and part_001 answer 500 "Internal
    server error" with the engine's message; the first handler of
    webhook.js answers through its [catch] block, 500 "Failed to create
    customer" unless that message contains "422". *)
Theorem missing_body (w : World) (req : Request) :
  req_method req = "POST" ->
  nullish (req_body req) = true ->
  (rejected_400 (Webhook2.handler w req) /\
   sent_field "details" (Webhook2.handler w req)
   = VStr ("Invalid body type: " ++ typeof (req_body req))) /\
  (forall v, v <> W2 ->
     sent_status (handler_of v w req) = Some 500 /\
     sent_field "error" (handler_of v w req) = VStr "Internal server error" /\
     sent_field "details" (handler_of v w req) = VStr (message (TypeError w "email")) /\
     trace (handler_of v w req) = []) /\
  (trace (Webhook1.handler w req) = [] /\
   (includes "422" (message (TypeError w "email")) = false ->
    sent_status (Webhook1.handler w req) = Some 500 /\
    sent_field "error" (Webhook1.handler w req) = VStr "Failed to create customer" /\
    sent_field "details" (Webhook1.handler w req) = VStr (message (TypeError w "email")))).
Proof.
  destruct req as [m b]. cbn [req_method req_body]. intros -> Hn.
  split; [| split].
  - destruct b; try discriminate Hn; run_post; repeat split; eexists; reflexivity.
  - intros v Hv. destruct v; [now elim Hv | |];
      destruct b; try discriminate Hn; run_post; repeat split.
  - destruct b; try discriminate Hn; run_post;
      (split; [destruct (includes "422" (message (TypeError w "email"))); reflexivity |]);
      intros ->; repeat split.
Qed.

Lemma missing_body_witness :
  rejected_400 (Webhook2.handler w_empty req_no_body) /\
  sent_field "details" (Webhook2.handler w_empty req_no_body)
  = VStr "Invalid body type: undefined" /\
  sent_status (handler_of P001 w_empty req_no_body) = Some 500 /\
  sent_status (Webhook1.handler w_empty req_no_body) = Some 500.
Proof.
  destruct (missing_body w_empty req_no_body eq_refl eq_refl)
    as ((H1 & H2) & H3 & _ & H4).
  split; [exact H1 |]. split; [exact H2 |]. split.
  - apply (H3 P001). discriminate.
  - apply H4. reflexivity.
Defined.

(** X24. part_001 and the first handler of webhook.js never parse the
    body: a POST whose body is text, valid JSON or not, has no e-mail for
    them and is answered 400 before any outbound call. *)
Theorem text_body_is_not_parsed (w : World) (req : Request) (text : string) :
  req_method req = "POST" ->
  req_body req = VStr text ->
  (rejected_400 (Part001.handler w req) /\
   sent_field "error" (Part001.handler w req) = VStr "Email is required") /\
  (rejected_400 (Webhook1.handler w req) /\
   sent_field "error" (Webhook1.handler w req) = VStr "Invalid email address").
Proof.
  destruct req as [m b]. cbn [req_method req_body]. intros -> ->.
  split; run_post; repeat split; eexists; reflexivity.
Qed.

Lemma text_body_is_not_parsed_witness :
  rejected_400 (Part001.handler w_empty (mkRequest "POST" (VStr text_customer))) /\
  rejected_400 (Webhook1.handler w_empty (mkRequest "POST" (VStr text_customer))).
Proof.
  destruct (text_body_is_not_parsed w_empty (mkRequest "POST" (VStr text_customer))
              text_customer eq_refl eq_refl) as ((H1 & _) & (H2 & _)).
  split; [exact H1 | exact H2].
Defined.

Lemma substring0_length (n : nat) (s : string) :
  (String.length (substring0 n s) <= n)%nat.
Proof.
  unfold substring0. revert s. induction n as [| n IH]; intros [| c s]; simpl; try lia.
  specialize (IH s). lia.
Qed.

Lemma substring0_short (n : nat) (s : string) :
  (String.length s <= n)%nat -> substring0 n s = s.
Proof.
  unfold substring0. revert s.
  induction n as [| n IH]; intros [| c s]; simpl; intros H; try reflexivity; try lia.
  f_equal. apply IH. lia.
Qed.

(** X25. A POST whose body is text that does not parse as JSON is
    answered 400 "Invalid JSON in request body" with the parser's message
    by webhook.js's second handler and by part_000, before any outbound
    call; webhook.js echoes the text back, cut to at most 200
    characters. *)
Theorem invalid_json_body (w : World) (req : Request) (text : string) (e : JsError) :
  req_method req = "POST" ->
  req_body req = VStr text ->
  JSON_parse w text = inl e ->
  (forall v, v <> P001 ->
     rejected_400 (handler_of v w req) /\
     sent_field "error" (handler_of v w req) = VStr "Invalid JSON in request body" /\
     sent_field "details" (handler_of v w req) = VStr (message e)) /\
  (exists echoed,
      sent_field "received" (Webhook2.handler w req) = VStr echoed /\
      echoed = substring0 200 text /\
      (String.length echoed <= 200)%nat /\
      ((String.length text <= 200)%nat -> echoed = text)).
Proof.
  destruct req as [m b]. cbn [req_method req_body]. intros -> -> Hp.
  split.
  - intros v Hv. destruct v; [| | now elim Hv]; run_post; rewrite Hp; reduce_state;
      repeat split; eexists; reflexivity.
  - exists (substring0 200 text). split; [run_post; rewrite Hp; reflexivity |].
    split; [reflexivity |]. split; [apply substring0_length | apply substring0_short].
Qed.

Lemma invalid_json_body_witness :
  rejected_400 (handler_of P000 w_empty req_garbled) /\
  sent_field "details" (handler_of W2 w_empty req_garbled) = VStr "Unexpected token" /\
  sent_field "received" (Webhook2.handler w_empty req_garbled) = VStr "{".
Proof.
  destruct (invalid_json_body w_empty req_garbled "{"
              (mkError "Unexpected token" "SyntaxError") eq_refl eq_refl eq_refl)
    as (H1 & echoed & H2 & H3 & _).
  split; [apply (H1 P000); discriminate |].
  split; [apply (H1 W2); discriminate |].
  rewrite H2, H3. reflexivity.
Defined.

(** ** The stack trace in error responses *)

Lemma dev_stack_cases (w : World) (e : JsError) :
  dev_stack w e <> VUndef -> env w "NODE_ENV" = Some "development".
Proof.
  unfold dev_stack. destruct (env w "NODE_ENV") as [mode |]; [| now intros H; elim H].
  destruct (String.eqb_spec mode "development") as [-> | _]; [reflexivity |].
  now intros H; elim H.
Qed.

Ltac stack_leaf :=
  do 2 eexists; split; [reflexivity |];
  cbn [body status]; intros b' Hb';
  first [ discriminate Hb'
        | injection Hb' as <-; cbn;
          let Hs := fresh "Hs" in
          intros Hs;
          first [ now elim Hs
                | apply dev_stack_cases in Hs;
                  repeat split; auto; discriminate ] ].

(** Every run ends in a response; one with a [stack] property comes from
    the outer [catch] of webhook.js's second handler or of part_000. *)
Lemma stack_of_run (e : Endpoint) (w : World) (req : Request) :
  exists r s,
    endpoint_handler e w req init = (Respond r, s) /\
    forall b, body r = Some b -> prop "stack" b <> VUndef ->
      env w "NODE_ENV" = Some "development" /\
      (e = Searching W2 \/ e = Searching P000) /\
      status r = 500 /\
      prop "error" b = VStr "Internal server error" /\
      (e = Searching W2 -> calls s = []).
Proof.
  destruct req as [mt b].
  destruct e as [| v]; cbn [endpoint_handler].
  - unfold_webhook1. cbn [req_method req_body]. reduce_state.
    repeat (case_step; reduce_state).
    all: stack_leaf.
  - destruct v; unfold handler_of;
      unfold Webhook2.handler, Webhook2.parse_body, Webhook2.on_error,
        Part000.handler, Part000.parse_body, Part000.on_error,
        Part001.handler, Part001.on_error;
      unfold_steps; cbn [req_method req_body]; reduce_state.
    all: repeat (case_step; reduce_state).
    all: stack_leaf.
Qed.

(** X26. A response carries a stack trace only in a development
    deployment: when the [stack] property of a response is defined,
    [NODE_ENV] is [development], the handler is webhook.js's second one or
    part_000, and the response is the 500 "Internal server error" of the
    outer [catch]; in webhook.js that happens only before the first
    outbound call, since errors of the calls are answered by the inner
    [catch], which sends no stack. *)
Theorem stack_only_in_development (e : Endpoint) (w : World) (req : Request) :
  let m := endpoint_handler e w req in
  sent_field "stack" m <> VUndef ->
  env w "NODE_ENV" = Some "development" /\
  (e = Searching W2 \/ e = Searching P000) /\
  sent_status m = Some 500 /\
  sent_field "error" m = VStr "Internal server error" /\
  (e = Searching W2 -> trace m = []).
Proof.
  intros m. subst m.
  destruct (stack_of_run e w req) as (r & s & Hrun & Hstack).
  unfold sent_field, sent_status, trace, outcome, invoke. rewrite Hrun.
  cbn [fst snd]. destruct r as [st [b |]]; cbn [body status] in *.
  - intros Hs. destruct (Hstack b eq_refl Hs) as (Henv & He & Hst & Herr & Htr).
    repeat split; try assumption. now rewrite Hst.
  - intros Hs. now elim Hs.
Qed.

Lemma stack_only_in_development_witness :
  sent_field "stack" (endpoint_handler (Searching P000) w_development req_no_body) <> VUndef /\
  env w_development "NODE_ENV" = Some "development" /\
  sent_status (endpoint_handler (Searching P000) w_development req_no_body) = Some 500 /\
  sent_field "error" (endpoint_handler (Searching P000) w_development req_no_body)
  = VStr "Internal server error".
Proof.
  assert (Hs : sent_field "stack" (endpoint_handler (Searching P000) w_development req_no_body)
               <> VUndef) by (vm_compute; discriminate).
  destruct (stack_only_in_development (Searching P000) w_development req_no_body Hs)
    as (Henv & _ & Hst & Herr & _).
  split; [exact Hs |]. split; [exact Henv |]. split; [exact Hst | exact Herr].
Defined.
